(** * Billboard Sentinel: rules engine, geofence and size estimation

    A shallow embedding of [backend/app/rules.py], [backend/app/geofence.py]
    and [backend/app/size_estimation.py], with the box generator of
    [backend/app/detection.py] and the confidence of [backend/app/ocr.py],
    the properties their specification states about them, and further
    properties of the code.

    Modelling conventions.
    - A Python [float] is an exact rational ([Q]): every finite float is a
      rational, and [+], [-], [*], [/] and the comparisons are taken exactly.
      Rounding, infinities and NaN are outside the model.  A division whose
      divisor is zero raises [ZeroDivisionError], as in Python.
    - Python's [math] functions, [repr] of a float and [numpy.median] are not
      code of the repository: they are the fields of the class [Builtins], and
      every definition and theorem is parametric in them.  [ApproxMath] is one
      concrete instance (rational approximations) used to run the model.
    - An exception is a value of [exn]; a function that can raise returns a
      [result].  In [rules.py] the domain errors of [math.sqrt] and
      [math.asin] are modelled ([Math.sqrt], [Math.asin]): the junction
      check meets junctions of any position.  In [geofence.py], whose
      distances are taken to the fixed sites and records of the module,
      the [math] functions are total.
    - A [str] is the [string] of the bytes of its UTF-8 encoding.  [strip]
      trims the white space of Unicode, as [str.strip] does; [len] counts
      characters; [lower] acts on the ASCII letters.
    - A junction is the record of what the junction check reads of a
      GeoJSON feature: its coordinates, when they can be read, and the
      shape of its [properties].
    - A dictionary with a fixed set of keys is a record; a dictionary whose
      keys vary is an association list or an inductive type with one
      constructor per shape. *)

From Stdlib Require Import ZArith QArith Qround Qabs Qpower Lqa Lia.
From Stdlib Require Import List String Ascii Bool DecimalString.
Import ListNotations.

Set Implicit Arguments.

(* ================================================================== *)
(** * The Python fragment the modules use *)
(* ================================================================== *)

Inductive exn : Type :=
| ZeroDivisionError
| IndexError
| ValueError
| UnboundLocalError
| AttributeError.

Inductive result (A : Type) : Type :=
| Ok (a : A)
| Raise (e : exn).

Arguments Ok {A} a.
Arguments Raise {A} e.

Definition bind {A B : Type} (c : result A) (k : A -> result B) : result B :=
  match c with
  | Ok a => k a
  | Raise e => Raise e
  end.


Module Py.

(** ** Numbers *)

Definition lt (a b : Q) : bool := negb (Qle_bool b a).
Definition le (a b : Q) : bool := Qle_bool a b.
Definition gt (a b : Q) : bool := lt b a.
Definition eq (a b : Q) : bool := Qeq_bool a b.
Definition ne (a b : Q) : bool := negb (Qeq_bool a b).

(** [a / b] on floats. *)
Definition truediv (a b : Q) : result Q :=
  if Qeq_bool b 0 then Raise ZeroDivisionError else Ok (a / b).

(** [min(a, b)] keeps [a] unless [b < a]; [max(a, b)] keeps [a] unless
    [b > a]. *)
Definition min (a b : Q) : Q := if lt b a then b else a.
Definition max (a b : Q) : Q := if gt b a then b else a.

(** [int(x)] of a float: truncation towards zero. *)
Definition int (x : Q) : Z := Z.quot (Qnum x) (Zpos (Qden x)).

(** Rounding to the nearest integer, ties to the even one. *)
Definition round_half_even (x : Q) : Z :=
  let f := Qfloor x in
  match Qcompare (x - inject_Z f) (1 # 2) with
  | Lt => f
  | Gt => (f + 1)%Z
  | Eq => if Z.even f then f else (f + 1)%Z
  end.

Definition pow10 (d : nat) : Z := (10 ^ Z.of_nat d)%Z.

(** [round(x, d)]. *)
Definition round (x : Q) (d : nat) : Q :=
  inject_Z (round_half_even (x * inject_Z (pow10 d))) / inject_Z (pow10 d).

(** ** Strings

    A [str] is the string of the bytes of its UTF-8 encoding. *)

Local Open Scope string_scope.

Definition digits (n : Z) : string :=
  NilZero.string_of_uint (N.to_uint (Z.to_N n)).

(** [str(n)] of an [int]. *)
Definition str_int (n : Z) : string :=
  if (n <? 0)%Z then "-" ++ digits (Z.abs n) else digits n.

Fixpoint zeros (k : nat) : string :=
  match k with
  | O => ""
  | S k' => String "0" (zeros k')
  end.

Definition zfill (d : nat) (s : string) : string :=
  zeros (d - String.length s) ++ s.

(** [f"{x:.df}"]: fixed-point notation with [d] digits after the point,
    correctly rounded. *)
Definition format_f (d : nat) (x : Q) : string :=
  let n := round_half_even (Qabs x * inject_Z (pow10 d)) in
  let sign := if lt x 0 then "-" else "" in
  let ip := (n / pow10 d)%Z in
  let fp := (n mod pow10 d)%Z in
  sign ++ digits ip ++
  match d with
  | O => ""
  | _ => "." ++ zfill d (digits fp)
  end.

(** Truth value of a [str]. *)
Definition truthy (s : string) : bool := negb (s =? "").

(** Truth value of an [Optional[str]]. *)
Definition truthy_opt (s : option string) : bool :=
  match s with
  | None => false
  | Some s => truthy s
  end.

(** The characters [str.isspace] holds of, which [str.strip] trims, by
    the bytes of their encoding: U+0009 to U+000D and U+001C to U+0020 in
    one byte; U+0085 and U+00A0 in two; U+1680, U+2000 to U+200A, U+2028,
    U+2029, U+202F, U+205F and U+3000 in three. *)
Definition isspace1 (a : ascii) : bool :=
  let n := nat_of_ascii a in
  ((9 <=? n)%nat && (n <=? 13)%nat) || ((28 <=? n)%nat && (n <=? 32)%nat).

Definition isspace2 (a b : ascii) : bool :=
  let m := nat_of_ascii b in
  (nat_of_ascii a =? 194)%nat && ((m =? 133)%nat || (m =? 160)%nat).

Definition isspace3 (a b c : ascii) : bool :=
  let l := nat_of_ascii a in
  let m := nat_of_ascii b in
  let n := nat_of_ascii c in
  ((l =? 225)%nat && (m =? 154)%nat && (n =? 128)%nat) ||
  ((l =? 226)%nat && (m =? 128)%nat &&
   (((128 <=? n)%nat && (n <=? 138)%nat) ||
    (n =? 168)%nat || (n =? 169)%nat || (n =? 175)%nat)) ||
  ((l =? 226)%nat && (m =? 129)%nat && (n =? 159)%nat) ||
  ((l =? 227)%nat && (m =? 128)%nat && (n =? 128)%nat).

(** [s.lstrip()] *)
Fixpoint lstrip (s : string) : string :=
  match s with
  | EmptyString => EmptyString
  | String a s1 =>
      if isspace1 a then lstrip s1
      else
        match s1 with
        | EmptyString => s
        | String b s2 =>
            if isspace2 a b then lstrip s2
            else
              match s2 with
              | EmptyString => s
              | String c s3 => if isspace3 a b c then lstrip s3 else s
              end
        end
  end.

(** The bytes of a string from the last to the first. *)
Definition reversed (s : string) : string :=
  string_of_list_ascii (List.rev (list_ascii_of_string s)).

(** [lstrip] of a string read from its end: the bytes of a character come
    last byte first. *)
Fixpoint lstrip_reversed (s : string) : string :=
  match s with
  | EmptyString => EmptyString
  | String c s1 =>
      if isspace1 c then lstrip_reversed s1
      else
        match s1 with
        | EmptyString => s
        | String b s2 =>
            if isspace2 b c then lstrip_reversed s2
            else
              match s2 with
              | EmptyString => s
              | String a s3 =>
                  if isspace3 a b c then lstrip_reversed s3 else s
              end
        end
  end.

(** [s.rstrip()] *)
Definition rstrip (s : string) : string :=
  reversed (lstrip_reversed (reversed s)).

(** [s.strip()]. *)
Definition strip (s : string) : string := rstrip (lstrip s).

(** [len(s)]: the number of characters, which is the number of bytes that
    do not continue a character. *)
Definition continuation (c : ascii) : bool :=
  let n := nat_of_ascii c in (128 <=? n)%nat && (n <=? 191)%nat.

Fixpoint len (s : string) : nat :=
  match s with
  | EmptyString => O
  | String c s' => if continuation c then len s' else S (len s')
  end.

Definition lower_char (c : ascii) : ascii :=
  let n := nat_of_ascii c in
  if (65 <=? n)%nat && (n <=? 90)%nat then ascii_of_nat (n + 32) else c.

(** [s.lower()]. *)
Fixpoint lower (s : string) : string :=
  match s with
  | EmptyString => EmptyString
  | String c s' => String (lower_char c) (lower s')
  end.

(** [sub in s]. *)
Fixpoint contains (sub s : string) : bool :=
  prefix sub s ||
  match s with
  | EmptyString => false
  | String _ s' => contains sub s'
  end.

(** [sep.join(l)]. *)
Definition join (sep : string) (l : list string) : string := concat sep l.

(** [l[a:b]] for a list. *)
Definition slice_index (n i : Z) : Z :=
  let i' := if (i <? 0)%Z then (i + n)%Z else i in
  Z.max 0 (Z.min n i').

Definition slice {A : Type} (l : list A) (a b : Z) : list A :=
  let n := Z.of_nat (List.length l) in
  let a' := slice_index n a in
  let b' := slice_index n b in
  firstn (Z.to_nat (b' - a')) (skipn (Z.to_nat a') l).

End Py.

Notation "x <- c ;; k" := (bind c (fun x => k))
  (at level 61, c at next level, right associativity).

(** What the code takes from Python's [math], from [repr] and from numpy. *)
Class Builtins : Type := {
  math_radians : Q -> Q;
  math_sin : Q -> Q;
  math_cos : Q -> Q;
  math_asin : Q -> Q;
  math_sqrt : Q -> Q;
  math_atan : Q -> Q;
  math_tan : Q -> Q;
  (** [str(x)] of a float, as an f-string field without a format prints it *)
  float_repr : Q -> string;
  (** [numpy.median] of a two-dimensional array *)
  np_median : list (list Q) -> Q
}.

(** [math.sqrt] and [math.asin] with their domain errors: [math.sqrt]
    raises [ValueError] on a negative argument and [math.asin] on an
    argument outside [-1, 1]. *)
Module Math.

Section Checked.

Context {B : Builtins}.

Definition sqrt (x : Q) : result Q :=
  if Py.lt x 0 then Raise ValueError else Ok (math_sqrt x).

Definition asin (x : Q) : result Q :=
  if Py.lt x (-1) || Py.gt x 1 then Raise ValueError
  else Ok (math_asin x).

End Checked.

End Math.


(* ================================================================== *)
(** * rules.py *)
(* ================================================================== *)

Module Rules.

Inductive ViolationType : Type :=
| SIZE_VIOLATION
| PLACEMENT_VIOLATION
| LICENSE_MISSING
| LICENSE_INVALID
| OBSCENE_CONTENT
| JUNCTION_PROXIMITY.

Definition ViolationType_eq_dec (a b : ViolationType) : {a = b} + {a <> b}.
Proof. decide equality. Defined.

Definition type_eqb (a b : ViolationType) : bool :=
  if ViolationType_eq_dec a b then true else false.

(** Represents a single violation rule with threshold and severity. *)
Record ViolationRule : Type := {
  rule_type : ViolationType;
  threshold : Q;
  severity : Z;
  description : string;
  enabled : bool
}.

(** Billboard detection data structure. *)
Record Detection : Type := {
  bbox : list Q;
  est_width_m : Q;
  est_height_m : Q;
  license_id : option string;
  ocr_text : option string;
  confidence : Q
}.

(** The [metadata] dictionary of a violation: one shape per rule. *)
Inductive Metadata : Type :=
| MetaSize (actual_area max_area : Q)
| MetaJunction (distance : Q) (junction_name : string)
| MetaOcrText (text : option string)
| MetaLicense (license : string)
| MetaKeywords (keywords : list string) (full_text : string).

(** Violation result with details. *)
Record Violation : Type := {
  v_rule_type : ViolationType;
  v_severity : Z;
  v_reason : string;
  v_confidence : Q;
  v_metadata : Metadata
}.

(** The value of a junction feature under ["properties"], on which the
    code calls [.get("name", "Unknown Junction")]: the key is absent and
    the default [{}] stands in; or the value is a dictionary, with or
    without a ["name"]; or it is [None] or another value without [.get],
    as the null properties of a GeoJSON feature. *)
Inductive Properties : Type :=
| PropertiesAbsent
| PropertiesDict (name : option string)
| PropertiesOther.

(** A junction feature [{"geometry": {"coordinates": [lon, lat]},
    "properties": ...}].  [coordinates = None] stands for a feature on
    which reading the coordinates raises [KeyError] or [TypeError]; a
    list shorter than two raises [IndexError]. *)
Record Junction : Type := {
  coordinates : option (list Q);
  properties : Properties
}.

(** The engine's state: [self.rules] and [self.obscene_keywords]. *)
Record BillboardRulesEngine : Type := {
  rules : list ViolationRule;
  obscene_keywords : list string
}.

(** [float(os.getenv(key, default))]: [getenv key] is the variable's value
    as a float when it is set. *)
Definition getenv_float (getenv : string -> option Q) (key : string)
  (default : Q) : Q :=
  match getenv key with
  | Some v => v
  | None => default
  end.

Definition _load_default_rules (getenv : string -> option Q)
  : list ViolationRule :=
  [ {| rule_type := SIZE_VIOLATION;
       threshold := getenv_float getenv "CITY_MAX_AREA" 48;
       severity := 4;
       description := "Billboard exceeds maximum permitted area";
       enabled := true |};
    {| rule_type := JUNCTION_PROXIMITY;
       threshold := getenv_float getenv "CITY_MIN_DIST" 50;
       severity := 3;
       description := "Billboard too close to traffic junction";
       enabled := true |};
    {| rule_type := LICENSE_MISSING;
       threshold := 1;
       severity := 5;
       description := "No valid license displayed on billboard";
       enabled := true |};
    {| rule_type := OBSCENE_CONTENT;
       threshold := 7 # 10;
       severity := 5;
       description := "Billboard contains inappropriate content";
       enabled := true |};
    {| rule_type := LICENSE_INVALID;
       threshold := 1;
       severity := 5;
       description := "License not found in municipal registry";
       enabled := true |} ].

(** [BillboardRulesEngine()] *)
Definition init (getenv : string -> option Q) : BillboardRulesEngine :=
  {| rules := _load_default_rules getenv;
     obscene_keywords :=
       [ "explicit"; "adult"; "xxx"; "gambling"; "tobacco";
         "alcohol"; "drugs"; "violence"; "hate" ]%string |}.

(** The environment with neither variable set. *)
Definition no_env : string -> option Q := fun _ => None.

Section Engine.

Context {B : Builtins}.

(** Calculate distance between two GPS coordinates in meters. *)
Definition _haversine_distance (lat1 lon1 lat2 lon2 : Q) : result Q :=
  let R := 6371000 in
  let lat1_rad := math_radians lat1 in
  let lat2_rad := math_radians lat2 in
  let delta_lat := math_radians (lat2 - lat1) in
  let delta_lon := math_radians (lon2 - lon1) in
  let a := math_sin (delta_lat / 2) ^ 2 +
           math_cos lat1_rad * math_cos lat2_rad *
           math_sin (delta_lon / 2) ^ 2 in
  root <- Math.sqrt a ;;
  angle <- Math.asin root ;;
  let c := 2 * angle in
  Ok (R * c).

(** Check if billboard exceeds maximum permitted area. *)
Definition _check_size_violation (detection : Detection)
  (rule : ViolationRule) : result (option Violation) :=
  let area := est_width_m detection * est_height_m detection in
  let max_area := threshold rule in
  if Py.gt area max_area then
    ratio <- Py.truediv (area - max_area) max_area ;;
    Ok (Some {|
      v_rule_type := rule_type rule;
      v_severity := severity rule;
      v_reason := ("Area " ++ Py.format_f 1 area ++ "m² exceeds limit of "
                   ++ float_repr max_area ++ "m²")%string;
      v_confidence := Py.min (9 # 10) ratio;
      v_metadata := MetaSize area max_area |})
  else Ok None.

(** [junction.get("properties", {}).get("name", "Unknown Junction")] *)
Definition junction_name_of (junction : Junction) : result string :=
  match properties junction with
  | PropertiesAbsent => Ok "Unknown Junction"%string
  | PropertiesDict (Some n) => Ok n
  | PropertiesDict None => Ok "Unknown Junction"%string
  | PropertiesOther => Raise AttributeError
  end.

(** The [for junction in junctions_data] loop of
    [_check_junction_proximity].  The [except] clause skips a feature
    whose coordinates cannot be read; it catches neither the [ValueError]
    of the distance, nor the [AttributeError] of the name, nor the
    [ZeroDivisionError] of the confidence. *)
Fixpoint junction_loop (lat lon : Q) (rule : ViolationRule)
  (junctions_data : list Junction) : result (option Violation) :=
  let min_distance := threshold rule in
  match junctions_data with
  | [] => Ok None
  | junction :: rest =>
      match coordinates junction with
      | Some (j_lon :: j_lat :: _) =>
          distance <- _haversine_distance lat lon j_lat j_lon ;;
          if Py.lt distance min_distance then
            junction_name <- junction_name_of junction ;;
            ratio <- Py.truediv (min_distance - distance) min_distance ;;
            Ok (Some {|
              v_rule_type := rule_type rule;
              v_severity := severity rule;
              v_reason := ("Only " ++ Py.format_f 0 distance ++ "m from "
                           ++ junction_name ++ " (min: "
                           ++ float_repr min_distance ++ "m)")%string;
              v_confidence := Py.min (9 # 10) ratio;
              v_metadata := MetaJunction distance junction_name |})
          else junction_loop lat lon rule rest
      | _ => junction_loop lat lon rule rest
      end
  end.

(** Check if billboard is too close to traffic junction. *)
Definition _check_junction_proximity (lat lon : Q) (rule : ViolationRule)
  (junctions_data : option (list Junction)) : result (option Violation) :=
  match junctions_data with
  | None => Ok None
  | Some [] => Ok None
  | Some js => junction_loop lat lon rule js
  end.

(** Check if billboard is missing license information. *)
Definition _check_license_missing (detection : Detection)
  (rule : ViolationRule) : option Violation :=
  if negb (Py.truthy_opt (license_id detection)) ||
     match license_id detection with
     | Some s => (Py.strip s =? "")%string
     | None => false
     end
  then Some {|
    v_rule_type := rule_type rule;
    v_severity := severity rule;
    v_reason := "No license number detected on billboard";
    v_confidence := 8 # 10;
    v_metadata := MetaOcrText (ocr_text detection) |}
  else None.

(** Check if billboard license is invalid or expired. *)
Definition _check_license_invalid (detection : Detection)
  (rule : ViolationRule) (registry_check_func : option (string -> bool))
  : option Violation :=
  match license_id detection, registry_check_func with
  | Some lic, Some check =>
      if negb (Py.truthy lic) then None
      else
        let is_valid := check (Py.strip lic) in
        if negb is_valid then Some {|
          v_rule_type := rule_type rule;
          v_severity := severity rule;
          v_reason := ("License " ++ lic ++ " not found in registry")%string;
          v_confidence := 9 # 10;
          v_metadata := MetaLicense lic |}
        else None
  | _, _ => None
  end.

(** Check if billboard contains inappropriate content. *)
Definition _check_obscene_content (self : BillboardRulesEngine)
  (detection : Detection) (rule : ViolationRule) : option Violation :=
  match ocr_text detection with
  | None => None
  | Some text =>
      if negb (Py.truthy text) then None
      else
        let text_lower := Py.lower text in
        let found_keywords :=
          filter (fun kw => Py.contains kw text_lower)
                 (obscene_keywords self) in
        match found_keywords with
        | [] => None
        | _ =>
            let confidence :=
              Py.min (95 # 100)
                     (inject_Z (Z.of_nat (List.length found_keywords))
                      * (3 # 10)) in
            Some {|
              v_rule_type := rule_type rule;
              v_severity := severity rule;
              v_reason := ("Inappropriate content detected: "
                           ++ Py.join ", " found_keywords)%string;
              v_confidence := confidence;
              v_metadata := MetaKeywords found_keywords text |}
        end
  end.

(** The [if]/[elif] chain of [evaluate_detection] for one enabled rule. *)
Definition dispatch (self : BillboardRulesEngine) (rule : ViolationRule)
  (detection : Detection) (lat lon : Q)
  (junctions_data : option (list Junction))
  (registry_check_func : option (string -> bool))
  : result (option Violation) :=
  match rule_type rule with
  | SIZE_VIOLATION => _check_size_violation detection rule
  | JUNCTION_PROXIMITY =>
      _check_junction_proximity lat lon rule junctions_data
  | LICENSE_MISSING => Ok (_check_license_missing detection rule)
  | LICENSE_INVALID =>
      match registry_check_func with
      | Some _ =>
          Ok (_check_license_invalid detection rule registry_check_func)
      | None => Ok None
      end
  | OBSCENE_CONTENT => Ok (_check_obscene_content self detection rule)
  | PLACEMENT_VIOLATION => Ok None
  end.

(** The [for rule in self.rules] loop, [violations] being the list built so
    far. *)
Fixpoint evaluate_loop (self : BillboardRulesEngine)
  (todo : list ViolationRule) (detection : Detection) (lat lon : Q)
  (junctions_data : option (list Junction))
  (registry_check_func : option (string -> bool))
  (violations : list Violation) : result (list Violation) :=
  match todo with
  | [] => Ok violations
  | rule :: rest =>
      if negb (enabled rule) then
        evaluate_loop self rest detection lat lon junctions_data
                      registry_check_func violations
      else
        violation <- dispatch self rule detection lat lon junctions_data
                              registry_check_func ;;
        evaluate_loop self rest detection lat lon junctions_data
                      registry_check_func
                      match violation with
                      | Some v => violations ++ [v]
                      | None => violations
                      end
  end.

(** Evaluate a single detection against all active rules. *)
Definition evaluate_detection (self : BillboardRulesEngine)
  (detection : Detection) (lat lon : Q)
  (junctions_data : option (list Junction))
  (registry_check_func : option (string -> bool))
  : result (list Violation) :=
  evaluate_loop self (rules self) detection lat lon junctions_data
                registry_check_func [].

End Engine.

(** Add a custom violation rule. *)
Definition add_custom_rule (self : BillboardRulesEngine)
  (rule : ViolationRule) : BillboardRulesEngine :=
  {| rules := rules self ++ [rule];
     obscene_keywords := obscene_keywords self |}.

(** Disable a specific rule type: every rule of that type gets
    [enabled = False]. *)
Definition disable_rule (self : BillboardRulesEngine)
  (ty : ViolationType) : BillboardRulesEngine :=
  {| rules :=
       map (fun rule =>
              if type_eqb (rule_type rule) ty then
                {| rule_type := rule_type rule;
                   threshold := threshold rule;
                   severity := severity rule;
                   description := description rule;
                   enabled := false |}
              else rule)
           (rules self);
     obscene_keywords := obscene_keywords self |}.

(** [rule_type.value] *)
Definition value (ty : ViolationType) : string :=
  match ty with
  | SIZE_VIOLATION => "size"
  | PLACEMENT_VIOLATION => "placement"
  | LICENSE_MISSING => "license_missing"
  | LICENSE_INVALID => "license_invalid"
  | OBSCENE_CONTENT => "obscene_content"
  | JUNCTION_PROXIMITY => "junction_proximity"
  end.

(** One entry of the ["rules"] list of the summary. *)
Record RuleEntry : Type := {
  e_type : string;
  e_threshold : Q;
  e_severity : Z;
  e_enabled : bool;
  e_description : string
}.

Record RuleSummary : Type := {
  total_rules : nat;
  active_rules : nat;
  summary_rules : list RuleEntry
}.

(** Get summary of all active rules. *)
Definition get_rule_summary (self : BillboardRulesEngine) : RuleSummary :=
  {| total_rules := List.length (rules self);
     active_rules := List.length (filter (fun r => enabled r) (rules self));
     summary_rules :=
       map (fun rule =>
              {| e_type := value (rule_type rule);
                 e_threshold := threshold rule;
                 e_severity := severity rule;
                 e_enabled := enabled rule;
                 e_description := description rule |})
           (rules self) |}.

End Rules.

(* ================================================================== *)
(** * geofence.py *)
(* ================================================================== *)

Module Geofence.

(** A value of the [special_rules] dictionary. *)
Inductive PyVal : Type :=
| PyInt (n : Z)
| PyBool (b : bool)
| PyStr (s : string).

(** [d.get(key, default)] *)
Fixpoint dict_get (d : list (string * PyVal)) (key : string)
  (default : PyVal) : PyVal :=
  match d with
  | [] => default
  | (k, v) :: rest => if (k =? key)%string then v else dict_get rest key default
  end.

(** Represents a geofenced area with specific billboard regulations. *)
Record GeofenceZone : Type := {
  zone_id : string;
  name : string;
  coordinates : list (Q * Q);
  max_billboards : Z;
  size_limit_m2 : Q;
  prohibited : bool;
  special_rules : option (list (string * PyVal))
}.

(** [self.restricted_zones]; [self.permitted_locations] is never read. *)
Record BillboardGeofence : Type := {
  restricted_zones : list GeofenceZone
}.

(** Load predefined restricted zones (schools, hospitals, religious
    sites). *)
Definition _load_restricted_zones : list GeofenceZone :=
  [ {| zone_id := "school_buffer_001";
       name := "Government Model Senior Secondary School Buffer";
       coordinates := [ (303545 # 10000, 763625 # 10000);
                        (303555 # 10000, 763625 # 10000);
                        (303555 # 10000, 763635 # 10000);
                        (303545 # 10000, 763635 # 10000) ];
       max_billboards := 0;
       size_limit_m2 := 0;
       prohibited := true;
       special_rules :=
         Some [ ("buffer_distance_m", PyInt 100);
                ("reason", PyStr "Educational institution protection")
              ]%string |};
    {| zone_id := "hospital_buffer_001";
       name := "PGI Chandigarh Buffer Zone";
       coordinates := [ (303520 # 10000, 763580 # 10000);
                        (303530 # 10000, 763580 # 10000);
                        (303530 # 10000, 763590 # 10000);
                        (303520 # 10000, 763590 # 10000) ];
       max_billboards := 0;
       size_limit_m2 := 0;
       prohibited := true;
       special_rules :=
         Some [ ("buffer_distance_m", PyInt 200);
                ("reason", PyStr "Healthcare facility protection")
              ]%string |};
    {| zone_id := "heritage_buffer_001";
       name := "Rock Garden Heritage Site Buffer";
       coordinates := [ (303575 # 10000, 763665 # 10000);
                        (303585 # 10000, 763665 # 10000);
                        (303585 # 10000, 763675 # 10000);
                        (303575 # 10000, 763675 # 10000) ];
       max_billboards := 2;
       size_limit_m2 := 20;
       prohibited := false;
       special_rules :=
         Some [ ("aesthetic_approval_required", PyBool true);
                ("reason", PyStr "Heritage site preservation")
              ]%string |};
    {| zone_id := "commercial_zone_001";
       name := "Sector 17 Commercial Plaza";
       coordinates := [ (303640 # 10000, 763720 # 10000);
                        (303660 # 10000, 763720 # 10000);
                        (303660 # 10000, 763740 # 10000);
                        (303640 # 10000, 763740 # 10000) ];
       max_billboards := 10;
       size_limit_m2 := 48;
       prohibited := false;
       special_rules :=
         Some [ ("premium_zone", PyBool true);
                ("higher_fees", PyBool true) ]%string |} ].

(** [BillboardGeofence()] *)
Definition init : BillboardGeofence :=
  {| restricted_zones := _load_restricted_zones |}.

(** One entry of the [violations] list of a location result; [detail] holds
    the keys that depend on the kind of violation. *)
Inductive ViolationDetail : Type :=
| ProhibitedDetail (details : PyVal)
| SizeDetail (zone : string)
| BufferDetail (location : string) (required_distance : Z)
               (actual_distance : Q).

Record LocationViolation : Type := {
  v_type : string;
  v_severity : Z;
  v_reason : string;
  v_detail : ViolationDetail
}.

Record ZoneInfo : Type := {
  zi_zone_id : option string;
  zi_zone_name : string;
  zi_max_billboards : Z + string;
  zi_size_limit_m2 : Q + string
}.

Record LocationResult : Type := {
  compliance_status : string;
  zone_info : ZoneInfo;
  violations : list LocationViolation;
  recommendations : list string
}.

Record SensitiveLocation : Type := {
  s_name : string;
  s_lat : Q;
  s_lon : Q;
  buffer_m : Z
}.

Definition sensitive_locations : list SensitiveLocation :=
  [ {| s_name := "DAV Public School";
       s_lat := 303548 # 10000; s_lon := 763628 # 10000; buffer_m := 100 |};
    {| s_name := "Gurudwara Singh Sabha";
       s_lat := 303562 # 10000; s_lon := 763645 # 10000; buffer_m := 75 |};
    {| s_name := "Children's Park";
       s_lat := 303535 # 10000; s_lon := 763605 # 10000; buffer_m := 50 |} ].

Record RegistryRecord : Type := {
  r_license_id : string;
  r_lat : Q;
  r_lon : Q;
  r_status : string
}.

(** Mock database of [check_permitted_database]. *)
Definition permitted_billboards : list RegistryRecord :=
  [ {| r_license_id := "LIC-CHD-001";
       r_lat := 303555 # 10000; r_lon := 763651 # 10000;
       r_status := "active" |};
    {| r_license_id := "LIC-CHD-002";
       r_lat := 303542 # 10000; r_lon := 763620 # 10000;
       r_status := "active" |};
    {| r_license_id := "LIC-CHD-003";
       r_lat := 303598 # 10000; r_lon := 763712 # 10000;
       r_status := "active" |};
    {| r_license_id := "LIC-CHD-004";
       r_lat := 303521 # 10000; r_lon := 763589 # 10000;
       r_status := "expired" |} ].

Record DatabaseResult : Type := {
  database_status : string;
  license_valid : bool;
  location_match : bool;
  distance_from_registered : option Q;
  registered_location : option (Q * Q);
  license_status : option string;
  db_reason : string
}.

Record CombinedResult : Type := {
  location_compliance : LocationResult;
  database_verification : option DatabaseResult;
  overall_status : string
}.

(** The local variables of [_point_in_polygon] that its loop updates;
    [xinters = None] is the variable not bound yet. *)
Record PipState : Type := {
  inside : bool;
  p1x : Q;
  p1y : Q;
  xinters : option Q
}.

(** One iteration of the loop of [_point_in_polygon], [p2] being
    [polygon[i % n]]. *)
Definition pip_body (x y : Q) (st : PipState) (p2 : Q * Q)
  : result PipState :=
  let '(p2x, p2y) := p2 in
  upd <-
    (if Py.gt y (Py.min (p1y st) p2y) then
       if Py.le y (Py.max (p1y st) p2y) then
         if Py.le x (Py.max (p1x st) p2x) then
           xi <- (if Py.ne (p1y st) p2y then
                    q <- Py.truediv ((y - p1y st) * (p2x - p1x st))
                                    (p2y - p1y st) ;;
                    Ok (Some (q + p1x st))
                  else Ok (xinters st)) ;;
           toggle <- (if Py.eq (p1x st) p2x then Ok true
                      else match xi with
                           | Some v => Ok (Py.le x v)
                           | None => Raise UnboundLocalError
                           end) ;;
           Ok (if toggle then negb (inside st) else inside st, xi)
         else Ok (inside st, xinters st)
       else Ok (inside st, xinters st)
     else Ok (inside st, xinters st)) ;;
  Ok {| inside := fst upd; p1x := p2x; p1y := p2y; xinters := snd upd |}.

(** [for i in range(1, n + 1)], over the indices still to visit. *)
Fixpoint pip_loop (x y : Q) (polygon : list (Q * Q)) (n : nat)
  (indices : list nat) (st : PipState) : result PipState :=
  match indices with
  | [] => Ok st
  | i :: rest =>
      st' <- pip_body x y st (nth (i mod n) polygon (0, 0)) ;;
      pip_loop x y polygon n rest st'
  end.

(** Check if point is inside polygon using ray casting algorithm. *)
Definition _point_in_polygon (lat lon : Q) (polygon : list (Q * Q))
  : result bool :=
  let x := lon in
  let y := lat in
  let n := List.length polygon in
  match polygon with
  | [] => Raise IndexError
  | (p1x0, p1y0) :: _ =>
      st <- pip_loop x y polygon n (seq 1 n)
              {| inside := false; p1x := p1x0; p1y := p1y0;
                 xinters := None |} ;;
      Ok (inside st)
  end.

Section Engine.

Context {B : Builtins}.

(** Calculate distance between two GPS coordinates in meters. *)
Definition _haversine_distance (lat1 lon1 lat2 lon2 : Q) : Q :=
  let R := 6371000 in
  let lat1_rad := math_radians lat1 in
  let lat2_rad := math_radians lat2 in
  let delta_lat := math_radians (lat2 - lat1) in
  let delta_lon := math_radians (lon2 - lon1) in
  let a := math_sin (delta_lat / 2) ^ 2 +
           math_cos lat1_rad * math_cos lat2_rad *
           math_sin (delta_lon / 2) ^ 2 in
  let c := 2 * math_asin (math_sqrt a) in
  R * c.

(** The zone loop of [check_location_compliance]: it stops at the first
    zone containing the point and yields [zone_info], the zone violations
    and the status at that moment. *)
Fixpoint zone_loop (lat lon billboard_area_m2 : Q)
  (zones : list GeofenceZone)
  : result (option GeofenceZone * list LocationViolation * string) :=
  match zones with
  | [] => Ok (None, [], "compliant"%string)
  | zone :: rest =>
      hit <- _point_in_polygon lat lon (coordinates zone) ;;
      if hit then
        if prohibited zone then
          match special_rules zone with
          | None => Raise AttributeError
          | Some rules =>
              Ok (Some zone,
                  [ {| v_type := "prohibited_zone";
                       v_severity := 5;
                       v_reason := ("Billboard prohibited in "
                                    ++ name zone)%string;
                       v_detail :=
                         ProhibitedDetail
                           (dict_get rules "reason"
                                     (PyStr "Zone restriction")) |} ],
                  "prohibited"%string)
          end
        else if Py.gt billboard_area_m2 (size_limit_m2 zone) then
          Ok (Some zone,
              [ {| v_type := "size_exceeds_zone_limit";
                   v_severity := 4;
                   v_reason := ("Area " ++ float_repr billboard_area_m2
                                ++ "m² exceeds zone limit of "
                                ++ float_repr (size_limit_m2 zone)
                                ++ "m²")%string;
                   v_detail := SizeDetail (name zone) |} ],
              "non_compliant"%string)
        else Ok (Some zone, [], "compliant"%string)
      else zone_loop lat lon billboard_area_m2 rest
  end.

(** Check minimum buffer distances from sensitive locations. *)
Definition _check_buffer_distances (lat lon : Q) : list LocationViolation :=
  flat_map
    (fun location =>
       let distance :=
         _haversine_distance lat lon (s_lat location) (s_lon location) in
       if Py.lt distance (inject_Z (buffer_m location)) then
         [ {| v_type := "buffer_violation";
              v_severity := 4;
              v_reason := ("Only " ++ Py.format_f 0 distance ++ "m from "
                           ++ s_name location ++ " (min: "
                           ++ Py.str_int (buffer_m location) ++ "m)")%string;
              v_detail := BufferDetail (s_name location) (buffer_m location)
                                       (Py.round distance 1) |} ]
       else [])
    sensitive_locations.

Definition has_type (t : string) (vs : list LocationViolation) : bool :=
  existsb (fun v => (v_type v =? t)%string) vs.

(** Generate actionable recommendations based on violations. *)
Definition _generate_recommendations (vs : list LocationViolation)
  (zone_info : option GeofenceZone) : list string :=
  (if has_type "prohibited_zone" vs then
     [ "Relocate billboard outside restricted zone"%string;
       "Consider alternative advertising methods for this area"%string ]
   else []) ++
  (if has_type "size_exceeds_zone_limit" vs then
     "Reduce billboard size to comply with zone limit"%string ::
     match zone_info with
     | Some z => [ ("Maximum allowed area: "
                    ++ float_repr (size_limit_m2 z) ++ "m²")%string ]
     | None => []
     end
   else []) ++
  (if has_type "buffer_violation" vs then
     [ "Relocate billboard to maintain required buffer distances"%string;
       "Check municipal guidelines for sensitive area buffers"%string ]
   else []) ++
  (match vs with
   | [] => [ "Location complies with current regulations"%string;
             "Ensure proper licensing and size compliance"%string ]
   | _ => []
   end).

Definition zone_info_of (z : option GeofenceZone) : ZoneInfo :=
  match z with
  | Some z =>
      {| zi_zone_id := Some (zone_id z);
         zi_zone_name := name z;
         zi_max_billboards := inl (max_billboards z);
         zi_size_limit_m2 := inl (size_limit_m2 z) |}
  | None =>
      {| zi_zone_id := None;
         zi_zone_name := "Unzoned area";
         zi_max_billboards := inr "No limit"%string;
         zi_size_limit_m2 := inr "Standard limit applies"%string |}
  end.

(** Check if billboard location complies with geofence regulations. *)
Definition check_location_compliance (self : BillboardGeofence)
  (lat lon billboard_area_m2 : Q) : result LocationResult :=
  scan <- zone_loop lat lon billboard_area_m2 (restricted_zones self) ;;
  let '(zone_info, zone_violations, zone_status) := scan in
  let buffer_violations := _check_buffer_distances lat lon in
  let violations := zone_violations ++ buffer_violations in
  let compliance_status :=
    match buffer_violations with
    | [] => zone_status
    | _ => "non_compliant"%string
    end in
  Ok {| compliance_status := compliance_status;
        zone_info := zone_info_of zone_info;
        violations := violations;
        recommendations := _generate_recommendations violations zone_info |}.

(** Generate reason message for database check result. *)
Definition _get_database_reason (license_valid location_match : bool)
  (distance_m : Q) : string :=
  (if negb license_valid && negb location_match then
     "License expired and location mismatch ("
     ++ Py.format_f 1 distance_m ++ "m from registered)"
   else if negb license_valid then "License has expired"
   else if negb location_match then
     "Location mismatch: " ++ Py.format_f 1 distance_m
     ++ "m from registered location"
   else "License valid and location matches registered coordinates")%string.

(** The search loop of [check_permitted_database]: the first record whose
    license id equals the argument. *)
Definition matching_record (license_id : string) : option RegistryRecord :=
  find (fun record => (r_license_id record =? license_id)%string)
       permitted_billboards.

(** Check if billboard license exists in permitted database and location
    matches. *)
Definition check_permitted_database (license_id : string) (lat lon : Q)
  : DatabaseResult :=
  match matching_record license_id with
  | None =>
      {| database_status := "not_found";
         license_valid := false;
         location_match := false;
         distance_from_registered := None;
         registered_location := None;
         license_status := None;
         db_reason := ("License " ++ license_id
                       ++ " not found in municipal database")%string |}
  | Some record =>
      let distance_m :=
        _haversine_distance lat lon (r_lat record) (r_lon record) in
      let location_match := Py.le distance_m 50 in
      let license_valid := (r_status record =? "active")%string in
      {| database_status := "found";
         license_valid := license_valid;
         location_match := location_match;
         distance_from_registered := Some (Py.round distance_m 1);
         registered_location := Some (r_lat record, r_lon record);
         license_status := Some (r_status record);
         db_reason :=
           _get_database_reason license_valid location_match distance_m |}
  end.

(** Comprehensive location validation for billboard placement. *)
Definition validate_billboard_location (lat lon : Q)
  (license_id : option string) (area_m2 : Q) : result CombinedResult :=
  let geofence := init in
  location_result <- check_location_compliance geofence lat lon area_m2 ;;
  let database_result :=
    match license_id with
    | Some lic =>
        if Py.truthy lic then Some (check_permitted_database lic lat lon)
        else None
    | None => None
    end in
  Ok {| location_compliance := location_result;
        database_verification := database_result;
        overall_status :=
          if (compliance_status location_result =? "compliant")%string &&
             match database_result with
             | None => true
             | Some r => license_valid r
             end
          then "compliant" else "non_compliant" |}.

End Engine.

End Geofence.

(* ================================================================== *)
(** * size_estimation.py *)
(* ================================================================== *)

Module SizeEstimation.

(** Camera parameters for size estimation. *)
Record CameraParams : Type := {
  focal_length_mm : Q;
  sensor_width_mm : Q;
  image_width_px : Z;
  image_height_px : Z;
  assumed_height_m : Q
}.

Definition default_camera_params : CameraParams :=
  {| focal_length_mm := 26;
     sensor_width_mm := 576 # 100;
     image_width_px := 1920;
     image_height_px := 1080;
     assumed_height_m := 16 # 10 |}.

(** Size estimation result with confidence metrics. *)
Record SizeEstimate : Type := {
  width_m : Q;
  height_m : Q;
  area_m2 : Q;
  distance_m : Q;
  confidence : Q;
  margin_of_error : Q;
  method : string
}.

(** One row of the calibration table. *)
Record AccuracyData : Type := {
  mean_error : Q;
  std_dev : Q;
  samples : Z
}.

Record BillboardSizeEstimator : Type := {
  camera_params : CameraParams;
  size_accuracy_table : list ((Z * Z) * AccuracyData)
}.

(** [BillboardSizeEstimator(camera_params)] *)
Definition init (params : option CameraParams) : BillboardSizeEstimator :=
  {| camera_params :=
       match params with
       | Some p => p
       | None => default_camera_params
       end;
     size_accuracy_table :=
       [ ((10, 20)%Z,
          {| mean_error := 8 # 10; std_dev := 6 # 10; samples := 156 |});
         ((20, 50)%Z,
          {| mean_error := 12 # 10; std_dev := 9 # 10; samples := 234 |});
         ((50, 100)%Z,
          {| mean_error := 21 # 10; std_dev := 14 # 10; samples := 89 |}) ] |}.

(** [x1, y1, x2, y2 = bbox] *)
Definition unpack4 {A : Type} (l : list A) : result (A * A * A * A) :=
  match l with
  | [a; b; c; d] => Ok (a, b, c, d)
  | _ => Raise ValueError
  end.

(** Calculate confidence score and margin of error based on distance and
    bbox size. *)
Definition _calculate_confidence (self : BillboardSizeEstimator)
  (distance_m width_px height_px : Q) : Q * Q :=
  let accuracy_data :=
    match find (fun entry =>
                  let '((min_dist, max_dist), _) := entry in
                  Py.le (inject_Z min_dist) distance_m &&
                  Py.lt distance_m (inject_Z max_dist))
               (size_accuracy_table self) with
    | Some (_, data) => data
    | None => {| mean_error := 3; std_dev := 2; samples := 10 |}
    end in
  let distance_factor := Py.max (3 # 10) (1 - (distance_m - 10) / 100) in
  let size_factor := Py.min 1 ((width_px * height_px) / 10000) in
  let sample_factor := Py.min 1 (inject_Z (samples accuracy_data) / 100) in
  let confidence := distance_factor * size_factor * sample_factor in
  let confidence := Py.max (1 # 10) (Py.min (95 # 100) confidence) in
  let margin_of_error := mean_error accuracy_data + std_dev accuracy_data in
  (confidence, margin_of_error).

Section Estimator.

Context {B : Builtins}.

(** Estimate distance using assumed billboard height. *)
Definition _estimate_distance_from_height (self : BillboardSizeEstimator)
  (bbox_height_px : Q) (image_height : Z) (assumed_height_m : Q)
  : result Q :=
  let cam := camera_params self in
  sensor_h <- Py.truediv (sensor_width_mm cam * inject_Z image_height)
                         (inject_Z (image_width_px cam)) ;;
  ratio <- Py.truediv sensor_h (2 * focal_length_mm cam) ;;
  let vertical_fov := 2 * math_atan ratio in
  frac <- Py.truediv bbox_height_px (inject_Z image_height) ;;
  let angular_height := frac * vertical_fov in
  distance_m <- Py.truediv assumed_height_m
                           (2 * math_tan (angular_height / 2)) ;;
  Ok (Py.max 5 (Py.min 200 distance_m)).

(** Option A: fast size estimation using standard camera assumptions. *)
Definition estimate_size_from_bbox (self : BillboardSizeEstimator)
  (bbox : list Q) (image_width image_height : Z)
  (assumed_distance_m : option Q) : result SizeEstimate :=
  let cam := camera_params self in
  box <- unpack4 bbox ;;
  let '(x1, y1, x2, y2) := box in
  let bbox_width_px := x2 - x1 in
  let bbox_height_px := y2 - y1 in
  ratio <- Py.truediv (sensor_width_mm cam) (2 * focal_length_mm cam) ;;
  let horizontal_fov := 2 * math_atan ratio in
  distance_m <-
    match assumed_distance_m with
    | None =>
        _estimate_distance_from_height self bbox_height_px image_height
                                       (35 # 10)
    | Some d => Ok d
    end ;;
  pixels_per_meter_horizontal <-
    Py.truediv (inject_Z image_width)
               (2 * distance_m * math_tan (horizontal_fov / 2)) ;;
  let pixels_per_meter_vertical := pixels_per_meter_horizontal in
  width_m <- Py.truediv bbox_width_px pixels_per_meter_horizontal ;;
  height_m <- Py.truediv bbox_height_px pixels_per_meter_vertical ;;
  let area_m2 := width_m * height_m in
  let '(confidence, margin_of_error) :=
    _calculate_confidence self distance_m bbox_width_px bbox_height_px in
  Ok {| width_m := width_m;
        height_m := height_m;
        area_m2 := area_m2;
        distance_m := distance_m;
        confidence := confidence;
        margin_of_error := margin_of_error;
        method := "camera_assumptions" |}.

(** Option B: enhanced size estimation using depth information;
    [depth_map] is the array as a list of rows. *)
Definition estimate_size_with_depth (self : BillboardSizeEstimator)
  (bbox : list Q) (depth_map : list (list Q)) : result SizeEstimate :=
  let cam := camera_params self in
  box <- unpack4 (map Py.int bbox) ;;
  let '(x1, y1, x2, y2) := box in
  let roi_depth :=
    map (fun row => Py.slice row x1 x2) (Py.slice depth_map y1 y2) in
  let median_depth := np_median roi_depth in
  let distance_m := median_depth in
  fx <- Py.truediv (focal_length_mm cam * inject_Z (image_width_px cam))
                   (sensor_width_mm cam) ;;
  let fy := fx in
  let bbox_width_px := (x2 - x1)%Z in
  let bbox_height_px := (y2 - y1)%Z in
  width_m <- Py.truediv (inject_Z bbox_width_px * distance_m) fx ;;
  height_m <- Py.truediv (inject_Z bbox_height_px * distance_m) fy ;;
  let area_m2 := width_m * height_m in
  let '(confidence, margin_of_error) :=
    _calculate_confidence self distance_m (inject_Z bbox_width_px)
                          (inject_Z bbox_height_px) in
  let confidence := Py.min (95 # 100) (confidence * (12 # 10)) in
  let margin_of_error := margin_of_error * (7 # 10) in
  Ok {| width_m := width_m;
        height_m := height_m;
        area_m2 := area_m2;
        distance_m := distance_m;
        confidence := confidence;
        margin_of_error := margin_of_error;
        method := "depth_estimation" |}.

(** The dictionary [estimate_billboard_size] returns. *)
Record SizeSummary : Type := {
  r_width_m : Q;
  r_height_m : Q;
  r_area_m2 : Q;
  r_distance_m : Q;
  r_confidence : Q;
  r_margin_of_error : string;
  r_method : string
}.

(** Convenience function for billboard size estimation. *)
Definition estimate_billboard_size (bbox : list Q)
  (image_width image_height : Z) (distance_hint : option Q)
  : result SizeSummary :=
  let estimator := init None in
  estimate <- estimate_size_from_bbox estimator bbox image_width
                                      image_height distance_hint ;;
  Ok {| r_width_m := Py.round (width_m estimate) 1;
        r_height_m := Py.round (height_m estimate) 1;
        r_area_m2 := Py.round (area_m2 estimate) 1;
        r_distance_m := Py.round (distance_m estimate) 1;
        r_confidence := Py.round (confidence estimate) 2;
        r_margin_of_error :=
          ("±" ++ float_repr (margin_of_error estimate) ++ "m")%string;
        r_method := method estimate |}.

End Estimator.

End SizeEstimation.

(* ================================================================== *)
(** * detection.py *)
(* ================================================================== *)

(** The detector is a mock that draws its boxes at random.  A call of
    [random.uniform] is modelled by its result, passed as an argument. *)
Module Detection.

(** Generate realistic bounding box coordinates (normalized 0-1);
    [x_center], [y_center], [aspect_ratio] and [width] are the four draws,
    from [0.2, 0.8], [0.1, 0.6], [3.0, 6.0] and [0.3, 0.7]. *)
Definition _generate_realistic_bbox (x_center y_center aspect_ratio width : Q)
  : result (list Q) :=
  height <- Py.truediv width aspect_ratio ;;
  let x1 := Py.max 0 (x_center - width / 2) in
  let y1 := Py.max 0 (y_center - height / 2) in
  let x2 := Py.min 1 (x_center + width / 2) in
  let y2 := Py.min 1 (y_center + height / 2) in
  Ok [x1; y1; x2; y2].

End Detection.

(* ================================================================== *)
(** * ocr.py *)
(* ================================================================== *)

Module Ocr.

(** Calculate OCR confidence based on various factors. *)
Definition _calculate_ocr_confidence (text : string) (width height : Z)
  : Q :=
  let base_confidence := 85 # 100 in
  let length_factor :=
    Py.min 1 (inject_Z (Z.of_nat (Py.len text)) / 50) in
  let size_factor :=
    Py.min 1 (inject_Z (width * height) / inject_Z (1920 * 1080)) in
  let license_bonus :=
    if existsb (fun pattern => Py.contains pattern text)
               ["LIC-"; "PERMIT-"; "ADV-"]%string
    then 1 # 10 else 0 in
  let confidence :=
    base_confidence * length_factor * size_factor + license_bonus in
  Py.min (95 # 100) (Py.max (3 # 10) confidence).

End Ocr.

(* ================================================================== *)
(** * A concrete instance of the builtins *)
(* ================================================================== *)

(** Rational approximations of the [math] functions (truncated Taylor
    series and an integer square root, cut to thirty decimals), the
    shortest decimal that reads back as the number for [repr], and the
    median of the sorted values.  The instance makes the model run on
    concrete inputs. *)
Module ApproxMath.

Definition pi : Q := 3141592653589793 # 1000000000000000.

(** Thirty decimals are kept of every result. *)
Definition scale : Z := (10 ^ 30)%Z.

Definition cut (x : Q) : Q :=
  Qred (Qmake (Qfloor (x * inject_Z scale)) (Z.to_pos scale)).

Definition radians (x : Q) : Q := cut (x * pi / 180).

Definition sin (x : Q) : Q := cut (x - x ^ 3 / 6 + x ^ 5 / 120).

Definition cos (x : Q) : Q := cut (1 - x ^ 2 / 2 + x ^ 4 / 24).

Definition asin (x : Q) : Q := cut (x + x ^ 3 / 6 + 3 * x ^ 5 / 40).

Definition atan (x : Q) : Q := cut (x - x ^ 3 / 3 + x ^ 5 / 5).

Definition tan (x : Q) : Q := cut (x + x ^ 3 / 3 + 2 * x ^ 5 / 15).

Definition sqrt (x : Q) : Q :=
  cut (Qmake (Z.sqrt (Qnum x * Zpos (Qden x) * scale * scale))
             (Qden x * Z.to_pos scale)).

Fixpoint repr_from (fuel d : nat) (x : Q) : string :=
  match fuel with
  | O => Py.format_f d x
  | S fuel' =>
      if Qeq_bool (Py.round x d) x then Py.format_f d x
      else repr_from fuel' (S d) x
  end.

Definition repr (x : Q) : string := repr_from 16 1 x.

Fixpoint insert (x : Q) (l : list Q) : list Q :=
  match l with
  | [] => [x]
  | y :: l' => if Qle_bool x y then x :: l else y :: insert x l'
  end.

Definition sort (l : list Q) : list Q := fold_right insert [] l.

Definition median (a : list (list Q)) : Q :=
  let v := sort (List.concat a) in
  let n := List.length v in
  if Nat.even n then
    (nth (n / 2 - 1) v 0 + nth (n / 2) v 0) / 2
  else nth (n / 2) v 0.

#[export] Instance builtins : Builtins := {|
  math_radians := radians;
  math_sin := sin;
  math_cos := cos;
  math_asin := asin;
  math_sqrt := sqrt;
  math_atan := atan;
  math_tan := tan;
  float_repr := repr;
  np_median := median
|}.

End ApproxMath.

(* ================================================================== *)
(** * Fixtures *)
(* ================================================================== *)

(** ** Detections and junctions of [tests/test_rules.py] *)

(** [self.oversized_detection] *)
Definition oversized_detection : Rules.Detection :=
  {| Rules.bbox := [50; 50; 400; 250];
     Rules.est_width_m := 15;
     Rules.est_height_m := 5;
     Rules.license_id := Some "LIC-CHD-002"%string;
     Rules.ocr_text := Some "Mega Sale Event"%string;
     Rules.confidence := 92 # 100 |}.

(** [self.unlicensed_detection] *)
Definition unlicensed_detection : Rules.Detection :=
  {| Rules.bbox := [150; 150; 350; 250];
     Rules.est_width_m := 6;
     Rules.est_height_m := 25 # 10;
     Rules.license_id := Some ""%string;
     Rules.ocr_text := Some "Best Deals in Town"%string;
     Rules.confidence := 78 # 100 |}.

(** [self.sample_junctions] *)
Definition sample_junctions : list Rules.Junction :=
  [ {| Rules.coordinates := Some [763651 # 10000; 303555 # 10000];
       Rules.properties :=
         Rules.PropertiesDict (Some "Sector 17 Junction"%string) |} ].

(** The size rule of an engine started with [CITY_MAX_AREA=0]. *)
Definition zero_threshold_rule : Rules.ViolationRule :=
  {| Rules.rule_type := Rules.SIZE_VIOLATION;
     Rules.threshold := 0;
     Rules.severity := 4;
     Rules.description := "Billboard exceeds maximum permitted area";
     Rules.enabled := true |}.

(** The no-break space U+00A0, a character [str.strip] trims. *)
Definition no_break_space : string :=
  String (ascii_of_nat 194) (String (ascii_of_nat 160) EmptyString).

(** A detection whose license id is three spaces. *)
Definition blank_license_detection : Rules.Detection :=
  {| Rules.bbox := [150; 150; 350; 250];
     Rules.est_width_m := 6;
     Rules.est_height_m := 25 # 10;
     Rules.license_id := Some "   "%string;
     Rules.ocr_text := Some "Best Deals in Town"%string;
     Rules.confidence := 78 # 100 |}.

(** A junction some forty metres north of the test coordinates, listed
    before the junction at the test coordinates themselves. *)
Definition two_junctions : list Rules.Junction :=
  {| Rules.coordinates := Some [763651 # 10000; 3035586 # 100000];
     Rules.properties :=
       Rules.PropertiesDict (Some "North Junction"%string) |}
  :: sample_junctions.


(** ** Polygons and zones *)


(** A geofence whose only zone is prohibited and has its vertices written
    as (longitude, latitude) pairs around the DAV Public School. *)
Definition school_zone_lon_lat : Geofence.BillboardGeofence :=
  {| Geofence.restricted_zones :=
       [ {| Geofence.zone_id := "school_buffer_lon_lat";
            Geofence.name := "School Buffer";
            Geofence.coordinates :=
              [ (763625 # 10000, 303545 # 10000);
                (763635 # 10000, 303545 # 10000);
                (763635 # 10000, 303555 # 10000);
                (763625 # 10000, 303555 # 10000) ];
            Geofence.max_billboards := 0;
            Geofence.size_limit_m2 := 0;
            Geofence.prohibited := true;
            Geofence.special_rules := Some [] |} ] |}.

(* ================================================================== *)
(** * Vocabulary of the properties *)
(* ================================================================== *)

(** The interval [0.1, 0.95] of the confidence of a size estimate. *)
Definition in_confidence_range (c : Q) : Prop := 1 # 10 <= c <= 95 # 100.

Section RulesVocabulary.

Context {B : Builtins}.

Import Rules.

(** The violations of one rule type among [vs]. *)
Definition of_type (ty : ViolationType) (vs : list Violation)
  : list Violation :=
  filter (fun v => type_eqb (v_rule_type v) ty) vs.

(** The violations of every rule type but [ty]. *)
Definition not_of_type (ty : ViolationType) (vs : list Violation)
  : list Violation :=
  filter (fun v => negb (type_eqb (v_rule_type v) ty)) vs.

(** The list holding what a check returned, if anything. *)
Definition opt_list {A : Type} (o : option A) : list A :=
  match o with
  | Some a => [a]
  | None => []
  end.

(** The violation [_check_size_violation] builds when it fires. *)
Definition size_violation (detection : Detection) (rule : ViolationRule)
  : Violation :=
  let area := est_width_m detection * est_height_m detection in
  let max_area := threshold rule in
  {| v_rule_type := rule_type rule;
     v_severity := severity rule;
     v_reason := ("Area " ++ Py.format_f 1 area ++ "m² exceeds limit of "
                  ++ float_repr max_area ++ "m²")%string;
     v_confidence := Py.min (9 # 10) ((area - max_area) / max_area);
     v_metadata := MetaSize area max_area |}.

(** The license id is absent or blank after trimming. *)
Definition license_blank (detection : Detection) : Prop :=
  license_id detection = None \/
  exists s, license_id detection = Some s /\ Py.strip s = ""%string.

(** The violation [_check_license_missing] builds when it fires. *)
Definition license_missing_violation (detection : Detection)
  (rule : ViolationRule) : Violation :=
  {| v_rule_type := rule_type rule;
     v_severity := severity rule;
     v_reason := "No license number detected on billboard";
     v_confidence := 8 # 10;
     v_metadata := MetaOcrText (ocr_text detection) |}.

(** The violation [_check_license_invalid] builds for the license id
    [lic]. *)
Definition license_invalid_violation (lic : string) (rule : ViolationRule)
  : Violation :=
  {| v_rule_type := rule_type rule;
     v_severity := severity rule;
     v_reason := ("License " ++ lic ++ " not found in registry")%string;
     v_confidence := 9 # 10;
     v_metadata := MetaLicense lic |}.

(** What the loop computes for a junction: [None] for a feature it skips
    as malformed, otherwise the outcome of the distance computation. *)
Definition junction_distance (lat lon : Q) (junction : Junction)
  : option (result Q) :=
  match coordinates junction with
  | Some (j_lon :: j_lat :: _) =>
      Some (_haversine_distance lat lon j_lat j_lon)
  | _ => None
  end.



(** No junction of the list makes the loop fail before the confidence is
    computed: the distance of every well-formed feature is computed, and
    the properties of every feature closer than the threshold are absent
    or a dictionary. *)
Definition harmless (lat lon : Q) (rule : ViolationRule)
  (junction : Junction) : Prop :=
  match junction_distance lat lon junction with
  | Some (Ok d) =>
      d < threshold rule -> properties junction <> PropertiesOther
  | Some (Raise _) => False
  | None => True
  end.

Definition harmless_junctions (lat lon : Q) (rule : ViolationRule)
  (jd : option (list Junction)) : Prop :=
  match jd with
  | Some js => Forall (harmless lat lon rule) js
  | None => True
  end.

(** What the loop appends to its accumulator: the violations of the enabled
    rules of [todo], in order. *)
Fixpoint collect (self : BillboardRulesEngine) (todo : list ViolationRule)
  (detection : Detection) (lat lon : Q) (jd : option (list Junction))
  (reg : option (string -> bool)) : result (list Violation) :=
  match todo with
  | [] => Ok []
  | rule :: rest =>
      if negb (enabled rule) then collect self rest detection lat lon jd reg
      else
        v <- dispatch self rule detection lat lon jd reg ;;
        vs <- collect self rest detection lat lon jd reg ;;
        Ok (opt_list v ++ vs)
  end.

(** The rule [disable_rule] leaves in the place of [rule]. *)
Definition disabled_copy (ty : ViolationType) (rule : ViolationRule)
  : ViolationRule :=
  if type_eqb (rule_type rule) ty then
    {| rule_type := rule_type rule;
       threshold := threshold rule;
       severity := severity rule;
       description := description rule;
       enabled := false |}
  else rule.

(** The [n]-th rule of the default engine: size, junction proximity,
    missing license, obscene content, invalid license. *)
Definition rule_at (n : nat) : ViolationRule :=
  nth n (rules (init no_env))
      {| rule_type := PLACEMENT_VIOLATION; threshold := 0; severity := 0;
         description := ""; enabled := false |}.

(** The invalid-license branch of the dispatcher. *)
Definition invalid_branch (detection : Detection) (rule : ViolationRule)
  (reg : option (string -> bool)) : option Violation :=
  match reg with
  | Some _ => _check_license_invalid detection rule reg
  | None => None
  end.

End RulesVocabulary.

Section GeofenceVocabulary.

Context {B : Builtins}.

Import Geofence.

(** The test one iteration makes on the edge from [p1] to [p2]: does the
    edge count as crossed? *)
Definition crossing (x y : Q) (p1 p2 : Q * Q) : bool :=
  Py.gt y (Py.min (snd p1) (snd p2)) &&
  Py.le y (Py.max (snd p1) (snd p2)) &&
  Py.le x (Py.max (fst p1) (fst p2)) &&
  (Py.eq (fst p1) (fst p2) ||
   Py.le x ((y - snd p1) * (fst p2 - fst p1) / (snd p2 - snd p1) + fst p1)).

(** The parity of the crossed edges along the path [p1], [p2s]. *)
Fixpoint crossings (x y : Q) (p1 : Q * Q) (p2s : list (Q * Q)) : bool :=
  match p2s with
  | [] => false
  | p2 :: rest => xorb (crossing x y p1 p2) (crossings x y p2 rest)
  end.

(** The vertices the loop visits, in order: [polygon[i % n]] for [i] from 1
    to [n]. *)
Definition visited (polygon : list (Q * Q)) : list (Q * Q) :=
  map (fun i => nth (i mod List.length polygon) polygon (0, 0))
      (seq 1 (List.length polygon)).

(** The violation recorded for a prohibited zone. *)
Definition prohibited_violation (zone : GeofenceZone)
  (rules : list (string * PyVal)) : LocationViolation :=
  {| v_type := "prohibited_zone";
     v_severity := 5;
     v_reason := ("Billboard prohibited in " ++ name zone)%string;
     v_detail :=
       ProhibitedDetail (dict_get rules "reason" (PyStr "Zone restriction"))
  |}.

(** The violation recorded for a billboard larger than the zone allows. *)
Definition zone_size_violation (zone : GeofenceZone) (area : Q)
  : LocationViolation :=
  {| v_type := "size_exceeds_zone_limit";
     v_severity := 4;
     v_reason := ("Area " ++ float_repr area ++ "m² exceeds zone limit of "
                  ++ float_repr (size_limit_m2 zone) ++ "m²")%string;
     v_detail := SizeDetail (name zone) |}.

(** What the zone loop leaves behind, by the zone it stopped at. *)
Definition zone_outcome (area : Q) (zone : GeofenceZone)
  (vs : list LocationViolation) (status : string) : Prop :=
  if prohibited zone then
    status = "prohibited"%string /\
    exists rules,
      special_rules zone = Some rules /\
      vs = [prohibited_violation zone rules]
  else if Py.gt area (size_limit_m2 zone) then
    status = "non_compliant"%string /\ vs = [zone_size_violation zone area]
  else status = "compliant"%string /\ vs = [].


(** The status after the buffer check: a buffer violation replaces
    whatever the zone loop had set. *)
Definition final_status (zone_status : string)
  (buffer_violations : list LocationViolation) : string :=
  match buffer_violations with
  | [] => zone_status
  | _ => "non_compliant"%string
  end.

(** The point lies strictly within the extent of the polygon's vertices,
    the vertices being read as (latitude, longitude) pairs, as the zone
    data gives them. *)
Definition strictly_within (lat lon : Q) (polygon : list (Q * Q)) : Prop :=
  (exists p q, In p polygon /\ In q polygon /\ fst p < lat < fst q) /\
  (exists p q, In p polygon /\ In q polygon /\ snd p < lon < snd q).



End GeofenceVocabulary.

(** ** Further vocabulary *)

Section RulesInvariantsVocabulary.

Context {B : Builtins}.

Import Rules.

(** The rule needs a threshold other than zero to be evaluated safely:
    only the size and the junction rule divide by it. *)
Definition divides_by_threshold (rule : ViolationRule) : bool :=
  match rule_type rule with
  | SIZE_VIOLATION | JUNCTION_PROXIMITY => true
  | _ => false
  end.



Definition positive_rule (rule : ViolationRule) : Prop :=
  enabled rule = true -> divides_by_threshold rule = true ->
  0 < threshold rule.

(** The violation comes from an enabled rule of the list. *)
Definition from_rule_of (todo : list ViolationRule) (v : Violation) : Prop :=
  exists rule,
    In rule todo /\ enabled rule = true /\
    v_rule_type v = rule_type rule /\ v_severity v = severity rule.

(** The environment in which only [CITY_MAX_AREA] is set. *)
Definition max_area_env (v : Q) : string -> option Q :=
  fun key => if (key =? "CITY_MAX_AREA")%string then Some v else None.

(** The enabled rules of one type. *)
Definition enabled_of_type (ty : ViolationType) (todo : list ViolationRule)
  : list ViolationRule :=
  filter (fun r => enabled r && type_eqb (rule_type r) ty) todo.

(** The keywords [_check_obscene_content] finds in a text. *)
Definition found_keywords (self : BillboardRulesEngine) (text : string)
  : list string :=
  filter (fun kw => Py.contains kw (Py.lower text)) (obscene_keywords self).

(** The violation [_check_obscene_content] builds for a text. *)
Definition obscene_violation (self : BillboardRulesEngine) (text : string)
  (rule : ViolationRule) : Violation :=
  {| v_rule_type := rule_type rule;
     v_severity := severity rule;
     v_reason := ("Inappropriate content detected: "
                  ++ Py.join ", " (found_keywords self text))%string;
     v_confidence :=
       Py.min (95 # 100)
              (inject_Z (Z.of_nat (List.length (found_keywords self text)))
               * (3 # 10));
     v_metadata := MetaKeywords (found_keywords self text) text |}.

(** What a violation says apart from the text it quotes in its metadata. *)
Definition verdict (v : Violation) : ViolationType * Z * string * Q :=
  (v_rule_type v, v_severity v, v_reason v, v_confidence v).

(** A function of the [math] module that maps zero to zero. *)
Definition zero_preserving (f : Q -> Q) : Prop :=
  forall x, x == 0 -> f x == 0.

(** The haversine formula needs no more of the [math] functions to give
    the distance zero between a point and itself. *)
Definition zero_preserving_math : Prop :=
  zero_preserving math_radians /\ zero_preserving math_sin /\
  zero_preserving math_sqrt /\ zero_preserving math_asin.

End RulesInvariantsVocabulary.

Section PolygonVocabulary.

(** The parity of the crossed edges along a path of vertices. *)
Definition path_parity (x y : Q) (path : list (Q * Q)) : bool :=
  match path with
  | [] => false
  | p :: rest => crossings x y p rest
  end.

(** The rectangle with the first coordinates [a], [b] and the second
    coordinates [c], [d], its vertices in the order of the zone data. *)
Definition rectangle (a b c d : Q) : list (Q * Q) :=
  [(a, c); (b, c); (b, d); (a, d)].

End PolygonVocabulary.

Section ComplianceVocabulary.

Context {B : Builtins}.

Import Geofence.

(** The distance of a point from a sensitive site, as the buffer check
    computes it. *)
Definition site_distance (lat lon : Q) (location : SensitiveLocation) : Q :=
  _haversine_distance lat lon (s_lat location) (s_lon location).

(** The violation the buffer check records for a site. *)
Definition buffer_violation (lat lon : Q) (location : SensitiveLocation)
  : LocationViolation :=
  let distance := site_distance lat lon location in
  {| v_type := "buffer_violation";
     v_severity := 4;
     v_reason := ("Only " ++ Py.format_f 0 distance ++ "m from "
                  ++ s_name location ++ " (min: "
                  ++ Py.str_int (buffer_m location) ++ "m)")%string;
     v_detail := BufferDetail (s_name location) (buffer_m location)
                              (Py.round distance 1) |}.

(** The sites closer than their buffer distance, in the order of the
    list. *)
Definition sites_too_close (lat lon : Q) : list SensitiveLocation :=
  filter (fun location =>
            Py.lt (site_distance lat lon location)
                  (inject_Z (buffer_m location)))
         sensitive_locations.

(** The zone test rejects the point. *)
Definition zone_missed (lat lon : Q) (zone : GeofenceZone) : Prop :=
  _point_in_polygon lat lon (coordinates zone) = Ok false.

(** The three types of violation a location result holds. *)
Definition known_type (v : LocationViolation) : Prop :=
  v_type v = "prohibited_zone"%string \/
  v_type v = "size_exceeds_zone_limit"%string \/
  v_type v = "buffer_violation"%string.

End ComplianceVocabulary.

Section DetectionVocabulary.


(** A box in normalized coordinates. *)
Definition normalized (bbox : list Q) : Prop :=
  Forall (fun c => 0 <= c <= 1) bbox.

(** The text holds one of the license patterns of the OCR confidence. *)
Definition has_license_pattern (text : string) : bool :=
  existsb (fun pattern => Py.contains pattern text)
          ["LIC-"; "PERMIT-"; "ADV-"]%string.

End DetectionVocabulary.

(** ** Further fixtures *)

(** The obscene detection of the test suite: three keywords. *)
Definition obscene_detection : Rules.Detection :=
  {| Rules.bbox := [100; 100; 300; 200];
     Rules.est_width_m := 8;
     Rules.est_height_m := 3;
     Rules.license_id := Some "LIC-CHD-003"%string;
     Rules.ocr_text := Some "Adult Entertainment XXX Gambling Casino"%string;
     Rules.confidence := 85 # 100 |}.

(** The same detection with its text in lower case. *)
Definition obscene_detection_lower : Rules.Detection :=
  {| Rules.bbox := [100; 100; 300; 200];
     Rules.est_width_m := 8;
     Rules.est_height_m := 3;
     Rules.license_id := Some "LIC-CHD-003"%string;
     Rules.ocr_text := Some "adult entertainment xxx gambling casino"%string;
     Rules.confidence := 85 # 100 |}.

(** An engine whose keyword list holds a keyword in upper case. *)
Definition upper_case_engine : Rules.BillboardRulesEngine :=
  {| Rules.rules := Rules.rules (Rules.init Rules.no_env);
     Rules.obscene_keywords := ["XXX"; "adult"]%string |}.

(** A geofence whose only zone is prohibited and was built without
    [special_rules], which the dataclass then sets to [None]. *)
Definition zone_without_rules : Geofence.GeofenceZone :=
  {| Geofence.zone_id := "temple_buffer_001";
     Geofence.name := "Temple Buffer";
     Geofence.coordinates := rectangle 0 1 0 1;
     Geofence.max_billboards := 0;
     Geofence.size_limit_m2 := 0;
     Geofence.prohibited := true;
     Geofence.special_rules := None |}.

(** A zone without a boundary. *)
Definition zone_without_boundary : Geofence.GeofenceZone :=
  {| Geofence.zone_id := "empty_zone_001";
     Geofence.name := "Empty Zone";
     Geofence.coordinates := [];
     Geofence.max_billboards := 1;
     Geofence.size_limit_m2 := 10;
     Geofence.prohibited := false;
     Geofence.special_rules := None |}.

(** A commercial zone around the origin, vertices as (x, y) pairs. *)
Definition unit_zone : Geofence.GeofenceZone :=
  {| Geofence.zone_id := "unit_zone_001";
     Geofence.name := "Unit Zone";
     Geofence.coordinates := rectangle 0 1 0 1;
     Geofence.max_billboards := 10;
     Geofence.size_limit_m2 := 48;
     Geofence.prohibited := false;
     Geofence.special_rules := None |}.

(** A geofence of two zones over the same square: the commercial zone is
    listed first. *)
Definition two_zone_geofence : Geofence.BillboardGeofence :=
  {| Geofence.restricted_zones := [unit_zone; zone_without_rules] |}.


(* ================================================================== *)
(** * Properties *)
(* ================================================================== *)

(** ** Comparisons, [min], [max] and division *)

Lemma lt_iff (a b : Q) : Py.lt a b = true <-> a < b.
Proof.
  unfold Py.lt. rewrite negb_true_iff.
  split; intro H.
  - apply Qnot_le_lt. intro L. apply Qle_bool_iff in L. congruence.
  - destruct (Qle_bool b a) eqn:E; [|reflexivity].
    apply Qle_bool_iff in E. apply Qle_not_lt in E. contradiction.
Qed.

Lemma lt_false_iff (a b : Q) : Py.lt a b = false <-> b <= a.
Proof.
  unfold Py.lt. rewrite negb_false_iff. apply Qle_bool_iff.
Qed.

Lemma gt_iff (a b : Q) : Py.gt a b = true <-> b < a.
Proof. unfold Py.gt. apply lt_iff. Qed.

Lemma gt_false_iff (a b : Q) : Py.gt a b = false <-> a <= b.
Proof. unfold Py.gt. apply lt_false_iff. Qed.

Lemma le_iff (a b : Q) : Py.le a b = true <-> a <= b.
Proof. unfold Py.le. apply Qle_bool_iff. Qed.

Lemma le_false_iff (a b : Q) : Py.le a b = false <-> b < a.
Proof.
  unfold Py.le. split; intro H.
  - apply Qnot_le_lt. intro L. apply Qle_bool_iff in L. congruence.
  - destruct (Qle_bool a b) eqn:E; [|reflexivity].
    apply Qle_bool_iff in E. apply Qle_not_lt in E. contradiction.
Qed.

Lemma eq_iff (a b : Q) : Py.eq a b = true <-> a == b.
Proof. unfold Py.eq. apply Qeq_bool_iff. Qed.

Lemma ne_iff (a b : Q) : Py.ne a b = true <-> ~ a == b.
Proof.
  unfold Py.ne. rewrite negb_true_iff. split; intro H.
  - intro E. apply Qeq_bool_iff in E. congruence.
  - destruct (Qeq_bool a b) eqn:E; [|reflexivity].
    apply Qeq_bool_iff in E. contradiction.
Qed.

Lemma min_spec (a b : Q) :
  (b < a /\ Py.min a b = b) \/ (a <= b /\ Py.min a b = a).
Proof.
  unfold Py.min. destruct (Py.lt b a) eqn:E.
  - left. split; [apply lt_iff; exact E | reflexivity].
  - right. split; [apply lt_false_iff; exact E | reflexivity].
Qed.

Lemma max_spec (a b : Q) :
  (a < b /\ Py.max a b = b) \/ (b <= a /\ Py.max a b = a).
Proof.
  unfold Py.max. destruct (Py.gt b a) eqn:E.
  - left. split; [apply gt_iff; exact E | reflexivity].
  - right. split; [apply gt_false_iff; exact E | reflexivity].
Qed.

Lemma truediv_ok (a b : Q) : ~ b == 0 -> Py.truediv a b = Ok (a / b).
Proof.
  intro H. unfold Py.truediv.
  destruct (Qeq_bool b 0) eqn:E; [|reflexivity].
  apply Qeq_bool_iff in E. contradiction.
Qed.


(** A clamp [max(lo, min(hi, x))] stays between its bounds. *)
Lemma clamp_bounds (lo hi x : Q) :
  lo <= hi -> lo <= Py.max lo (Py.min hi x) <= hi.
Proof.
  intro H.
  destruct (max_spec lo (Py.min hi x)) as [[H1 ->] | [H1 ->]];
  destruct (min_spec hi x) as [[H2 E] | [H2 E]];
  rewrite ?E in *; split; lra.
Qed.

(** Inversion of a successful sequence of calls: each call of the sequence
    returned. *)
Ltac bind_inv H :=
  repeat match type of H with
         | bind ?c _ = Ok _ =>
             let E := fresh "E" in
             destruct c eqn:E; simpl in H; [|discriminate H]
         | (let '(_, _) := ?p in _) = Ok _ =>
             let E := fresh "E" in destruct p eqn:E
         | match ?c with Ok _ => _ | Raise _ => _ end = Ok _ =>
             let E := fresh "E" in
             destruct c eqn:E; simpl in H; [|discriminate H]
         end.

(** ** Size estimation: the confidence interval *)

Section SizeEstimationProps.

Context {B : Builtins}.

Import SizeEstimation.

Lemma _calculate_confidence_range (self : BillboardSizeEstimator)
  (d w h : Q) :
  in_confidence_range (fst (_calculate_confidence self d w h)).
Proof.
  unfold _calculate_confidence, in_confidence_range. cbn [fst].
  apply clamp_bounds. lra.
Qed.

Lemma depth_boost_range (c : Q) :
  in_confidence_range c ->
  in_confidence_range (Py.min (95 # 100) (c * (12 # 10))).
Proof.
  unfold in_confidence_range. intros [Hlo Hhi].
  destruct (min_spec (95 # 100) (c * (12 # 10))) as [[H ->] | [H ->]];
    split; lra.
Qed.

Lemma estimate_size_from_bbox_range (self : BillboardSizeEstimator)
  (bbox : list Q) (image_width image_height : Z)
  (assumed_distance_m : option Q) (est : SizeEstimate) :
  estimate_size_from_bbox self bbox image_width image_height
                          assumed_distance_m = Ok est ->
  in_confidence_range (confidence est).
Proof.
  unfold estimate_size_from_bbox. intro H.
  destruct (unpack4 bbox) as [[[[x1 y1] x2] y2]|] eqn:Eb;
    simpl in H; [|discriminate H].
  bind_inv H.
  injection H as <-. cbn [confidence].
  unfold in_confidence_range. apply clamp_bounds. lra.
Qed.

Lemma estimate_size_with_depth_range (self : BillboardSizeEstimator)
  (bbox : list Q) (depth_map : list (list Q)) (est : SizeEstimate) :
  estimate_size_with_depth self bbox depth_map = Ok est ->
  in_confidence_range (confidence est).
Proof.
  unfold estimate_size_with_depth. intro H.
  destruct (unpack4 (map Py.int bbox)) as [[[[x1 y1] x2] y2]|] eqn:Eb;
    simpl in H; [|discriminate H].
  bind_inv H.
  injection H as <-. cbn [confidence].
  apply depth_boost_range.
  unfold in_confidence_range. apply clamp_bounds. lra.
Qed.

(** With the default camera the depth path returns an estimate for every
    four-coordinate box and every depth map. *)
Lemma estimate_size_with_depth_returns (x1 y1 x2 y2 : Q)
  (depth_map : list (list Q)) :
  exists est,
    estimate_size_with_depth (init None) [x1; y1; x2; y2] depth_map = Ok est
    /\ method est = "depth_estimation"%string.
Proof.
  unfold estimate_size_with_depth. cbn [map unpack4 bind].
  cbn [init camera_params default_camera_params focal_length_mm
       image_width_px sensor_width_mm].
  rewrite truediv_ok by (intro H; vm_compute in H; discriminate H).
  cbn [bind].
  set (fx := _ / _).
  assert (Hfx : ~ fx == 0) by (intro H; vm_compute in H; discriminate H).
  rewrite !truediv_ok by exact Hfx.
  cbn [bind].
  destruct (_calculate_confidence _ _ _ _) as [c m].
  eexists. split; reflexivity.
Qed.

(** With a distance hint the bounding-box path returns an estimate as soon
    as no divisor vanishes. *)
Lemma estimate_size_from_bbox_returns (self : BillboardSizeEstimator)
  (x1 y1 x2 y2 : Q) (image_width image_height : Z) (d : Q) :
  ~ focal_length_mm (camera_params self) == 0 ->
  ~ d == 0 ->
  ~ math_tan (2 * math_atan (sensor_width_mm (camera_params self)
                 / (2 * focal_length_mm (camera_params self))) / 2) == 0 ->
  image_width <> 0%Z ->
  exists est,
    estimate_size_from_bbox self [x1; y1; x2; y2] image_width image_height
                            (Some d) = Ok est
    /\ method est = "camera_assumptions"%string.
Proof.
  intros Hf Hd Ht Hw.
  unfold estimate_size_from_bbox. cbn [unpack4 bind].
  rewrite truediv_ok by (intro H; apply Hf; lra).
  cbn [bind].
  set (t := math_tan _) in *.
  assert (Hden : ~ 2 * d * t == 0).
  { intro H. apply Qmult_integral in H. destruct H as [H|H]; [|auto].
    apply Hd. lra. }
  rewrite truediv_ok by exact Hden.
  cbn [bind].
  assert (Hppm : ~ inject_Z image_width / (2 * d * t) == 0).
  { intro H. unfold Qdiv in H. apply Qmult_integral in H.
    destruct H as [H|H].
    - apply Hw. unfold Qeq in H. simpl in H. lia.
    - apply Hden. rewrite <- (Qinv_involutive (2 * d * t)). rewrite H.
      reflexivity. }
  rewrite !truediv_ok by exact Hppm.
  cbn [bind].
  destruct (_calculate_confidence _ _ _ _) as [c m].
  eexists. split; reflexivity.
Qed.

End SizeEstimationProps.

(** ** Rules engine *)

Section RulesProps.

Context {B : Builtins}.

Import Rules.

Lemma type_eqb_eq (a b : ViolationType) : type_eqb a b = true <-> a = b.
Proof.
  unfold type_eqb. destruct (ViolationType_eq_dec a b); split;
    congruence.
Qed.

Lemma type_eqb_neq (a b : ViolationType) : type_eqb a b = false <-> a <> b.
Proof.
  unfold type_eqb. destruct (ViolationType_eq_dec a b); split;
    congruence.
Qed.

(** *** Size rule *)

Lemma _check_size_violation_fires (detection : Detection)
  (rule : ViolationRule) :
  ~ threshold rule == 0 ->
  threshold rule < est_width_m detection * est_height_m detection ->
  _check_size_violation detection rule
  = Ok (Some (size_violation detection rule)).
Proof.
  intros H0 Hgt. unfold _check_size_violation.
  apply gt_iff in Hgt. rewrite Hgt.
  rewrite truediv_ok by exact H0. reflexivity.
Qed.



Lemma _check_size_violation_type (detection : Detection)
  (rule : ViolationRule) (v : Violation) :
  _check_size_violation detection rule = Ok (Some v) ->
  v_rule_type v = rule_type rule.
Proof.
  unfold _check_size_violation. intro H.
  destruct (Py.gt _ _); [|discriminate H].
  destruct (Py.truediv _ _); simpl in H; [|discriminate H].
  injection H as <-. reflexivity.
Qed.

(** *** License rules *)

Lemma _check_license_missing_fires (detection : Detection)
  (rule : ViolationRule) :
  license_blank detection ->
  _check_license_missing detection rule
  = Some (license_missing_violation detection rule).
Proof.
  unfold license_blank, _check_license_missing.
  intros [H | [s [H Hs]]]; rewrite H; cbn [Py.truthy_opt negb orb].
  - reflexivity.
  - rewrite Hs. cbn. rewrite orb_true_r. reflexivity.
Qed.

Lemma _check_license_missing_quiet (detection : Detection)
  (rule : ViolationRule) :
  ~ license_blank detection ->
  _check_license_missing detection rule = None.
Proof.
  unfold license_blank, _check_license_missing. intro H.
  destruct (license_id detection) as [s|] eqn:E.
  - cbn [Py.truthy_opt].
    assert (Hs : Py.strip s <> ""%string).
    { intro Hs. apply H. right. exists s. split; [reflexivity|exact Hs]. }
    assert (Hne : s <> ""%string).
    { intro Hs'. subst s. apply Hs. reflexivity. }
    apply String.eqb_neq in Hs. apply String.eqb_neq in Hne.
    unfold Py.truthy. rewrite Hs, Hne. reflexivity.
  - exfalso. apply H. left. reflexivity.
Qed.

Lemma _check_license_missing_type (detection : Detection)
  (rule : ViolationRule) (v : Violation) :
  _check_license_missing detection rule = Some v ->
  v_rule_type v = rule_type rule.
Proof.
  unfold _check_license_missing. intro H.
  destruct (_ || _); [|discriminate H].
  injection H as <-. reflexivity.
Qed.

(** With a non-empty license id the invalid-license check asks the callback
    about the trimmed id, and about nothing else. *)
Lemma _check_license_invalid_nonempty (detection : Detection)
  (rule : ViolationRule) (check : string -> bool) (lic : string) :
  license_id detection = Some lic ->
  lic <> ""%string ->
  _check_license_invalid detection rule (Some check)
  = if check (Py.strip lic) then None
    else Some (license_invalid_violation lic rule).
Proof.
  intros H Hne. unfold _check_license_invalid. rewrite H.
  apply String.eqb_neq in Hne. unfold Py.truthy. rewrite Hne.
  cbn [negb]. destruct (check (Py.strip lic)); reflexivity.
Qed.

Lemma _check_license_invalid_type (detection : Detection)
  (rule : ViolationRule) (reg : option (string -> bool)) (v : Violation) :
  _check_license_invalid detection rule reg = Some v ->
  v_rule_type v = rule_type rule.
Proof.
  unfold _check_license_invalid. intro H.
  destruct (license_id detection); [|discriminate H].
  destruct reg; [|discriminate H].
  destruct (negb (Py.truthy s)); [discriminate H|].
  destruct (negb _); [|discriminate H].
  injection H as <-. reflexivity.
Qed.

Lemma _check_obscene_content_type (self : BillboardRulesEngine)
  (detection : Detection) (rule : ViolationRule) (v : Violation) :
  _check_obscene_content self detection rule = Some v ->
  v_rule_type v = rule_type rule.
Proof.
  unfold _check_obscene_content. intro H.
  destruct (ocr_text detection); [|discriminate H].
  destruct (negb _); [discriminate H|].
  destruct (filter _ _); [discriminate H|].
  injection H as <-. reflexivity.
Qed.

End RulesProps.

(** *** Junction proximity *)

Section JunctionProps.

Context {B : Builtins}.

Import Rules.









Lemma _check_junction_proximity_loop (lat lon : Q) (rule : ViolationRule)
  (js : list Junction) :
  _check_junction_proximity lat lon rule (Some js)
  = junction_loop lat lon rule js.
Proof. destruct js; reflexivity. Qed.

(** The loop returns whenever the threshold is not zero and the junctions
    are harmless. *)
Lemma junction_loop_returns (lat lon : Q) (rule : ViolationRule)
  (js : list Junction) :
  ~ threshold rule == 0 ->
  Forall (harmless lat lon rule) js ->
  exists r, junction_loop lat lon rule js = Ok r.
Proof.
  intros H0 H. induction H as [|j js Hj _ IH].
  - exists None. reflexivity.
  - unfold harmless, junction_distance in Hj. cbn [junction_loop].
    destruct (coordinates j) as [[|j_lon [|j_lat cs]]|]; try exact IH.
    destruct (_haversine_distance lat lon j_lat j_lon) as [d|e];
      cbn [bind]; [|destruct Hj].
    destruct (Py.lt d (threshold rule)) eqn:L; [|exact IH].
    apply lt_iff in L. specialize (Hj L).
    unfold junction_name_of.
    destruct (properties j) as [|[n|]|]; try congruence; cbn [bind];
      rewrite truediv_ok by exact H0; eexists; reflexivity.
Qed.

Lemma junction_loop_type (lat lon : Q) (rule : ViolationRule)
  (js : list Junction) (v : Violation) :
  junction_loop lat lon rule js = Ok (Some v) ->
  v_rule_type v = rule_type rule.
Proof.
  induction js as [|j js IH]; cbn [junction_loop]; [discriminate|].
  destruct (coordinates j) as [[|j_lon [|j_lat cs]]|]; try exact IH.
  destruct (_haversine_distance lat lon j_lat j_lon) as [d|e];
    cbn [bind]; [|discriminate].
  destruct (Py.lt _ _); [|exact IH].
  destruct (junction_name_of j); cbn [bind]; [|discriminate].
  destruct (Py.truediv _ _); cbn [bind]; [|discriminate].
  intro H. injection H as <-. reflexivity.
Qed.

Lemma _check_junction_proximity_type (lat lon : Q) (rule : ViolationRule)
  (jd : option (list Junction)) (v : Violation) :
  _check_junction_proximity lat lon rule jd = Ok (Some v) ->
  v_rule_type v = rule_type rule.
Proof.
  destruct jd as [js|]; [|discriminate].
  rewrite _check_junction_proximity_loop. apply junction_loop_type.
Qed.

Lemma _check_junction_proximity_returns (lat lon : Q) (rule : ViolationRule)
  (jd : option (list Junction)) :
  ~ threshold rule == 0 ->
  harmless_junctions lat lon rule jd ->
  exists r, _check_junction_proximity lat lon rule jd = Ok r.
Proof.
  intros H0 H. destruct jd as [js|].
  - rewrite _check_junction_proximity_loop.
    apply junction_loop_returns; assumption.
  - exists None. reflexivity.
Qed.


End JunctionProps.

(** *** The evaluation loop *)

Section EvaluateProps.

Context {B : Builtins}.

Import Rules.

Lemma dispatch_type (self : BillboardRulesEngine) (rule : ViolationRule)
  (detection : Detection) (lat lon : Q) (jd : option (list Junction))
  (reg : option (string -> bool)) (v : Violation) :
  dispatch self rule detection lat lon jd reg = Ok (Some v) ->
  v_rule_type v = rule_type rule.
Proof.
  unfold dispatch. destruct (rule_type rule) eqn:E; intro H.
  - rewrite <- E. eapply _check_size_violation_type. exact H.
  - discriminate H.
  - injection H as H. rewrite <- E.
    eapply _check_license_missing_type. exact H.
  - destruct reg; [|discriminate H]. injection H as H. rewrite <- E.
    eapply _check_license_invalid_type. exact H.
  - injection H as H. rewrite <- E.
    eapply _check_obscene_content_type. exact H.
  - rewrite <- E. eapply _check_junction_proximity_type. exact H.
Qed.

(** The rule list is not read when one rule is dispatched. *)
Lemma dispatch_keywords (self self' : BillboardRulesEngine)
  (rule : ViolationRule) (detection : Detection) (lat lon : Q)
  (jd : option (list Junction)) (reg : option (string -> bool)) :
  obscene_keywords self = obscene_keywords self' ->
  dispatch self rule detection lat lon jd reg
  = dispatch self' rule detection lat lon jd reg.
Proof.
  intro H. unfold dispatch, _check_obscene_content. rewrite H. reflexivity.
Qed.

Lemma evaluate_loop_collect (self : BillboardRulesEngine)
  (todo : list ViolationRule) (detection : Detection) (lat lon : Q)
  (jd : option (list Junction)) (reg : option (string -> bool))
  (acc : list Violation) :
  evaluate_loop self todo detection lat lon jd reg acc
  = (vs <- collect self todo detection lat lon jd reg ;; Ok (acc ++ vs)).
Proof.
  revert acc. induction todo as [|rule rest IH]; intro acc.
  - cbn. rewrite app_nil_r. reflexivity.
  - cbn [evaluate_loop collect]. destruct (negb (enabled rule)).
    + apply IH.
    + destruct (dispatch self rule detection lat lon jd reg) as [ov|e];
        cbn [bind]; [|reflexivity].
      rewrite IH.
      destruct (collect self rest detection lat lon jd reg) as [vs|e];
        cbn [bind]; [|reflexivity].
      destruct ov; cbn [opt_list]; rewrite <- ?app_assoc; reflexivity.
Qed.

Lemma evaluate_detection_collect (self : BillboardRulesEngine)
  (detection : Detection) (lat lon : Q) (jd : option (list Junction))
  (reg : option (string -> bool)) :
  evaluate_detection self detection lat lon jd reg
  = collect self (rules self) detection lat lon jd reg.
Proof.
  unfold evaluate_detection. rewrite evaluate_loop_collect.
  destruct (collect _ _ _ _ _ _ _); reflexivity.
Qed.

Lemma rules_disable_rule (self : BillboardRulesEngine) (ty : ViolationType) :
  rules (disable_rule self ty) = map (disabled_copy ty) (rules self).
Proof. reflexivity. Qed.

Lemma not_of_type_app (ty : ViolationType) (l l' : list Violation) :
  not_of_type ty (l ++ l') = not_of_type ty l ++ not_of_type ty l'.
Proof. apply filter_app. Qed.

Lemma not_of_type_opt (ty : ViolationType) (ov : option Violation)
  (t : ViolationType) :
  (forall v, ov = Some v -> v_rule_type v = t) ->
  not_of_type ty (opt_list ov)
  = if type_eqb t ty then [] else opt_list ov.
Proof.
  intro H. destruct ov as [v|]; cbn.
  - rewrite (H v eq_refl). destruct (type_eqb t ty); reflexivity.
  - destruct (type_eqb t ty); reflexivity.
Qed.

Lemma collect_disable (self : BillboardRulesEngine) (ty : ViolationType)
  (todo : list ViolationRule) (detection : Detection) (lat lon : Q)
  (jd : option (list Junction)) (reg : option (string -> bool))
  (vs : list Violation) :
  collect self todo detection lat lon jd reg = Ok vs ->
  collect (disable_rule self ty) (map (disabled_copy ty) todo)
          detection lat lon jd reg
  = Ok (not_of_type ty vs).
Proof.
  revert vs. induction todo as [|rule rest IH]; intros vs H.
  - injection H as <-. reflexivity.
  - cbn [collect map] in *.
    destruct (enabled rule) eqn:En; cbn [negb] in H.
    + destruct (dispatch self rule detection lat lon jd reg) as [ov|e] eqn:D;
        cbn [bind] in H; [|discriminate H].
      destruct (collect self rest detection lat lon jd reg) as [vs'|e] eqn:C;
        cbn [bind] in H; [|discriminate H].
      injection H as <-.
      rewrite not_of_type_app.
      rewrite (@not_of_type_opt ty ov (rule_type rule))
        by (intros v ->; eapply dispatch_type; exact D).
      destruct (type_eqb (rule_type rule) ty) eqn:T.
      * assert (Hd : enabled (disabled_copy ty rule) = false)
          by (unfold disabled_copy; rewrite T; reflexivity).
        rewrite Hd. cbn [negb app]. apply IH. reflexivity.
      * assert (Hc : disabled_copy ty rule = rule)
          by (unfold disabled_copy; rewrite T; reflexivity).
        rewrite Hc, En. cbn [negb].
        rewrite (@dispatch_keywords (disable_rule self ty) self)
          by reflexivity.
        rewrite D. cbn [bind].
        rewrite (IH vs' eq_refl). reflexivity.
    + assert (Hd : enabled (disabled_copy ty rule) = false).
      { unfold disabled_copy. destruct (type_eqb _ _); [reflexivity|exact En]. }
      rewrite Hd. cbn [negb]. apply IH. exact H.
Qed.

Lemma collect_disabled_free (self : BillboardRulesEngine)
  (ty : ViolationType) (todo : list ViolationRule) (detection : Detection)
  (lat lon : Q) (jd : option (list Junction))
  (reg : option (string -> bool)) (vs : list Violation) :
  collect self (map (disabled_copy ty) todo) detection lat lon jd reg
  = Ok vs ->
  Forall (fun v => v_rule_type v <> ty) vs.
Proof.
  revert vs. induction todo as [|rule rest IH]; intros vs H.
  - injection H as <-. constructor.
  - cbn [collect map] in H.
    destruct (enabled (disabled_copy ty rule)) eqn:En; cbn [negb] in H.
    + destruct (dispatch self (disabled_copy ty rule) detection lat lon jd reg)
        as [ov|e] eqn:D; cbn [bind] in H; [|discriminate H].
      destruct (collect self (map (disabled_copy ty) rest) detection lat lon
                        jd reg) as [vs'|e] eqn:C;
        cbn [bind] in H; [|discriminate H].
      injection H as <-.
      apply Forall_app. split; [|apply IH; reflexivity].
      destruct ov as [v|]; [|constructor].
      constructor; [|constructor].
      rewrite (dispatch_type _ _ _ _ _ _ _ D).
      unfold disabled_copy in En |- *.
      destruct (type_eqb (rule_type rule) ty) eqn:T.
      * discriminate En.
      * apply type_eqb_neq. exact T.
    + apply IH. exact H.
Qed.

End EvaluateProps.

(** *** The default engine *)

Section DefaultEngineProps.

Context {B : Builtins}.

Import Rules.

Lemma of_type_app (ty : ViolationType) (l l' : list Violation) :
  of_type ty (l ++ l') = of_type ty l ++ of_type ty l'.
Proof. apply filter_app. Qed.

Lemma of_type_opt (ty : ViolationType) (ov : option Violation)
  (t : ViolationType) :
  (forall v, ov = Some v -> v_rule_type v = t) ->
  of_type ty (opt_list ov) = if type_eqb t ty then opt_list ov else [].
Proof.
  intro H. destruct ov as [v|]; cbn.
  - rewrite (H v eq_refl). destruct (type_eqb t ty); reflexivity.
  - destruct (type_eqb t ty); reflexivity.
Qed.

Lemma default_rules_listed :
  rules (init no_env)
  = [rule_at 0; rule_at 1; rule_at 2; rule_at 3; rule_at 4].
Proof. reflexivity. Qed.

Lemma _check_size_violation_returns (detection : Detection)
  (rule : ViolationRule) :
  ~ threshold rule == 0 ->
  exists r, _check_size_violation detection rule = Ok r.
Proof.
  intro H0. unfold _check_size_violation.
  destruct (Py.gt _ _); [|eexists; reflexivity].
  rewrite truediv_ok by exact H0. eexists. reflexivity.
Qed.

(** The size rule of the default engine never fails, and the result of the
    engine is the five checks side by side: it fails exactly where the
    junction check fails. *)
Lemma default_engine_result (detection : Detection) (lat lon : Q)
  (jd : option (list Junction)) (reg : option (string -> bool)) :
  exists os,
    _check_size_violation detection (rule_at 0) = Ok os /\
    evaluate_detection (init no_env) detection lat lon jd reg
    = (oj <- _check_junction_proximity lat lon (rule_at 1) jd ;;
       Ok (opt_list os ++ opt_list oj
           ++ opt_list (_check_license_missing detection (rule_at 2))
           ++ opt_list (_check_obscene_content (init no_env) detection
                                               (rule_at 3))
           ++ opt_list (invalid_branch detection (rule_at 4) reg))).
Proof.
  destruct (@_check_size_violation_returns detection (rule_at 0))
    as [os Es]; [intro H; vm_compute in H; discriminate H|].
  exists os. split; [exact Es|].
  rewrite evaluate_detection_collect, default_rules_listed.
  cbn [collect].
  change (enabled (rule_at 0)) with true.
  change (enabled (rule_at 1)) with true.
  change (enabled (rule_at 2)) with true.
  change (enabled (rule_at 3)) with true.
  change (enabled (rule_at 4)) with true.
  cbn [negb].
  unfold dispatch.
  change (rule_type (rule_at 0)) with SIZE_VIOLATION.
  change (rule_type (rule_at 1)) with JUNCTION_PROXIMITY.
  change (rule_type (rule_at 2)) with LICENSE_MISSING.
  change (rule_type (rule_at 3)) with OBSCENE_CONTENT.
  change (rule_type (rule_at 4)) with LICENSE_INVALID.
  cbv iota. rewrite Es. cbn [bind].
  destruct (_check_junction_proximity lat lon (rule_at 1) jd) as [oj|e];
    cbn [bind]; [|reflexivity].
  unfold invalid_branch. destruct reg; cbn [bind]; rewrite ?app_nil_r;
    reflexivity.
Qed.

(** The default engine returns exactly when its junction check does. *)
Lemma default_engine_returns (detection : Detection) (lat lon : Q)
  (jd : option (list Junction)) (reg : option (string -> bool)) :
  (exists vs,
     evaluate_detection (init no_env) detection lat lon jd reg = Ok vs) <->
  (exists oj, _check_junction_proximity lat lon (rule_at 1) jd = Ok oj).
Proof.
  destruct (default_engine_result detection lat lon jd reg) as [os [_ E]].
  rewrite E.
  destruct (_check_junction_proximity lat lon (rule_at 1) jd) as [oj|e];
    cbn [bind]; split; intros [x H];
    first [discriminate H | eexists; reflexivity].
Qed.

(** The violations of one type in the default engine's result. *)
Lemma default_engine_of_type (detection : Detection) (lat lon : Q)
  (jd : option (list Junction)) (reg : option (string -> bool))
  (ty : ViolationType) (oj : option Violation) :
  _check_junction_proximity lat lon (rule_at 1) jd = Ok oj ->
  exists os vs,
    _check_size_violation detection (rule_at 0) = Ok os /\
    evaluate_detection (init no_env) detection lat lon jd reg = Ok vs /\
    of_type ty vs
    = match ty with
      | SIZE_VIOLATION => opt_list os
      | JUNCTION_PROXIMITY => opt_list oj
      | LICENSE_MISSING =>
          opt_list (_check_license_missing detection (rule_at 2))
      | OBSCENE_CONTENT =>
          opt_list (_check_obscene_content (init no_env) detection
                                           (rule_at 3))
      | LICENSE_INVALID =>
          opt_list (invalid_branch detection (rule_at 4) reg)
      | PLACEMENT_VIOLATION => []
      end.
Proof.
  intro Ej.
  destruct (default_engine_result detection lat lon jd reg)
    as [os [Es E]].
  rewrite Ej in E. cbn [bind] in E.
  exists os. eexists. split; [exact Es|].
  split; [exact E|].
  rewrite !of_type_app.
  rewrite (@of_type_opt ty os SIZE_VIOLATION)
    by (intros v ->; apply (_check_size_violation_type _ _ Es)).
  rewrite (@of_type_opt ty oj JUNCTION_PROXIMITY)
    by (intros v ->; apply (_check_junction_proximity_type _ _ _ _ Ej)).
  rewrite (@of_type_opt ty _ LICENSE_MISSING)
    by (intros v Hv; apply (_check_license_missing_type _ _ Hv)).
  rewrite (@of_type_opt ty _ OBSCENE_CONTENT)
    by (intros v Hv; apply (_check_obscene_content_type _ _ _ Hv)).
  rewrite (@of_type_opt ty _ LICENSE_INVALID).
  - destruct ty; cbn; rewrite ?app_nil_r; reflexivity.
  - intros v Hv. unfold invalid_branch in Hv.
    destruct reg; [|discriminate Hv].
    apply (_check_license_invalid_type _ _ _ Hv).
Qed.

(** The violations of one type in a result of the default engine. *)
Lemma default_engine_of_type_inv (detection : Detection) (lat lon : Q)
  (jd : option (list Junction)) (reg : option (string -> bool))
  (ty : ViolationType) (vs : list Violation) :
  evaluate_detection (init no_env) detection lat lon jd reg = Ok vs ->
  exists os oj,
    _check_size_violation detection (rule_at 0) = Ok os /\
    _check_junction_proximity lat lon (rule_at 1) jd = Ok oj /\
    of_type ty vs
    = match ty with
      | SIZE_VIOLATION => opt_list os
      | JUNCTION_PROXIMITY => opt_list oj
      | LICENSE_MISSING =>
          opt_list (_check_license_missing detection (rule_at 2))
      | OBSCENE_CONTENT =>
          opt_list (_check_obscene_content (init no_env) detection
                                           (rule_at 3))
      | LICENSE_INVALID =>
          opt_list (invalid_branch detection (rule_at 4) reg)
      | PLACEMENT_VIOLATION => []
      end.
Proof.
  intro H.
  assert (Hj : exists oj,
             _check_junction_proximity lat lon (rule_at 1) jd = Ok oj)
    by (apply (default_engine_returns detection lat lon jd reg);
        exists vs; exact H).
  destruct Hj as [oj Ej].
  destruct (default_engine_of_type detection lat lon jd reg ty Ej)
    as [os [vs' [Es [E Hty]]]].
  rewrite H in E. injection E as <-.
  exists os, oj. split; [exact Es|]. split; [exact Ej | exact Hty].
Qed.

(** The default engine returns on harmless junctions, and so when no
    junction list is given. *)
Lemma default_engine_harmless (detection : Detection) (lat lon : Q)
  (jd : option (list Junction)) (reg : option (string -> bool)) :
  harmless_junctions lat lon (rule_at 1) jd ->
  exists vs,
    evaluate_detection (init no_env) detection lat lon jd reg = Ok vs.
Proof.
  intro H. apply (default_engine_returns detection lat lon jd reg).
  apply _check_junction_proximity_returns; [|exact H].
  intro Z. vm_compute in Z. discriminate Z.
Qed.

End DefaultEngineProps.

(** *** What an evaluation reports, on any engine *)

Section EngineReports.

Context {B : Builtins}.

Import Rules.

(** Every enabled rule of a returning loop was dispatched without error. *)
Lemma collect_dispatched (self : BillboardRulesEngine)
  (todo : list ViolationRule) (detection : Detection) (lat lon : Q)
  (jd : option (list Junction)) (reg : option (string -> bool))
  (vs : list Violation) (rule : ViolationRule) :
  collect self todo detection lat lon jd reg = Ok vs ->
  In rule todo ->
  enabled rule = true ->
  exists ov,
    dispatch self rule detection lat lon jd reg = Ok ov /\
    forall v, ov = Some v -> In v vs.
Proof.
  revert vs. induction todo as [|r rest IH]; intros vs H Hin En.
  - destruct Hin.
  - cbn [collect] in H.
    destruct (enabled r) eqn:Er; cbn [negb] in H.
    + destruct (dispatch self r detection lat lon jd reg) as [ov|e] eqn:D;
        cbn [bind] in H; [|discriminate H].
      destruct (collect self rest detection lat lon jd reg) as [vs'|e] eqn:C;
        cbn [bind] in H; [|discriminate H].
      injection H as <-.
      destruct Hin as [-> | Hin].
      * exists ov. split; [exact D|]. intros v ->. left. reflexivity.
      * destruct (IH vs' eq_refl Hin En) as [ov' [D' Hv]].
        exists ov'. split; [exact D'|].
        intros v Hov. apply in_or_app. right. exact (Hv v Hov).
    + destruct Hin as [-> | Hin]; [congruence|].
      exact (IH vs H Hin En).
Qed.

(** No violation of a type comes out when every enabled rule of that type
    reports nothing. *)
Lemma collect_quiet (self : BillboardRulesEngine)
  (todo : list ViolationRule) (detection : Detection) (lat lon : Q)
  (jd : option (list Junction)) (reg : option (string -> bool))
  (vs : list Violation) (ty : ViolationType) :
  collect self todo detection lat lon jd reg = Ok vs ->
  (forall rule,
     In rule todo -> enabled rule = true -> rule_type rule = ty ->
     dispatch self rule detection lat lon jd reg = Ok None) ->
  of_type ty vs = [].
Proof.
  revert vs. induction todo as [|r rest IH]; intros vs H Hq.
  - injection H as <-. reflexivity.
  - cbn [collect] in H.
    assert (Hrest : forall rule,
               In rule rest -> enabled rule = true -> rule_type rule = ty ->
               dispatch self rule detection lat lon jd reg = Ok None)
      by (intros rule Hin; apply Hq; right; exact Hin).
    destruct (enabled r) eqn:Er; cbn [negb] in H; [|exact (IH vs H Hrest)].
    destruct (dispatch self r detection lat lon jd reg) as [ov|e] eqn:D;
      cbn [bind] in H; [|discriminate H].
    destruct (collect self rest detection lat lon jd reg) as [vs'|e] eqn:C;
      cbn [bind] in H; [|discriminate H].
    injection H as <-.
    rewrite of_type_app, (IH vs' eq_refl Hrest), app_nil_r.
    rewrite (@of_type_opt ty ov (rule_type r))
      by (intros v ->; eapply dispatch_type; exact D).
    destruct (type_eqb (rule_type r) ty) eqn:T; [|reflexivity].
    apply type_eqb_eq in T.
    rewrite (Hq r (or_introl eq_refl) Er T) in D. injection D as <-.
    reflexivity.
Qed.



(** The missing-license violations of an evaluation, on any engine. *)
Lemma evaluate_detection_license_missing (self : BillboardRulesEngine)
  (detection : Detection) (lat lon : Q) (jd : option (list Junction))
  (reg : option (string -> bool)) (vs : list Violation) :
  evaluate_detection self detection lat lon jd reg = Ok vs ->
  (license_blank detection ->
   forall rule,
     In rule (rules self) -> enabled rule = true ->
     rule_type rule = LICENSE_MISSING ->
     In (license_missing_violation detection rule) vs) /\
  (~ license_blank detection -> of_type LICENSE_MISSING vs = []).
Proof.
  intro H. rewrite evaluate_detection_collect in H. split.
  - intros Hb rule Hin En Ty.
    destruct (@collect_dispatched self (rules self) detection lat lon jd reg
                                     vs rule H Hin En) as [ov [D Hv]].
    unfold dispatch in D. rewrite Ty in D.
    rewrite _check_license_missing_fires in D by exact Hb.
    injection D as <-. apply Hv. reflexivity.
  - intro Hb. eapply collect_quiet; [exact H|].
    intros rule Hin En Ty. unfold dispatch. rewrite Ty.
    rewrite _check_license_missing_quiet by exact Hb. reflexivity.
Qed.


End EngineReports.

(** ** Geofence: the point-in-polygon test *)

Section PointInPolygonProps.

Import Geofence.

(** Inside the band of an edge the end points differ in their second
    coordinate, so the division is defined and [xinters] is bound. *)
Lemma band_distinct (y a b : Q) :
  Py.gt y (Py.min a b) = true ->
  Py.le y (Py.max a b) = true ->
  Py.ne a b = true.
Proof.
  intros Hgt Hle. apply gt_iff in Hgt. apply le_iff in Hle.
  apply ne_iff. intro E.
  destruct (min_spec a b) as [[_ Hm] | [_ Hm]];
  destruct (max_spec a b) as [[_ HM] | [_ HM]];
  rewrite Hm in Hgt; rewrite HM in Hle; lra.
Qed.

Lemma pip_body_spec (x y : Q) (st : PipState) (p2 : Q * Q) :
  exists xi,
    pip_body x y st p2
    = Ok {| inside := xorb (inside st)
                           (crossing x y (p1x st, p1y st) p2);
            p1x := fst p2; p1y := snd p2; xinters := xi |}.
Proof.
  destruct p2 as [p2x p2y]. unfold pip_body, crossing. cbn [fst snd].
  destruct (Py.gt y (Py.min (p1y st) p2y)) eqn:Hgt; cbn [andb bind];
    [|eexists; rewrite xorb_false_r; reflexivity].
  destruct (Py.le y (Py.max (p1y st) p2y)) eqn:Hle; cbn [andb bind];
    [|eexists; rewrite xorb_false_r; reflexivity].
  destruct (Py.le x (Py.max (p1x st) p2x)) eqn:Hx; cbn [andb bind];
    [|eexists; rewrite xorb_false_r; reflexivity].
  pose proof (band_distinct _ _ _ Hgt Hle) as Hne. rewrite Hne.
  rewrite truediv_ok
    by (apply ne_iff in Hne; intro E; apply Hne; lra).
  cbn [bind].
  destruct (Py.eq (p1x st) p2x); cbn [orb bind fst snd].
  - eexists. rewrite xorb_true_r. reflexivity.
  - destruct (Py.le x (_ + _)); cbn [bind fst snd]; eexists;
      rewrite ?xorb_true_r, ?xorb_false_r; reflexivity.
Qed.

Lemma pip_loop_spec (x y : Q) (polygon : list (Q * Q)) (n : nat)
  (indices : list nat) (st : PipState) :
  exists st',
    pip_loop x y polygon n indices st = Ok st' /\
    inside st'
    = xorb (inside st)
           (crossings x y (p1x st, p1y st)
              (map (fun i => nth (i mod n) polygon (0, 0)) indices)).
Proof.
  revert st. induction indices as [|i rest IH]; intro st.
  - exists st. split; [reflexivity|]. cbn. rewrite xorb_false_r. reflexivity.
  - cbn [pip_loop map crossings].
    destruct (pip_body_spec x y st (nth (i mod n) polygon (0, 0)))
      as [xi E].
    rewrite E. cbn [bind].
    destruct (IH {| inside := xorb (inside st)
                                   (crossing x y (p1x st, p1y st)
                                      (nth (i mod n) polygon (0, 0)));
                    p1x := fst (nth (i mod n) polygon (0, 0));
                    p1y := snd (nth (i mod n) polygon (0, 0));
                    xinters := xi |}) as [st' [E' Hin]].
    exists st'. split; [exact E'|].
    rewrite Hin. cbn [inside p1x p1y].
    rewrite <- surjective_pairing. apply xorb_assoc.
Qed.

(** On a polygon with at least one vertex the test returns the parity of
    the crossed edges; it raises nothing. *)
Lemma _point_in_polygon_spec (lat lon : Q) (p0 : Q * Q)
  (ps : list (Q * Q)) :
  _point_in_polygon lat lon (p0 :: ps)
  = Ok (crossings lon lat p0 (visited (p0 :: ps))).
Proof.
  unfold _point_in_polygon. destruct p0 as [p0x p0y].
  destruct (pip_loop_spec lon lat ((p0x, p0y) :: ps)
              (List.length ((p0x, p0y) :: ps))
              (seq 1 (List.length ((p0x, p0y) :: ps)))
              {| inside := false; p1x := p0x; p1y := p0y;
                 xinters := None |}) as [st' [E Hin]].
  rewrite E. cbn [bind]. rewrite Hin. reflexivity.
Qed.


(** What [crossing] decides, with the band and the intersection written
    out. *)
Lemma crossing_iff (x y : Q) (p1 p2 : Q * Q) :
  crossing x y p1 p2 = true <->
  ((snd p1 < y <= snd p2 \/ snd p2 < y <= snd p1) /\
   (x <= fst p1 \/ x <= fst p2) /\
   (fst p1 == fst p2 \/
    x <= (y - snd p1) * (fst p2 - fst p1) / (snd p2 - snd p1) + fst p1)).
Proof.
  unfold crossing. rewrite !andb_true_iff, orb_true_iff.
  rewrite gt_iff, !le_iff, eq_iff.
  destruct (min_spec (snd p1) (snd p2)) as [[Hm ->] | [Hm ->]];
  destruct (max_spec (snd p1) (snd p2)) as [[HM ->] | [HM ->]];
  destruct (max_spec (fst p1) (fst p2)) as [[HX ->] | [HX ->]];
  intuition lra.
Qed.

(** An edge whose end points are both at or above [y] in their second
    coordinate is not crossed. *)
Lemma crossing_below (x y : Q) (p1 p2 : Q * Q) :
  y <= snd p1 -> y <= snd p2 -> crossing x y p1 p2 = false.
Proof.
  intros H1 H2. destruct (crossing x y p1 p2) eqn:E; [|reflexivity].
  apply crossing_iff in E. destruct E as [[Hb | Hb] _]; lra.
Qed.

End PointInPolygonProps.

(** ** Geofence: zones, buffers and the registry *)

Section GeofenceProps.

Context {B : Builtins}.

Import Geofence.

Lemma zone_loop_spec (lat lon area : Q) (zones : list GeofenceZone)
  (z : option GeofenceZone) (vs : list LocationViolation)
  (status : string) :
  zone_loop lat lon area zones = Ok (z, vs, status) ->
  match z with
  | None => vs = [] /\ status = "compliant"%string
  | Some zone =>
      In zone zones /\
      _point_in_polygon lat lon (coordinates zone) = Ok true /\
      zone_outcome area zone vs status
  end.
Proof.
  induction zones as [|zone rest IH]; cbn [zone_loop]; intro H.
  - injection H as <- <- <-. split; reflexivity.
  - destruct (_point_in_polygon lat lon (coordinates zone)) as [hit|e] eqn:E;
      cbn [bind] in H; [|discriminate H].
    destruct hit.
    + unfold zone_outcome.
      destruct (prohibited zone) eqn:P.
      * destruct (special_rules zone) as [rules|] eqn:S; [|discriminate H].
        injection H as <- <- <-.
        split; [left; reflexivity|]. split; [exact E|].
        rewrite P. split; [reflexivity|].
        exists rules. split; [exact S | reflexivity].
      * destruct (Py.gt area (size_limit_m2 zone)) eqn:G;
          injection H as <- <- <-;
          (split; [left; reflexivity|]); (split; [exact E|]);
          rewrite P, G; split; reflexivity.
    + specialize (IH H). destruct z as [zone'|]; [|exact IH].
      destruct IH as [Hin Hrest]. split; [right; exact Hin | exact Hrest].
Qed.

(** The loop stops at the first zone the test accepts. *)
Lemma zone_loop_first_hit (lat lon area : Q) (zone : GeofenceZone)
  (rest : list GeofenceZone) (rules : list (string * PyVal)) :
  _point_in_polygon lat lon (coordinates zone) = Ok true ->
  prohibited zone = true ->
  special_rules zone = Some rules ->
  zone_loop lat lon area (zone :: rest)
  = Ok (Some zone, [prohibited_violation zone rules], "prohibited"%string).
Proof.
  intros E P S. cbn [zone_loop]. rewrite E. cbn [bind]. rewrite P, S.
  reflexivity.
Qed.

Lemma zone_loop_miss (lat lon area : Q) (zone : GeofenceZone)
  (rest : list GeofenceZone) :
  _point_in_polygon lat lon (coordinates zone) = Ok false ->
  zone_loop lat lon area (zone :: rest) = zone_loop lat lon area rest.
Proof.
  intro E. cbn [zone_loop]. rewrite E. reflexivity.
Qed.



(** Every buffer violation has severity 4. *)
Lemma _check_buffer_distances_severity (lat lon : Q) :
  Forall (fun v => v_severity v = 4%Z /\
                   v_type v = "buffer_violation"%string)
         (_check_buffer_distances lat lon).
Proof.
  unfold _check_buffer_distances.
  induction sensitive_locations as [|loc rest IH]; cbn [flat_map].
  - constructor.
  - apply Forall_app. split; [|exact IH].
    destruct (Py.lt _ _); repeat constructor.
Qed.

Lemma check_location_compliance_spec (self : BillboardGeofence)
  (lat lon area : Q) (z : option GeofenceZone)
  (vs : list LocationViolation) (status : string) :
  zone_loop lat lon area (restricted_zones self) = Ok (z, vs, status) ->
  exists res,
    check_location_compliance self lat lon area = Ok res /\
    compliance_status res
    = final_status status (_check_buffer_distances lat lon) /\
    violations res = vs ++ _check_buffer_distances lat lon /\
    zone_info res = zone_info_of z.
Proof.
  intro H. unfold check_location_compliance. rewrite H. cbn [bind].
  eexists. split; [reflexivity|]. repeat split.
Qed.


(** South of latitude 76.358 the test accepts no default zone: it compares
    the latitude of the point with the second coordinate of the vertices,
    which is their longitude. *)
Lemma zone_loop_default_misses (lat lon area : Q) :
  lat <= 763580 # 10000 ->
  zone_loop lat lon area (restricted_zones init)
  = Ok (None, [], "compliant"%string).
Proof.
  intro H. unfold init. cbn [restricted_zones].
  unfold _load_restricted_zones.
  repeat (rewrite zone_loop_miss;
          [|cbn [coordinates]; rewrite _point_in_polygon_spec;
            change (visited ?l) with (tl l ++ [hd (0, 0) l]);
            cbn [tl hd app crossings];
            rewrite !crossing_below by (cbn [snd]; lra);
            reflexivity]).
  reflexivity.
Qed.

(** *** Registry *)

Lemma matching_record_none (license_id : string) :
  (forall r, In r permitted_billboards -> r_license_id r <> license_id) ->
  matching_record license_id = None.
Proof.
  intro H. unfold matching_record.
  destruct (find _ permitted_billboards) as [r|] eqn:E; [|reflexivity].
  apply find_some in E. destruct E as [Hin Heq].
  apply String.eqb_eq in Heq. exfalso. exact (H r Hin Heq).
Qed.

(** The license ids of the registry are pairwise distinct: a record with
    the searched id is the one the search finds. *)
Lemma matching_record_some (license_id : string) (r : RegistryRecord) :
  In r permitted_billboards ->
  r_license_id r = license_id ->
  matching_record license_id = Some r.
Proof.
  intros Hin <-. cbn in Hin.
  destruct Hin as [<- | [<- | [<- | [<- | []]]]]; reflexivity.
Qed.

End GeofenceProps.

(** ** Location compliance inside a prohibited zone *)

Section ProhibitedZoneProps.

Context {B : Builtins}.

Import Geofence.

Lemma no_severity_5 (vs : list LocationViolation) :
  Forall (fun v => v_severity v = 4%Z /\
                   v_type v = "buffer_violation"%string) vs ->
  filter (fun w => (v_severity w =? 5)%Z) vs = [].
Proof.
  intro H. induction H as [|w ws [Hw _] _ IH]; [reflexivity|].
  cbn [filter]. rewrite Hw. exact IH.
Qed.

(** When the zone loop stops at a prohibited zone, exactly one severity-5
    violation of type [prohibited_zone] is recorded, whatever the area; the
    status is [prohibited] when no buffer violation fires, and it is
    overwritten with [non_compliant] when one does. *)
Lemma check_location_compliance_prohibited (self : BillboardGeofence)
  (lat lon area : Q) (zone : GeofenceZone) (vs : list LocationViolation)
  (status : string) :
  zone_loop lat lon area (restricted_zones self)
  = Ok (Some zone, vs, status) ->
  prohibited zone = true ->
  exists res v,
    check_location_compliance self lat lon area = Ok res /\
    violations res = v :: _check_buffer_distances lat lon /\
    v_type v = "prohibited_zone"%string /\
    v_severity v = 5%Z /\
    filter (fun w => (v_severity w =? 5)%Z) (violations res) = [v] /\
    (_check_buffer_distances lat lon = [] ->
     compliance_status res = "prohibited"%string) /\
    (_check_buffer_distances lat lon <> [] ->
     compliance_status res = "non_compliant"%string).
Proof.
  intros H P.
  pose proof (zone_loop_spec _ _ _ _ H) as [_ [_ Hout]].
  unfold zone_outcome in Hout. rewrite P in Hout.
  destruct Hout as [-> [rules [_ ->]]].
  destruct (check_location_compliance_spec self lat lon area H)
    as [res [E [Hs [Hv _]]]].
  exists res, (prohibited_violation zone rules).
  split; [exact E|]. split; [exact Hv|].
  split; [reflexivity|]. split; [reflexivity|].
  split.
  - rewrite Hv. cbn [app filter prohibited_violation v_severity Z.eqb
                     Pos.eqb].
    f_equal. apply no_severity_5.
    apply _check_buffer_distances_severity.
  - rewrite Hs. split; intro Hb.
    + rewrite Hb. reflexivity.
    + destruct (_check_buffer_distances lat lon); [contradiction|reflexivity].
Qed.

(** A point strictly within a prohibited default zone is south of latitude
    76.358. *)
Lemma strictly_within_default_south (lat lon : Q) (zone : GeofenceZone) :
  In zone (restricted_zones init) ->
  strictly_within lat lon (coordinates zone) ->
  lat <= 763580 # 10000.
Proof.
  intros Hin [[p [q [_ [Hq [_ Hlat]]]]] _].
  cbn in Hin.
  destruct Hin as [<- | [<- | [<- | [<- | []]]]]; cbn in Hq;
    destruct Hq as [<- | [<- | [<- | [<- | []]]]]; cbn [fst] in Hlat; lra.
Qed.

End ProhibitedZoneProps.

(** ** The combined validation *)

Section ValidateProps.

Context {B : Builtins}.

Import Geofence.



(** When the test accepts a prohibited default zone, the zone loop ends
    with the status [prohibited]: the two prohibited zones come first. *)
Lemma zone_loop_default_prohibited (lat lon area : Q) (zone : GeofenceZone) :
  In zone (restricted_zones init) ->
  prohibited zone = true ->
  _point_in_polygon lat lon (coordinates zone) = Ok true ->
  exists z vs,
    zone_loop lat lon area (restricted_zones init)
    = Ok (Some z, vs, "prohibited"%string) /\ prohibited z = true.
Proof.
  intros Hin P E. unfold init in *. cbn [restricted_zones] in *.
  unfold _load_restricted_zones in *.
  destruct Hin as [<- | [<- | [<- | [<- | []]]]]; try discriminate P.
  - eexists. eexists. split; [|exact P].
    eapply zone_loop_first_hit; [exact E | reflexivity | reflexivity].
  - match goal with
    | |- context [zone_loop _ _ _ (?school :: _)] =>
        destruct (_point_in_polygon lat lon (coordinates school))
          as [[|]|e] eqn:E0
    end.
    + eexists. eexists. split.
      * eapply zone_loop_first_hit; [exact E0 | reflexivity | reflexivity].
      * reflexivity.
    + rewrite zone_loop_miss by exact E0.
      eexists. eexists. split; [|exact P].
      eapply zone_loop_first_hit; [exact E | reflexivity | reflexivity].
    + cbn [coordinates] in E0. rewrite _point_in_polygon_spec in E0.
      discriminate E0.
Qed.

End ValidateProps.

(** ** The approximate builtins satisfy what the junction check needs *)





(** ** Filtering violations by type *)

Lemma of_type_not_of_type (ty ty' : Rules.ViolationType)
  (vs : list Rules.Violation) :
  ty' <> ty -> of_type ty' (not_of_type ty vs) = of_type ty' vs.
Proof.
  intro Hne. unfold of_type, not_of_type.
  induction vs as [|v vs IH]; [reflexivity|].
  cbn [filter].
  destruct (Rules.type_eqb (Rules.v_rule_type v) ty) eqn:T; cbn [negb filter].
  - apply type_eqb_eq in T.
    assert (T' : Rules.type_eqb (Rules.v_rule_type v) ty' = false)
      by (apply type_eqb_neq; congruence).
    rewrite T'. exact IH.
  - destruct (Rules.type_eqb (Rules.v_rule_type v) ty'); [f_equal|]; exact IH.
Qed.

Lemma of_type_nil_iff (ty : Rules.ViolationType)
  (vs : list Rules.Violation) :
  Forall (fun v => Rules.v_rule_type v <> ty) vs -> of_type ty vs = [].
Proof.
  intro H. induction H as [|v vs Hv Hvs IH]; [reflexivity|].
  unfold of_type. cbn [filter]. apply type_eqb_neq in Hv. rewrite Hv.
  exact IH.
Qed.

(* ================================================================== *)
(** * The statements of the specification *)
(* ================================================================== *)

Unset Implicit Arguments.

(** C1, where the code departs from it.  For a point that lies strictly
    within a prohibited zone of the default geofence,
    [check_location_compliance] returns a result whose status is not
    [prohibited] and whose violations contain no [prohibited_zone] entry
    and none of severity 5, whatever the area: the point-in-polygon test
    takes [x, y = lon, lat] but reads each vertex [(lat, lon)] of the zone
    as [(x, y)], so it compares latitudes with longitudes and accepts no
    zone. *)
Theorem C1_prohibited_zone_not_detected :
  forall (B : Builtins) (zone : Geofence.GeofenceZone) (lat lon area : Q),
    In zone (Geofence.restricted_zones Geofence.init) ->
    Geofence.prohibited zone = true ->
    strictly_within lat lon (Geofence.coordinates zone) ->
    exists res,
      Geofence.check_location_compliance Geofence.init lat lon area = Ok res /\
      Geofence.compliance_status res <> "prohibited"%string /\
      Geofence.zone_info res = Geofence.zone_info_of None /\
      Forall (fun v => Geofence.v_severity v = 4%Z /\
                       Geofence.v_type v = "buffer_violation"%string)
             (Geofence.violations res).
Proof.
  intros B zone lat lon area Hin _ Hw.
  pose proof (strictly_within_default_south Hin Hw) as Hs.
  pose proof (zone_loop_default_misses lon area Hs) as Hz.
  destruct (check_location_compliance_spec Geofence.init lat lon area Hz)
    as [res [E [Hst [Hv Hzi]]]].
  exists res. split; [exact E|]. split; [|split; [exact Hzi|]].
  - rewrite Hst. unfold final_status.
    destruct (Geofence._check_buffer_distances lat lon); discriminate.
  - rewrite Hv. cbn [app]. apply _check_buffer_distances_severity.
Qed.

(** The centre of the hospital buffer zone, (30.3525, 76.3585), with area
    0. *)
Lemma C1_prohibited_zone_not_detected_witness :
  exists res,
    Geofence.check_location_compliance (B := ApproxMath.builtins)
      Geofence.init (303525 # 10000) (763585 # 10000) 0 = Ok res /\
    Geofence.compliance_status res <> "prohibited"%string /\
    Geofence.zone_info res = Geofence.zone_info_of None /\
    Forall (fun v => Geofence.v_severity v = 4%Z /\
                     Geofence.v_type v = "buffer_violation"%string)
           (Geofence.violations res).
Proof.
  refine (C1_prohibited_zone_not_detected ApproxMath.builtins
            (nth 1 (Geofence.restricted_zones Geofence.init)
                 {| Geofence.zone_id := ""; Geofence.name := "";
                    Geofence.coordinates := []; Geofence.max_billboards := 0;
                    Geofence.size_limit_m2 := 0; Geofence.prohibited := false;
                    Geofence.special_rules := None |})
            (303525 # 10000) (763585 # 10000) 0 _ _ _).
  - right. left. reflexivity.
  - reflexivity.
  - split.
    + exists (303520 # 10000, 763580 # 10000),
             (303530 # 10000, 763580 # 10000).
      split; [left; reflexivity|].
      split; [right; left; reflexivity|].
      cbn [fst]. split; reflexivity.
    + exists (303520 # 10000, 763580 # 10000),
             (303530 # 10000, 763590 # 10000).
      split; [left; reflexivity|].
      split; [right; right; left; reflexivity|].
      cbn [snd]. split; reflexivity.
Defined.

(** What the code returns at the centre of the hospital buffer zone,
    (30.3525, 76.3585), a prohibited zone out of reach of every sensitive
    site, with the approximate builtins: [compliant], unzoned, no violation
    at all. *)
Lemma check_location_compliance_hospital_centre :
  match Geofence.check_location_compliance (B := ApproxMath.builtins)
          Geofence.init (303525 # 10000) (763585 # 10000) 0 with
  | Ok res =>
      Geofence.compliance_status res = "compliant"%string /\
      Geofence.zi_zone_name (Geofence.zone_info res) = "Unzoned area"%string /\
      Geofence.violations res = []
  | Raise _ => False
  end.
Proof. vm_compute. repeat split. Qed.

(** With the active license LIC-CHD-001 the combined validation of that
    point is [compliant]. *)
Lemma validate_billboard_location_hospital_centre :
  match Geofence.validate_billboard_location (B := ApproxMath.builtins)
          (303525 # 10000) (763585 # 10000) (Some "LIC-CHD-001"%string) 0
  with
  | Ok res => Geofence.overall_status res = "compliant"%string
  | Raise _ => False
  end.
Proof. vm_compute. reflexivity. Qed.

(** What the code returns at the centre of the school buffer zone, with the
    approximate builtins: [non_compliant], and one buffer violation of
    severity 4 for the school 29 m away. *)
Lemma check_location_compliance_school_centre :
  match Geofence.check_location_compliance (B := ApproxMath.builtins)
          Geofence.init (303550 # 10000) (763630 # 10000) 0 with
  | Ok res =>
      Geofence.compliance_status res = "non_compliant"%string /\
      map Geofence.v_severity (Geofence.violations res) = [4%Z] /\
      map Geofence.v_reason (Geofence.violations res)
      = ["Only 29m from DAV Public School (min: 100m)"%string]
  | Raise _ => False
  end.
Proof. vm_compute. repeat split. Qed.

(** When the test does accept a prohibited zone and a buffer violation
    fires as well, the status [prohibited] is overwritten: at the school
    itself the result is [non_compliant], with the severity-5 violation
    still first in the list. *)
Lemma prohibited_status_overwritten :
  match Geofence.check_location_compliance (B := ApproxMath.builtins)
          school_zone_lon_lat (303548 # 10000) (763628 # 10000) 0 with
  | Ok res =>
      Geofence.compliance_status res = "non_compliant"%string /\
      map Geofence.v_type (Geofence.violations res)
      = ["prohibited_zone"%string; "buffer_violation"%string] /\
      map Geofence.v_severity (Geofence.violations res) = [5%Z; 4%Z]
  | Raise _ => False
  end.
Proof. vm_compute. repeat split. Qed.





(** C3 as the specification states it fails at the threshold zero: the
    area 75 of the oversized billboard exceeds it, and the enabled size
    rule produces no violation, it raises [ZeroDivisionError]. *)
Lemma C3_counterexample :
  Rules.enabled zero_threshold_rule = true /\
  Rules.rule_type zero_threshold_rule = Rules.SIZE_VIOLATION /\
  Rules.threshold zero_threshold_rule
  < Rules.est_width_m oversized_detection
    * Rules.est_height_m oversized_detection /\
  Rules._check_size_violation (B := ApproxMath.builtins)
    oversized_detection zero_threshold_rule
  = Raise ZeroDivisionError /\
  ~ (exists v,
       Rules._check_size_violation (B := ApproxMath.builtins)
         oversized_detection zero_threshold_rule = Ok (Some v)).
Proof.
  split; [reflexivity|]. split; [reflexivity|]. split; [reflexivity|].
  split; [reflexivity|].
  intros [v H]. vm_compute in H. discriminate H.
Qed.

(** C4.  [check_permitted_database] answers [not_found], with
    [license_valid] and [location_match] both false, when no record of the
    registry has exactly the given license id.  When a record has it, the
    answer is [found]; [location_match] is true exactly when the haversine
    distance from the point to the registered coordinates is at most 50
    (a distance of exactly 50 matches, one of 50.001 does not), and
    [license_valid] is true exactly when the record's status is
    [active]. *)
Theorem C4_permitted_database :
  forall (B : Builtins) (license_id : string) (lat lon : Q),
    ((forall r, In r Geofence.permitted_billboards ->
                Geofence.r_license_id r <> license_id) ->
     let res := Geofence.check_permitted_database license_id lat lon in
     Geofence.database_status res = "not_found"%string /\
     Geofence.license_valid res = false /\
     Geofence.location_match res = false) /\
    (forall r,
       In r Geofence.permitted_billboards ->
       Geofence.r_license_id r = license_id ->
       let res := Geofence.check_permitted_database license_id lat lon in
       let d := Geofence._haversine_distance lat lon (Geofence.r_lat r)
                                             (Geofence.r_lon r) in
       Geofence.database_status res = "found"%string /\
       (Geofence.location_match res = true <-> d <= 50) /\
       (Geofence.license_valid res = true <->
        Geofence.r_status r = "active"%string) /\
       (d == 50 -> Geofence.location_match res = true) /\
       (d == 50001 # 1000 -> Geofence.location_match res = false)).
Proof.
  intros B license_id lat lon. split.
  - intros H res. subst res. unfold Geofence.check_permitted_database.
    rewrite (matching_record_none H). repeat split.
  - intros r Hin Hid res d. subst res d.
    unfold Geofence.check_permitted_database.
    rewrite (matching_record_some Hin Hid).
    cbn [Geofence.database_status Geofence.location_match
         Geofence.license_valid].
    split; [reflexivity|].
    split; [apply le_iff|].
    split; [apply String.eqb_eq|].
    split; intro E.
    + apply le_iff. rewrite E. discriminate.
    + apply le_false_iff. rewrite E. reflexivity.
Qed.

(** The expired license of the registry, asked about at its registered
    coordinates: found, the location matches, the license is not valid. *)
Lemma C4_permitted_database_witness :
  let res := Geofence.check_permitted_database (B := ApproxMath.builtins)
               "LIC-CHD-004" (303521 # 10000) (763589 # 10000) in
  Geofence.database_status res = "found"%string /\
  Geofence.location_match res = true /\
  Geofence.license_valid res <> true.
Proof.
  pose proof (proj2 (C4_permitted_database ApproxMath.builtins "LIC-CHD-004"
                       (303521 # 10000) (763589 # 10000))
                    (nth 3 Geofence.permitted_billboards
                         (nth 0 Geofence.permitted_billboards
                              {| Geofence.r_license_id := "";
                                 Geofence.r_lat := 0; Geofence.r_lon := 0;
                                 Geofence.r_status := "" |}))
                    (or_intror (or_intror (or_intror (or_introl eq_refl))))
                    eq_refl) as [H1 [H2 [H3 _]]].
  split; [exact H1|]. split.
  - apply H2. vm_compute. discriminate.
  - intro H. apply H3 in H. discriminate H.
Defined.




(** C6.  [_check_license_missing] reports a violation exactly when the
    license id is absent ([None]) or blank after trimming; the violation has
    the fixed confidence 0.8 and the rule's severity, which is 5 for the
    default rule.  An evaluation that returns holds that violation for
    every enabled missing-license rule when the id is blank, and no
    missing-license violation otherwise; on the default engine it is
    exactly one violation when the id is blank, and the evaluation returns
    on harmless junctions, so when no junction list is given.  The check
    fires for [None], for the empty string, for three spaces and for a
    no-break space, and does not fire for "X". *)
Theorem C6_license_missing :
  forall (B : Builtins) (detection : Rules.Detection)
         (rule : Rules.ViolationRule),
    (license_blank detection ->
     Rules._check_license_missing detection rule
     = Some (license_missing_violation detection rule)) /\
    (~ license_blank detection ->
     Rules._check_license_missing detection rule = None) /\
    Rules.v_rule_type (license_missing_violation detection rule)
    = Rules.rule_type rule /\
    Rules.v_severity (license_missing_violation detection rule)
    = Rules.severity rule /\
    Rules.v_confidence (license_missing_violation detection rule) = 8 # 10 /\
    (Rules.rule_type (rule_at 2) = Rules.LICENSE_MISSING /\
     Rules.severity (rule_at 2) = 5%Z /\
     Rules.enabled (rule_at 2) = true) /\
    (forall self lat lon jd reg vs,
       Rules.evaluate_detection self detection lat lon jd reg = Ok vs ->
       (license_blank detection ->
        forall r,
          In r (Rules.rules self) -> Rules.enabled r = true ->
          Rules.rule_type r = Rules.LICENSE_MISSING ->
          In (license_missing_violation detection r) vs) /\
       (~ license_blank detection ->
        of_type Rules.LICENSE_MISSING vs = [])) /\
    (forall lat lon jd reg,
       (forall vs,
          Rules.evaluate_detection (Rules.init Rules.no_env) detection
                                   lat lon jd reg = Ok vs ->
          (license_blank detection ->
           of_type Rules.LICENSE_MISSING vs
           = [license_missing_violation detection (rule_at 2)]) /\
          (~ license_blank detection ->
           of_type Rules.LICENSE_MISSING vs = [])) /\
       (harmless_junctions lat lon (rule_at 1) jd ->
        exists vs,
          Rules.evaluate_detection (Rules.init Rules.no_env) detection
                                   lat lon jd reg = Ok vs)) /\
    (forall d, Rules.license_id d = None -> license_blank d) /\
    (forall d, Rules.license_id d = Some ""%string -> license_blank d) /\
    (forall d, Rules.license_id d = Some "   "%string -> license_blank d) /\
    (forall d, Rules.license_id d = Some no_break_space -> license_blank d) /\
    (forall d, Rules.license_id d = Some "X"%string -> ~ license_blank d).
Proof.
  intros B detection rule.
  split; [apply _check_license_missing_fires|].
  split; [apply _check_license_missing_quiet|].
  do 3 (split; [reflexivity|]).
  split; [repeat split|].
  split.
  { intros self lat lon jd reg vs H.
    exact (evaluate_detection_license_missing self detection lat lon jd reg
                                              H). }
  split.
  { intros lat lon jd reg. split; [|apply default_engine_harmless].
    intros vs E.
    destruct (default_engine_of_type_inv detection lat lon jd reg
                Rules.LICENSE_MISSING E) as [os [oj [_ [_ Hty]]]].
    rewrite Hty. split; intro H.
    - rewrite _check_license_missing_fires by exact H. reflexivity.
    - rewrite _check_license_missing_quiet by exact H. reflexivity. }
  split; [intros d H; left; exact H|].
  split; [intros d H; right; eexists; split; [exact H|reflexivity]|].
  split; [intros d H; right; eexists; split; [exact H|reflexivity]|].
  split; [intros d H; right; eexists; split; [exact H|reflexivity]|].
  intros d H [H'|[s [H' Hs]]]; rewrite H in H'; [discriminate H'|].
  injection H' as <-. discriminate Hs.
Qed.

(** The unlicensed billboard of the tests on the default engine. *)
Lemma C6_license_missing_witness :
  license_blank unlicensed_detection /\
  Rules._check_license_missing unlicensed_detection (rule_at 2)
  = Some (license_missing_violation unlicensed_detection (rule_at 2)).
Proof.
  assert (H : license_blank unlicensed_detection)
    by (right; exists ""%string; split; reflexivity).
  split; [exact H|].
  exact (proj1 (C6_license_missing ApproxMath.builtins unlicensed_detection
                                   (rule_at 2)) H).
Defined.



(** C8.  The confidence of every size estimate lies in [0.1, 0.95].
    [_calculate_confidence] clamps the product of its three factors to that
    interval; the bounding-box path returns that value; the depth path
    multiplies it by 1.2 and caps the product at 0.95, which keeps a value of
    the interval inside the interval.  Whenever either method returns an
    estimate, its confidence is in the interval.  With the default camera
    the depth path returns an estimate for every box of four coordinates,
    and with a distance hint the bounding-box path returns one as soon as
    no divisor vanishes. *)
Theorem C8_confidence_range :
  forall (B : Builtins) (self : SizeEstimation.BillboardSizeEstimator),
    (forall distance_m width_px height_px,
       in_confidence_range
         (fst (SizeEstimation._calculate_confidence self distance_m
                                                    width_px height_px))) /\
    (forall c,
       in_confidence_range c ->
       in_confidence_range (Py.min (95 # 100) (c * (12 # 10)))) /\
    (forall bbox image_width image_height assumed_distance_m est,
       SizeEstimation.estimate_size_from_bbox self bbox image_width
         image_height assumed_distance_m = Ok est ->
       in_confidence_range (SizeEstimation.confidence est)) /\
    (forall bbox depth_map est,
       SizeEstimation.estimate_size_with_depth self bbox depth_map = Ok est ->
       in_confidence_range (SizeEstimation.confidence est)) /\
    (forall x1 y1 x2 y2 depth_map,
       exists est,
         SizeEstimation.estimate_size_with_depth
           (SizeEstimation.init None) [x1; y1; x2; y2] depth_map = Ok est /\
         in_confidence_range (SizeEstimation.confidence est)) /\
    (forall x1 y1 x2 y2 image_width image_height d,
       ~ SizeEstimation.focal_length_mm (SizeEstimation.camera_params self)
         == 0 ->
       ~ d == 0 ->
       ~ math_tan
           (2 * math_atan
                  (SizeEstimation.sensor_width_mm
                     (SizeEstimation.camera_params self)
                   / (2 * SizeEstimation.focal_length_mm
                            (SizeEstimation.camera_params self))) / 2)
         == 0 ->
       image_width <> 0%Z ->
       exists est,
         SizeEstimation.estimate_size_from_bbox
           self [x1; y1; x2; y2] image_width image_height (Some d) = Ok est /\
         in_confidence_range (SizeEstimation.confidence est)).
Proof.
  intros B self.
  split; [apply _calculate_confidence_range|].
  split; [apply depth_boost_range|].
  split; [apply estimate_size_from_bbox_range|].
  split; [apply estimate_size_with_depth_range|].
  split.
  - intros x1 y1 x2 y2 depth_map.
    destruct (estimate_size_with_depth_returns x1 y1 x2 y2 depth_map)
      as [est [E _]].
    exists est. split; [exact E|].
    eapply estimate_size_with_depth_range. exact E.
  - intros x1 y1 x2 y2 image_width image_height d Hf Hd Ht Hw.
    destruct (@estimate_size_from_bbox_returns B self x1 y1 x2 y2 image_width
                image_height d Hf Hd Ht Hw) as [est [E _]].
    exists est. split; [exact E|].
    eapply estimate_size_from_bbox_range. exact E.
Qed.

(** A box of 200 by 100 pixels in a full-HD frame, without a distance hint,
    on the bounding-box path; a box of two by two pixels on the depth
    path. *)
Lemma C8_confidence_range_witness :
  (exists est,
     SizeEstimation.estimate_size_from_bbox (B := ApproxMath.builtins)
       (SizeEstimation.init None) [100; 100; 300; 200] 1920 1080 None
     = Ok est /\
     in_confidence_range (SizeEstimation.confidence est)) /\
  (exists est,
     SizeEstimation.estimate_size_with_depth (B := ApproxMath.builtins)
       (SizeEstimation.init None) [0; 0; 2; 2] [[12; 12]; [12; 13]]
     = Ok est /\
     in_confidence_range (SizeEstimation.confidence est)).
Proof.
  pose proof (C8_confidence_range ApproxMath.builtins
                (SizeEstimation.init None)) as [_ [_ [Hbox [Hdepth _]]]].
  split.
  - eexists. split; [vm_compute; reflexivity|].
    apply (Hbox [100; 100; 300; 200] 1920%Z 1080%Z None).
    vm_compute. reflexivity.
  - eexists. split; [vm_compute; reflexivity|].
    apply (Hdepth [0; 0; 2; 2] [[12; 12]; [12; 13]]).
    vm_compute. reflexivity.
Defined.

(** C9.  After [disable_rule(R)] an evaluation reports no violation of type
    [R], and it reports, in the same order, exactly the violations of the
    other types that the evaluation of the same inputs reported before the
    call: for every type other than [R] the violations are unchanged. *)
Theorem C9_disable_rule_frame :
  forall (B : Builtins) (self : Rules.BillboardRulesEngine)
         (R : Rules.ViolationType) (detection : Rules.Detection)
         (lat lon : Q) (jd : option (list Rules.Junction))
         (reg : option (string -> bool)),
    (forall vs',
       Rules.evaluate_detection (Rules.disable_rule self R) detection
                                lat lon jd reg = Ok vs' ->
       of_type R vs' = []) /\
    (forall vs,
       Rules.evaluate_detection self detection lat lon jd reg = Ok vs ->
       Rules.evaluate_detection (Rules.disable_rule self R) detection
                                lat lon jd reg
       = Ok (not_of_type R vs) /\
       forall ty, ty <> R -> of_type ty (not_of_type R vs) = of_type ty vs).
Proof.
  intros B self R detection lat lon jd reg. split.
  - intros vs' H. rewrite evaluate_detection_collect in H.
    rewrite rules_disable_rule in H.
    apply of_type_nil_iff. eapply collect_disabled_free. exact H.
  - intros vs H. split.
    + rewrite evaluate_detection_collect in *.
      rewrite rules_disable_rule. apply collect_disable. exact H.
    + intros ty Hne. apply of_type_not_of_type. exact Hne.
Qed.

(** The test of the suite: the oversized billboard after the size rule is
    disabled. *)
Lemma C9_disable_rule_frame_witness :
  exists vs,
    Rules.evaluate_detection (B := ApproxMath.builtins)
      (Rules.init Rules.no_env) oversized_detection
      (303555 # 10000) (763651 # 10000) None None = Ok vs /\
    Rules.evaluate_detection (B := ApproxMath.builtins)
      (Rules.disable_rule (Rules.init Rules.no_env) Rules.SIZE_VIOLATION)
      oversized_detection (303555 # 10000) (763651 # 10000) None None
    = Ok (not_of_type Rules.SIZE_VIOLATION vs).
Proof.
  eexists. split; [vm_compute; reflexivity|].
  apply (C9_disable_rule_frame ApproxMath.builtins
           (Rules.init Rules.no_env) Rules.SIZE_VIOLATION
           oversized_detection (303555 # 10000) (763651 # 10000) None None).
  vm_compute. reflexivity.
Defined.

(** C10.  A detection whose license id is a non-empty string that is blank
    after trimming, evaluated with a registry callback that answers false
    on the empty string, gets both a missing-license and an
    invalid-license violation from the default engine, in every result the
    evaluation returns; and it returns on harmless junctions, so when no
    junction list is given.  The invalid-license check only tests that the
    id is non-empty and asks the callback about the trimmed id, which is
    the empty string. *)
Theorem C10_blank_license_reports_both :
  forall (B : Builtins) (detection : Rules.Detection) (lat lon : Q)
         (jd : option (list Rules.Junction)) (check : string -> bool)
         (s : string),
    Rules.license_id detection = Some s ->
    s <> ""%string ->
    Py.strip s = ""%string ->
    check ""%string = false ->
    (forall rule,
       Rules._check_license_invalid detection rule (Some check)
       = Some (license_invalid_violation s rule)) /\
    (forall vs,
       Rules.evaluate_detection (Rules.init Rules.no_env) detection
                                lat lon jd (Some check) = Ok vs ->
       of_type Rules.LICENSE_MISSING vs
       = [license_missing_violation detection (rule_at 2)] /\
       of_type Rules.LICENSE_INVALID vs
       = [license_invalid_violation s (rule_at 4)]) /\
    (harmless_junctions lat lon (rule_at 1) jd ->
     exists vs,
       Rules.evaluate_detection (Rules.init Rules.no_env) detection
                                lat lon jd (Some check) = Ok vs /\
       of_type Rules.LICENSE_MISSING vs
       = [license_missing_violation detection (rule_at 2)] /\
       of_type Rules.LICENSE_INVALID vs
       = [license_invalid_violation s (rule_at 4)]).
Proof.
  intros B detection lat lon jd check s Hs Hne Hblank Hcheck.
  assert (Hinv : forall rule,
             Rules._check_license_invalid detection rule (Some check)
             = Some (license_invalid_violation s rule)).
  { intro rule. rewrite (_check_license_invalid_nonempty _ _ _ Hs Hne).
    rewrite Hblank, Hcheck. reflexivity. }
  split; [exact Hinv|].
  assert (Hb : license_blank detection)
    by (right; exists s; split; assumption).
  assert (Hboth : forall vs,
             Rules.evaluate_detection (Rules.init Rules.no_env) detection
                                      lat lon jd (Some check) = Ok vs ->
             of_type Rules.LICENSE_MISSING vs
             = [license_missing_violation detection (rule_at 2)] /\
             of_type Rules.LICENSE_INVALID vs
             = [license_invalid_violation s (rule_at 4)]).
  { intros vs E.
    destruct (default_engine_of_type_inv detection lat lon jd (Some check)
                Rules.LICENSE_MISSING E) as [os [oj [_ [_ Hm]]]].
    destruct (default_engine_of_type_inv detection lat lon jd (Some check)
                Rules.LICENSE_INVALID E) as [os' [oj' [_ [_ Hi]]]].
    rewrite Hm, Hi. unfold invalid_branch.
    rewrite Hinv, _check_license_missing_fires by exact Hb.
    split; reflexivity. }
  split; [exact Hboth|].
  intro Hh.
  destruct (default_engine_harmless detection lat lon jd (Some check) Hh)
    as [vs E].
  exists vs. split; [exact E | exact (Hboth vs E)].
Qed.

(** Three spaces as license id and a registry that knows no license. *)
Lemma C10_blank_license_reports_both_witness :
  exists vs,
    Rules.evaluate_detection (B := ApproxMath.builtins)
      (Rules.init Rules.no_env) blank_license_detection
      (303555 # 10000) (763651 # 10000) None (Some (fun _ => false)) = Ok vs /\
    of_type Rules.LICENSE_MISSING vs
    = [license_missing_violation blank_license_detection (rule_at 2)] /\
    of_type Rules.LICENSE_INVALID vs
    = [license_invalid_violation "   " (rule_at 4)].
Proof.
  refine (proj2 (proj2 (C10_blank_license_reports_both ApproxMath.builtins
                   blank_license_detection (303555 # 10000) (763651 # 10000)
                   None (fun _ => false) "   "%string _ _ _ _)) _).
  - reflexivity.
  - discriminate.
  - reflexivity.
  - reflexivity.
  - exact I.
Defined.

(* ================================================================== *)
(** * Further properties of the code *)
(* ================================================================== *)

(** ** Rules engine: what every evaluation keeps *)

Section RulesInvariants.

Context {B : Builtins}.

Import Rules.







(** Severity: a reported violation carries the severity of its rule. *)
Lemma junction_loop_severity (lat lon : Q) (rule : ViolationRule)
  (js : list Junction) (v : Violation) :
  junction_loop lat lon rule js = Ok (Some v) ->
  v_severity v = severity rule.
Proof.
  induction js as [|j js IH]; cbn [junction_loop]; [discriminate|].
  destruct (coordinates j) as [[|j_lon [|j_lat cs]]|]; try exact IH.
  destruct (_haversine_distance lat lon j_lat j_lon) as [d|e];
    cbn [bind]; [|discriminate].
  destruct (Py.lt _ _); [|exact IH].
  destruct (junction_name_of j); cbn [bind]; [|discriminate].
  destruct (Py.truediv _ _); cbn [bind]; [|discriminate].
  intro H. injection H as <-. reflexivity.
Qed.

Lemma dispatch_severity (self : BillboardRulesEngine) (rule : ViolationRule)
  (detection : Detection) (lat lon : Q) (jd : option (list Junction))
  (reg : option (string -> bool)) (v : Violation) :
  dispatch self rule detection lat lon jd reg = Ok (Some v) ->
  v_severity v = severity rule.
Proof.
  unfold dispatch. destruct (rule_type rule); intro H.
  - unfold _check_size_violation in H.
    destruct (Py.gt _ _); [|discriminate H].
    destruct (Py.truediv _ _); cbn [bind] in H; [|discriminate H].
    injection H as <-. reflexivity.
  - discriminate H.
  - injection H as H. unfold _check_license_missing in H.
    destruct (_ || _); [|discriminate H]. injection H as <-. reflexivity.
  - destruct reg; [|discriminate H]. injection H as H.
    unfold _check_license_invalid in H.
    destruct (license_id detection); [|discriminate H].
    destruct (negb (Py.truthy s)); [discriminate H|].
    destruct (negb _); [|discriminate H].
    injection H as <-. reflexivity.
  - injection H as H. unfold _check_obscene_content in H.
    destruct (ocr_text detection); [|discriminate H].
    destruct (negb _); [discriminate H|].
    destruct (filter _ _); [discriminate H|].
    injection H as <-. reflexivity.
  - destruct jd as [js|]; [|discriminate H].
    rewrite _check_junction_proximity_loop in H.
    eapply junction_loop_severity. exact H.
Qed.

(** Every violation of a returning loop is what the dispatcher returned for
    an enabled rule of the list. *)
Lemma collect_each (self : BillboardRulesEngine)
  (todo : list ViolationRule) (detection : Detection) (lat lon : Q)
  (jd : option (list Junction)) (reg : option (string -> bool))
  (vs : list Violation) :
  collect self todo detection lat lon jd reg = Ok vs ->
  Forall (fun v => exists rule,
            In rule todo /\ enabled rule = true /\
            dispatch self rule detection lat lon jd reg = Ok (Some v)) vs.
Proof.
  revert vs. induction todo as [|rule rest IH]; intros vs H.
  - injection H as <-. constructor.
  - cbn [collect] in H.
    assert (Hmono : forall v,
              (exists r, In r rest /\ enabled r = true /\
                 dispatch self r detection lat lon jd reg = Ok (Some v)) ->
              exists r, In r (rule :: rest) /\ enabled r = true /\
                 dispatch self r detection lat lon jd reg = Ok (Some v)).
    { intros v [r [Hin Hr]]. exists r. split; [right; exact Hin | exact Hr]. }
    destruct (enabled rule) eqn:En; cbn [negb] in H.
    + destruct (dispatch self rule detection lat lon jd reg) as [ov|e] eqn:D;
        cbn [bind] in H; [|discriminate H].
      destruct (collect self rest detection lat lon jd reg) as [vs'|e] eqn:C;
        cbn [bind] in H; [|discriminate H].
      injection H as <-. apply Forall_app. split.
      * destruct ov as [v|]; [|constructor].
        constructor; [|constructor].
        exists rule. split; [left; reflexivity|]. split; [exact En|exact D].
      * eapply Forall_impl; [exact Hmono | exact (IH vs' eq_refl)].
    + eapply Forall_impl; [exact Hmono | exact (IH vs H)].
Qed.

Lemma collect_length (self : BillboardRulesEngine)
  (todo : list ViolationRule) (detection : Detection) (lat lon : Q)
  (jd : option (list Junction)) (reg : option (string -> bool))
  (vs : list Violation) :
  collect self todo detection lat lon jd reg = Ok vs ->
  (List.length vs <= List.length (filter (fun r => enabled r) todo))%nat.
Proof.
  revert vs. induction todo as [|rule rest IH]; intros vs H.
  - injection H as <-. apply le_n.
  - cbn [collect] in H. cbn [filter].
    destruct (enabled rule) eqn:En; cbn [negb] in H.
    + destruct (dispatch self rule detection lat lon jd reg) as [ov|e] eqn:D;
        cbn [bind] in H; [|discriminate H].
      destruct (collect self rest detection lat lon jd reg) as [vs'|e] eqn:C;
        cbn [bind] in H; [|discriminate H].
      injection H as <-. specialize (IH vs' eq_refl).
      rewrite length_app. cbn [List.length].
      destruct ov; cbn [opt_list List.length]; lia.
    + exact (IH vs H).
Qed.

Lemma collect_app (self : BillboardRulesEngine)
  (todo todo' : list ViolationRule) (detection : Detection) (lat lon : Q)
  (jd : option (list Junction)) (reg : option (string -> bool)) :
  collect self (todo ++ todo') detection lat lon jd reg
  = (vs <- collect self todo detection lat lon jd reg ;;
     vs' <- collect self todo' detection lat lon jd reg ;;
     Ok (vs ++ vs')).
Proof.
  induction todo as [|rule rest IH]; cbn [app collect].
  - cbn [bind].
    destruct (collect self todo' detection lat lon jd reg); reflexivity.
  - destruct (negb (enabled rule)); [exact IH|].
    destruct (dispatch self rule detection lat lon jd reg) as [ov|e];
      cbn [bind]; [|reflexivity].
    rewrite IH.
    destruct (collect self rest detection lat lon jd reg) as [vs|e];
      cbn [bind]; [|reflexivity].
    destruct (collect self todo' detection lat lon jd reg) as [vs'|e];
      cbn [bind]; [|reflexivity].
    rewrite app_assoc. reflexivity.
Qed.

Lemma collect_keywords (self self' : BillboardRulesEngine)
  (todo : list ViolationRule) (detection : Detection) (lat lon : Q)
  (jd : option (list Junction)) (reg : option (string -> bool)) :
  obscene_keywords self = obscene_keywords self' ->
  collect self todo detection lat lon jd reg
  = collect self' todo detection lat lon jd reg.
Proof.
  intro H. induction todo as [|rule rest IH]; cbn [collect]; [reflexivity|].
  rewrite IH.
  rewrite (@dispatch_keywords B self self' rule detection lat lon jd reg H).
  reflexivity.
Qed.

(** The confidence [min(0.9, num / T)] of the size and the junction rule. *)
Lemma ratio_confidence (num T : Q) :
  0 < T -> 0 < num ->
  0 < Py.min (9 # 10) (num / T) /\ Py.min (9 # 10) (num / T) <= 9 # 10.
Proof.
  intros HT Hn.
  assert (Hr : 0 < num / T) by (apply Qlt_shift_div_l; lra).
  generalize dependent (num / T). intros r Hr.
  destruct (min_spec (9 # 10) r) as [[H1 ->] | [H1 ->]]; split; lra.
Qed.

Lemma junction_loop_confidence (lat lon : Q) (rule : ViolationRule)
  (js : list Junction) (v : Violation) :
  0 < threshold rule ->
  junction_loop lat lon rule js = Ok (Some v) ->
  0 < v_confidence v /\ v_confidence v <= 9 # 10.
Proof.
  intro HT. induction js as [|j js IH]; cbn [junction_loop]; [discriminate|].
  destruct (coordinates j) as [[|j_lon [|j_lat cs]]|]; try exact IH.
  destruct (_haversine_distance lat lon j_lat j_lon) as [d|e];
    cbn [bind]; [|discriminate].
  destruct (Py.lt _ _) eqn:L; [|exact IH].
  apply lt_iff in L.
  destruct (junction_name_of j); cbn [bind]; [|discriminate].
  unfold Py.truediv. destruct (Qeq_bool _ _); cbn [bind]; [discriminate|].
  intro H. injection H as <-. cbn [v_confidence].
  apply ratio_confidence; lra.
Qed.

Lemma obscene_confidence_bounds (n : nat) :
  3 # 10 <= Py.min (95 # 100) (inject_Z (Z.of_nat (S n)) * (3 # 10))
  /\ Py.min (95 # 100) (inject_Z (Z.of_nat (S n)) * (3 # 10)) <= 95 # 100.
Proof.
  assert (H1 : 1 <= inject_Z (Z.of_nat (S n))).
  { change 1 with (inject_Z 1). rewrite <- Zle_Qle. lia. }
  generalize dependent (inject_Z (Z.of_nat (S n))). intros q H1.
  destruct (min_spec (95 # 100) (q * (3 # 10))) as [[H2 ->] | [H2 ->]];
    split; lra.
Qed.

Lemma dispatch_confidence (self : BillboardRulesEngine) (rule : ViolationRule)
  (detection : Detection) (lat lon : Q) (jd : option (list Junction))
  (reg : option (string -> bool)) (v : Violation) :
  (divides_by_threshold rule = true -> 0 < threshold rule) ->
  dispatch self rule detection lat lon jd reg = Ok (Some v) ->
  0 < v_confidence v /\ v_confidence v <= 95 # 100.
Proof.
  unfold dispatch, divides_by_threshold.
  destruct (rule_type rule); intros HT H.
  - specialize (HT eq_refl). unfold _check_size_violation in H.
    destruct (Py.gt _ _) eqn:G; [|discriminate H].
    apply gt_iff in G.
    unfold Py.truediv in H. destruct (Qeq_bool _ _); [discriminate H|].
    cbn [bind] in H. injection H as <-. cbn [v_confidence].
    destruct (@ratio_confidence
                (est_width_m detection * est_height_m detection
                 - threshold rule) (threshold rule)) as [L U];
      [exact HT | lra | split; [exact L | lra]].
  - discriminate H.
  - injection H as H. unfold _check_license_missing in H.
    destruct (_ || _); [|discriminate H]. injection H as <-.
    cbn [v_confidence]. split; lra.
  - destruct reg; [|discriminate H]. injection H as H.
    unfold _check_license_invalid in H.
    destruct (license_id detection); [|discriminate H].
    destruct (negb (Py.truthy s)); [discriminate H|].
    destruct (negb _); [|discriminate H].
    injection H as <-. cbn [v_confidence]. split; lra.
  - injection H as H. unfold _check_obscene_content in H.
    destruct (ocr_text detection); [|discriminate H].
    destruct (negb _); [discriminate H|].
    destruct (filter _ _) as [|kw kws]; [discriminate H|].
    injection H as <-. cbn [v_confidence].
    change (List.length (kw :: kws)) with (S (List.length kws)).
    destruct (obscene_confidence_bounds (List.length kws)) as [L U].
    split; [eapply Qlt_le_trans; [|exact L]; lra | exact U].
  - destruct jd as [js|]; [|discriminate H].
    rewrite _check_junction_proximity_loop in H.
    destruct (@junction_loop_confidence lat lon rule js v (HT eq_refl) H)
      as [L U].
    split; [exact L | lra].
Qed.

End RulesInvariants.

(** ** Rules engine: evaluation on any engine *)

Section RulesEvaluation.

Context {B : Builtins}.

Import Rules.

(** X1.  Whatever list of violations an evaluation returns, each entry was
    produced by an enabled rule of the engine and carries the type and the
    severity of that rule; the list is never longer than the number of
    active rules the summary reports. *)
Theorem evaluate_detection_provenance (self : BillboardRulesEngine)
  (detection : Detection) (lat lon : Q) (jd : option (list Junction))
  (reg : option (string -> bool)) (vs : list Violation) :
  evaluate_detection self detection lat lon jd reg = Ok vs ->
  Forall (from_rule_of (rules self)) vs /\
  (List.length vs <= active_rules (get_rule_summary self))%nat.
Proof.
  intro H. rewrite evaluate_detection_collect in H. split.
  - eapply Forall_impl; [|exact (collect_each _ _ _ _ _ _ _ _ H)].
    intros v [rule [Hin [En D]]]. exists rule.
    split; [exact Hin|]. split; [exact En|].
    split; [eapply dispatch_type; exact D
           | eapply dispatch_severity; exact D].
  - exact (collect_length _ _ _ _ _ _ _ _ H).
Qed.



(** X4.  When the thresholds of the enabled size and junction rules are
    positive, every reported violation has a confidence in (0, 0.95]. *)
Theorem evaluate_detection_confidence (self : BillboardRulesEngine)
  (detection : Detection) (lat lon : Q) (jd : option (list Junction))
  (reg : option (string -> bool)) (vs : list Violation) :
  Forall positive_rule (rules self) ->
  evaluate_detection self detection lat lon jd reg = Ok vs ->
  Forall (fun v => 0 < v_confidence v /\ v_confidence v <= 95 # 100) vs.
Proof.
  intros Hpos H. rewrite evaluate_detection_collect in H.
  eapply Forall_impl; [|exact (collect_each _ _ _ _ _ _ _ _ H)].
  intros v [rule [Hin [En D]]].
  eapply dispatch_confidence; [|exact D].
  rewrite Forall_forall in Hpos. exact (Hpos rule Hin En).
Qed.

(** X5.  The size rule does not check the sign of its threshold: with a
    negative threshold it fires on every area above it, and the confidence
    [(area - T) / T] it reports is negative. *)
Theorem size_violation_negative_threshold (detection : Detection)
  (rule : ViolationRule) :
  threshold rule < 0 ->
  threshold rule < est_width_m detection * est_height_m detection ->
  exists v,
    _check_size_violation detection rule = Ok (Some v) /\
    v_confidence v < 0.
Proof.
  intros HT Hgt.
  assert (H0 : ~ threshold rule == 0) by lra.
  rewrite (@_check_size_violation_fires B detection rule H0 Hgt).
  eexists. split; [reflexivity|].
  unfold size_violation. cbn [v_confidence].
  set (num := est_width_m detection * est_height_m detection
              - threshold rule).
  assert (Hn : 0 < num) by (unfold num; lra).
  assert (Hr : num / threshold rule < 0).
  { assert (E : threshold rule * (num / threshold rule) == num)
      by (apply Qmult_div_r; exact H0).
    destruct (Qlt_le_dec (num / threshold rule) 0) as [L|L]; [exact L|].
    exfalso.
    assert (M : threshold rule * (num / threshold rule) <= 0).
    { apply Qle_trans with (0 * (num / threshold rule)); [|lra].
      apply Qmult_le_compat_r; [lra | exact L]. }
    lra. }
  generalize dependent (num / threshold rule). intros r Hr.
  destruct (min_spec (9 # 10) r) as [[H1 ->] | [H1 ->]]; lra.
Qed.

(** X6.  Invalid-license violations on any engine.  Without a registry
    callback, or without a license id, or with the empty id, none is
    reported.  With a callback and a non-empty id the callback is asked
    about the trimmed id: when it accepts, none is reported; when it
    rejects, every enabled invalid-license rule reports its violation. *)
Theorem evaluate_detection_license_invalid (self : BillboardRulesEngine)
  (detection : Detection) (lat lon : Q) (jd : option (list Junction))
  (reg : option (string -> bool)) (vs : list Violation) :
  evaluate_detection self detection lat lon jd reg = Ok vs ->
  (reg = None \/ license_id detection = None \/
   license_id detection = Some ""%string ->
   of_type LICENSE_INVALID vs = []) /\
  (forall check lic,
     reg = Some check -> license_id detection = Some lic ->
     lic <> ""%string ->
     (check (Py.strip lic) = true -> of_type LICENSE_INVALID vs = []) /\
     (check (Py.strip lic) = false ->
      forall rule,
        In rule (rules self) -> enabled rule = true ->
        rule_type rule = LICENSE_INVALID ->
        In (license_invalid_violation lic rule) vs)).
Proof.
  intro H. rewrite evaluate_detection_collect in H. split.
  - intro Hc. eapply collect_quiet; [exact H|].
    intros rule Hin En Ty. unfold dispatch. rewrite Ty.
    destruct reg as [check|]; [|reflexivity].
    unfold _check_license_invalid.
    destruct Hc as [Hc | [Hc | Hc]]; [discriminate Hc | |];
      rewrite Hc; reflexivity.
  - intros check lic -> Hlic Hne. split.
    + intro Hv. eapply collect_quiet; [exact H|].
      intros rule Hin En Ty. unfold dispatch. rewrite Ty.
      rewrite (@_check_license_invalid_nonempty detection rule check lic
                 Hlic Hne), Hv.
      reflexivity.
    + intros Hv rule Hin En Ty.
      destruct (@collect_dispatched B self (rules self) detection lat lon jd
                  (Some check) vs rule H Hin En) as [ov [D Hin']].
      unfold dispatch in D. rewrite Ty in D.
      rewrite (@_check_license_invalid_nonempty detection rule check lic
                 Hlic Hne), Hv in D.
      injection D as <-. apply Hin'. reflexivity.
Qed.

(** X7.  [add_custom_rule] appends: the engine with the new rule reports
    what the engine reported before, followed by what the new rule reports
    if it is enabled; it fails where the old engine failed. *)
Theorem add_custom_rule_appends (self : BillboardRulesEngine)
  (rule : ViolationRule) (detection : Detection) (lat lon : Q)
  (jd : option (list Junction)) (reg : option (string -> bool)) :
  evaluate_detection (add_custom_rule self rule) detection lat lon jd reg
  = (vs <- evaluate_detection self detection lat lon jd reg ;;
     ov <- (if enabled rule
            then dispatch self rule detection lat lon jd reg
            else Ok None) ;;
     Ok (vs ++ opt_list ov)).
Proof.
  rewrite !evaluate_detection_collect.
  cbn [add_custom_rule rules]. rewrite collect_app.
  rewrite (collect_keywords (add_custom_rule self rule) self
             (rules self) detection lat lon jd reg eq_refl).
  destruct (collect self (rules self) detection lat lon jd reg) as [vs|e];
    cbn [bind]; [|reflexivity].
  cbn [collect].
  rewrite (@dispatch_keywords B (add_custom_rule self rule) self rule
             detection lat lon jd reg eq_refl).
  destruct (enabled rule); cbn [negb bind]; [|reflexivity].
  destruct (dispatch self rule detection lat lon jd reg) as [ov|e];
    cbn [bind]; [|reflexivity].
  rewrite app_nil_r. reflexivity.
Qed.

End RulesEvaluation.

(** The unlicensed billboard of the test suite next to the sample junction:
    three violations, of the junction, the missing-license and no other
    rule. *)
Lemma evaluate_detection_provenance_witness :
  exists vs,
    Rules.evaluate_detection (B := ApproxMath.builtins)
      (Rules.init Rules.no_env) unlicensed_detection
      (303555 # 10000) (763651 # 10000) (Some sample_junctions) None
    = Ok vs /\
    Forall (from_rule_of (Rules.rules (Rules.init Rules.no_env))) vs /\
    (List.length vs
     <= Rules.active_rules
          (Rules.get_rule_summary (Rules.init Rules.no_env)))%nat.
Proof.
  eexists. split; [vm_compute; reflexivity|].
  apply (@evaluate_detection_provenance ApproxMath.builtins
           (Rules.init Rules.no_env) unlicensed_detection
           (303555 # 10000) (763651 # 10000) (Some sample_junctions) None).
  vm_compute. reflexivity.
Defined.

(** The default engine has the thresholds 48 and 50. *)
Lemma default_rules_positive :
  Forall positive_rule (Rules.rules (Rules.init Rules.no_env)).
Proof.
  repeat constructor; intros _ E; first [discriminate E | reflexivity].
Qed.





Lemma evaluate_detection_confidence_witness :
  exists vs,
    Rules.evaluate_detection (B := ApproxMath.builtins)
      (Rules.init Rules.no_env) oversized_detection
      (303555 # 10000) (763651 # 10000) (Some sample_junctions) None
    = Ok vs /\
    Forall (fun v => 0 < Rules.v_confidence v /\
                     Rules.v_confidence v <= 95 # 100) vs.
Proof.
  eexists. split; [vm_compute; reflexivity|].
  apply (@evaluate_detection_confidence ApproxMath.builtins
           (Rules.init Rules.no_env) oversized_detection
           (303555 # 10000) (763651 # 10000) (Some sample_junctions) None).
  - exact default_rules_positive.
  - vm_compute. reflexivity.
Defined.

(** The default engine started with [CITY_MAX_AREA=-48]. *)
Lemma size_violation_negative_threshold_witness :
  exists v,
    Rules._check_size_violation (B := ApproxMath.builtins)
      oversized_detection
      (nth 0 (Rules.rules (Rules.init (max_area_env (-48)))) (rule_at 0))
    = Ok (Some v) /\
    Rules.v_confidence v < 0.
Proof.
  apply (@size_violation_negative_threshold ApproxMath.builtins
           oversized_detection
           (nth 0 (Rules.rules (Rules.init (max_area_env (-48))))
                (rule_at 0)));
    reflexivity.
Defined.

(** The valid detection of the test suite against a registry that knows no
    license. *)
Lemma evaluate_detection_license_invalid_witness :
  exists vs,
    Rules.evaluate_detection (B := ApproxMath.builtins)
      (Rules.init Rules.no_env) oversized_detection
      (303555 # 10000) (763651 # 10000) None (Some (fun _ => false))
    = Ok vs /\
    In (license_invalid_violation "LIC-CHD-002" (rule_at 4)) vs.
Proof.
  eexists. split; [vm_compute; reflexivity|].
  refine (proj2 (proj2 (@evaluate_detection_license_invalid
                          ApproxMath.builtins
                          (Rules.init Rules.no_env) oversized_detection
                          (303555 # 10000) (763651 # 10000) None
                          (Some (fun _ => false)) _ _)
                       (fun _ => false) "LIC-CHD-002"%string
                       eq_refl eq_refl _)
                eq_refl (rule_at 4) _ eq_refl eq_refl).
  - vm_compute. reflexivity.
  - discriminate.
  - right. right. right. right. left. reflexivity.
Defined.

(** ** Rules engine: the content rule *)

Section ObsceneContent.

Context {B : Builtins}.

Import Rules.

Lemma lower_char_idempotent (c : ascii) :
  Py.lower_char (Py.lower_char c) = Py.lower_char c.
Proof.
  destruct c as [[] [] [] [] [] [] [] []]; reflexivity.
Qed.

Lemma lower_idempotent (s : string) : Py.lower (Py.lower s) = Py.lower s.
Proof.
  induction s as [|c s IH]; cbn [Py.lower]; [reflexivity|].
  rewrite lower_char_idempotent, IH. reflexivity.
Qed.

Lemma lower_empty (s : string) :
  Py.lower s = ""%string <-> s = ""%string.
Proof.
  destruct s; cbn [Py.lower]; split; intro H;
    first [reflexivity | discriminate H].
Qed.

Lemma prefix_lower_fixed (kw s : string) :
  prefix kw s = true -> Py.lower s = s -> Py.lower kw = kw.
Proof.
  revert s. induction kw as [|a kw IH]; intros s P L; [reflexivity|].
  destruct s as [|b s]; cbn [prefix] in P; [discriminate P|].
  destruct (ascii_dec a b) as [->|]; [|discriminate P].
  cbn [Py.lower] in *. injection L as Lc Ls.
  rewrite Lc, (IH s P Ls). reflexivity.
Qed.

Lemma contains_lower_fixed (kw s : string) :
  Py.contains kw s = true -> Py.lower s = s -> Py.lower kw = kw.
Proof.
  induction s as [|b s IH]; cbn [Py.contains]; intros C L.
  - rewrite orb_false_r in C. eapply prefix_lower_fixed; eassumption.
  - apply orb_true_iff in C. destruct C as [P | C].
    + eapply prefix_lower_fixed; eassumption.
    + cbn [Py.lower] in L. injection L as _ Ls. exact (IH C Ls).
Qed.

Lemma _check_obscene_content_unfold (self : BillboardRulesEngine)
  (detection : Detection) (rule : ViolationRule) :
  _check_obscene_content self detection rule
  = match ocr_text detection with
    | None => None
    | Some text =>
        if (text =? "")%string then None
        else match found_keywords self text with
             | [] => None
             | _ => Some (obscene_violation self text rule)
             end
    end.
Proof.
  unfold _check_obscene_content, obscene_violation, found_keywords,
    Py.truthy.
  destruct (ocr_text detection) as [text|]; [|reflexivity].
  rewrite negb_involutive.
  destruct (text =? "")%string; [reflexivity|].
  destruct (filter _ _); reflexivity.
Qed.

Lemma _check_obscene_content_some (self : BillboardRulesEngine)
  (detection : Detection) (rule : ViolationRule) (v : Violation) :
  _check_obscene_content self detection rule = Some v ->
  exists text,
    ocr_text detection = Some text /\ text <> ""%string /\
    (exists kw, In kw (obscene_keywords self) /\
                Py.contains kw (Py.lower text) = true) /\
    v = obscene_violation self text rule.
Proof.
  rewrite _check_obscene_content_unfold.
  intro H. destruct (ocr_text detection) as [text|]; [|discriminate H].
  exists text. destruct (text =? "")%string eqn:E; [discriminate H|].
  apply String.eqb_neq in E.
  destruct (found_keywords self text) as [|kw kws] eqn:F;
    [discriminate H|].
  injection H as <-.
  split; [reflexivity|]. split; [exact E|]. split; [|reflexivity].
  exists kw.
  assert (Hin : In kw (found_keywords self text))
    by (rewrite F; left; reflexivity).
  unfold found_keywords in Hin. apply filter_In in Hin. exact Hin.
Qed.

(** X8.  The content rule fires exactly when the OCR text is present, not
    empty, and some keyword of the engine occurs in the text turned to
    lower case; it then reports the keywords that occur there, in the
    order of the engine's list. *)
Theorem _check_obscene_content_fires (self : BillboardRulesEngine)
  (detection : Detection) (rule : ViolationRule) (v : Violation) :
  _check_obscene_content self detection rule = Some v <->
  exists text,
    ocr_text detection = Some text /\ text <> ""%string /\
    (exists kw, In kw (obscene_keywords self) /\
                Py.contains kw (Py.lower text) = true) /\
    v = obscene_violation self text rule.
Proof.
  split; [apply _check_obscene_content_some|].
  rewrite _check_obscene_content_unfold.
  intros [text [-> [Hne [[kw [Hin Hc]] ->]]]].
  apply String.eqb_neq in Hne. rewrite Hne.
  destruct (found_keywords self text) as [|k ks] eqn:F; [|reflexivity].
  assert (Hf : In kw (found_keywords self text))
    by (unfold found_keywords; apply filter_In; split; assumption).
  rewrite F in Hf. destruct Hf.
Qed.


(** X10.  The content rule does not see the case of the text: two
    detections whose OCR texts agree once turned to lower case get the
    same verdict (type, severity, reason and confidence), whatever else
    the detections hold. *)
Theorem _check_obscene_content_case_insensitive
  (self : BillboardRulesEngine) (d1 d2 : Detection) (t1 t2 : string)
  (rule : ViolationRule) :
  ocr_text d1 = Some t1 -> ocr_text d2 = Some t2 ->
  Py.lower t1 = Py.lower t2 ->
  option_map verdict (_check_obscene_content self d1 rule)
  = option_map verdict (_check_obscene_content self d2 rule).
Proof.
  intros H1 H2 L. rewrite !_check_obscene_content_unfold, H1, H2.
  assert (E : (t1 =? "")%string = (t2 =? "")%string).
  { destruct (t1 =? "")%string eqn:E1; destruct (t2 =? "")%string eqn:E2;
      try reflexivity.
    - apply String.eqb_eq in E1. apply String.eqb_neq in E2.
      exfalso. apply E2. apply lower_empty. rewrite <- L, E1. reflexivity.
    - apply String.eqb_eq in E2. apply String.eqb_neq in E1.
      exfalso. apply E1. apply lower_empty. rewrite L, E2. reflexivity. }
  rewrite E. destruct (t2 =? "")%string; [reflexivity|].
  assert (F : found_keywords self t1 = found_keywords self t2)
    by (unfold found_keywords; rewrite L; reflexivity).
  unfold obscene_violation. rewrite F.
  destruct (found_keywords self t2); reflexivity.
Qed.

(** X11.  Only keywords written in lower case are ever reported: the text
    is turned to lower case before the search and the keywords are not, so
    a keyword of the engine's list that holds an upper-case letter is never
    found. *)
Theorem _check_obscene_content_lower_case_only
  (self : BillboardRulesEngine) (detection : Detection)
  (rule : ViolationRule) (v : Violation) (kws : list string)
  (text : string) :
  _check_obscene_content self detection rule = Some v ->
  v_metadata v = MetaKeywords kws text ->
  Forall (fun kw => Py.lower kw = kw) kws.
Proof.
  intros H M. apply _check_obscene_content_some in H.
  destruct H as [text' [_ [_ [_ ->]]]].
  cbn [obscene_violation v_metadata] in M. injection M as <- <-.
  apply Forall_forall. intros kw Hin.
  unfold found_keywords in Hin. apply filter_In in Hin.
  destruct Hin as [_ C].
  eapply contains_lower_fixed; [exact C | apply lower_idempotent].
Qed.

End ObsceneContent.


Lemma _check_obscene_content_case_insensitive_witness :
  option_map verdict
    (Rules._check_obscene_content (Rules.init Rules.no_env)
       obscene_detection (rule_at 3))
  = option_map verdict
      (Rules._check_obscene_content (Rules.init Rules.no_env)
         obscene_detection_lower (rule_at 3)).
Proof.
  apply (_check_obscene_content_case_insensitive (Rules.init Rules.no_env)
           obscene_detection obscene_detection_lower
           "Adult Entertainment XXX Gambling Casino"%string
           "adult entertainment xxx gambling casino"%string (rule_at 3));
    reflexivity.
Defined.

(** The keyword in upper case is not found in the text that holds it. *)
Lemma _check_obscene_content_lower_case_only_witness :
  Rules._check_obscene_content upper_case_engine obscene_detection
    (rule_at 3)
  = Some (obscene_violation upper_case_engine
            "Adult Entertainment XXX Gambling Casino" (rule_at 3)) /\
  Forall (fun kw => Py.lower kw = kw) ["adult"%string].
Proof.
  split; [reflexivity|].
  apply (_check_obscene_content_lower_case_only upper_case_engine
           obscene_detection (rule_at 3)
           (obscene_violation upper_case_engine
              "Adult Entertainment XXX Gambling Casino" (rule_at 3))
           ["adult"%string]
           "Adult Entertainment XXX Gambling Casino"%string);
    reflexivity.
Defined.

(** ** Rules engine: managing the rules *)

Section RuleManagement.

Import Rules.

Lemma disabled_copy_idempotent (ty : ViolationType) (rule : ViolationRule) :
  disabled_copy ty (disabled_copy ty rule) = disabled_copy ty rule.
Proof.
  unfold disabled_copy.
  destruct (type_eqb (rule_type rule) ty) eqn:E; cbn [rule_type];
    rewrite E; reflexivity.
Qed.

Lemma disabled_copy_comm (ty ty' : ViolationType) (rule : ViolationRule) :
  disabled_copy ty' (disabled_copy ty rule)
  = disabled_copy ty (disabled_copy ty' rule).
Proof.
  unfold disabled_copy.
  destruct (type_eqb (rule_type rule) ty) eqn:E;
    destruct (type_eqb (rule_type rule) ty') eqn:E'; cbn [rule_type];
    rewrite ?E, ?E'; reflexivity.
Qed.

Lemma disabled_copy_enabled (ty : ViolationType) (rule : ViolationRule) :
  enabled (disabled_copy ty rule)
  = enabled rule && negb (type_eqb (rule_type rule) ty).
Proof.
  unfold disabled_copy.
  destruct (type_eqb (rule_type rule) ty); cbn [enabled negb].
  - rewrite andb_false_r. reflexivity.
  - rewrite andb_true_r. reflexivity.
Qed.

Lemma active_split (ty : ViolationType) (todo : list ViolationRule) :
  (List.length (filter (fun r => enabled r) (map (disabled_copy ty) todo))
   + List.length (enabled_of_type ty todo))%nat
  = List.length (filter (fun r => enabled r) todo).
Proof.
  unfold enabled_of_type.
  induction todo as [|rule rest IH]; [reflexivity|].
  cbn [map filter]. rewrite disabled_copy_enabled.
  destruct (enabled rule); destruct (type_eqb (rule_type rule) ty);
    cbn [andb negb List.length]; lia.
Qed.

(** X12.  The counts of the rule summary: the active rules are among the
    rules; the summary lists one entry per rule; [disable_rule] keeps the
    total and takes the enabled rules of the type off the active count;
    [add_custom_rule] adds one to the total, and one to the active count
    when the new rule is enabled. *)
Theorem get_rule_summary_counts (self : BillboardRulesEngine)
  (ty : ViolationType) (rule : ViolationRule) :
  (active_rules (get_rule_summary self)
   <= total_rules (get_rule_summary self))%nat /\
  List.length (summary_rules (get_rule_summary self))
  = total_rules (get_rule_summary self) /\
  total_rules (get_rule_summary (disable_rule self ty))
  = total_rules (get_rule_summary self) /\
  (active_rules (get_rule_summary (disable_rule self ty))
   + List.length (enabled_of_type ty (rules self)))%nat
  = active_rules (get_rule_summary self) /\
  total_rules (get_rule_summary (add_custom_rule self rule))
  = S (total_rules (get_rule_summary self)) /\
  active_rules (get_rule_summary (add_custom_rule self rule))
  = (active_rules (get_rule_summary self)
     + if enabled rule then 1 else 0)%nat.
Proof.
  unfold get_rule_summary.
  cbn [active_rules total_rules summary_rules].
  rewrite rules_disable_rule. cbn [add_custom_rule rules].
  split; [apply filter_length_le|].
  split; [apply length_map|].
  split; [apply length_map|].
  split; [apply active_split|].
  split.
  - rewrite length_app. cbn [List.length]. lia.
  - rewrite filter_app, length_app. cbn [filter].
    destruct (enabled rule); reflexivity.
Qed.

(** X13.  [disable_rule] leaves no enabled rule of the type, changes no
    rule of another type and nothing but the [enabled] flag; doing it
    twice is doing it once, and two of them can be done in either
    order. *)
Theorem disable_rule_idempotent (self : BillboardRulesEngine)
  (ty ty' : ViolationType) :
  Forall (fun r => rule_type r = ty -> enabled r = false)
         (rules (disable_rule self ty)) /\
  filter (fun r => negb (type_eqb (rule_type r) ty))
         (rules (disable_rule self ty))
  = filter (fun r => negb (type_eqb (rule_type r) ty)) (rules self) /\
  map (fun r => (rule_type r, threshold r, severity r, description r))
      (rules (disable_rule self ty))
  = map (fun r => (rule_type r, threshold r, severity r, description r))
        (rules self) /\
  disable_rule (disable_rule self ty) ty = disable_rule self ty /\
  disable_rule (disable_rule self ty) ty'
  = disable_rule (disable_rule self ty') ty.
Proof.
  assert (E : forall s t,
             disable_rule s t
             = {| rules := map (disabled_copy t) (rules s);
                  obscene_keywords := obscene_keywords s |})
    by reflexivity.
  rewrite rules_disable_rule. split; [|split; [|split; [|split]]].
  - apply Forall_forall. intros r Hin Ty.
    apply in_map_iff in Hin. destruct Hin as [r0 [<- _]].
    rewrite disabled_copy_enabled.
    assert (T : rule_type (disabled_copy ty r0) = rule_type r0)
      by (unfold disabled_copy; destruct (type_eqb _ _); reflexivity).
    rewrite T in Ty. rewrite Ty.
    unfold type_eqb. destruct (ViolationType_eq_dec ty ty); [|congruence].
    apply andb_false_r.
  - induction (rules self) as [|r rest IH]; [reflexivity|].
    cbn [map filter]. rewrite IH. unfold disabled_copy.
    destruct (type_eqb (rule_type r) ty) eqn:T; cbn [rule_type];
      rewrite T; reflexivity.
  - induction (rules self) as [|r rest IH]; [reflexivity|].
    cbn [map]. rewrite IH. unfold disabled_copy.
    destruct (type_eqb (rule_type r) ty); reflexivity.
  - rewrite !E. cbn [rules obscene_keywords]. f_equal.
    rewrite map_map. apply map_ext. intro r.
    apply disabled_copy_idempotent.
  - rewrite !E. cbn [rules obscene_keywords]. f_equal.
    rewrite !map_map. apply map_ext. intro r.
    apply disabled_copy_comm.
Qed.

End RuleManagement.

(** ** The distance between a point and itself *)

Section SamePoint.

Context {B : Builtins}.

Hypothesis Hmath : zero_preserving_math.

Lemma haversine_argument_same_point (lat lon lat' lon' : Q) :
  lat' == lat -> lon' == lon ->
  math_sin (math_radians (lat' - lat) / 2) ^ 2 +
  math_cos (math_radians lat) * math_cos (math_radians lat') *
  math_sin (math_radians (lon' - lon) / 2) ^ 2 == 0.
Proof.
  intros Elat Elon. destruct Hmath as [Hr [Hs _]].
  assert (E1 : math_sin (math_radians (lat' - lat) / 2) == 0).
  { apply Hs. rewrite (Hr (lat' - lat)) by lra. reflexivity. }
  assert (E2 : math_sin (math_radians (lon' - lon) / 2) == 0).
  { apply Hs. rewrite (Hr (lon' - lon)) by lra. reflexivity. }
  rewrite E1, E2. ring.
Qed.


Lemma geofence_haversine_same_point (lat lon lat' lon' : Q) :
  lat' == lat -> lon' == lon ->
  Geofence._haversine_distance lat lon lat' lon' == 0.
Proof.
  intros Elat Elon.
  pose proof (haversine_argument_same_point lat lon lat' lon' Elat Elon)
    as Ea.
  destruct Hmath as [_ [_ [Hq Ha]]].
  unfold Geofence._haversine_distance.
  rewrite (Ha _ (Hq _ Ea)). ring.
Qed.


(** A billboard at the coordinates of a sensitive site: the buffer check
    reports that site. *)
Lemma buffer_violation_at_sensitive_site
  (location : Geofence.SensitiveLocation) :
  In location Geofence.sensitive_locations ->
  exists v,
    In v (Geofence._check_buffer_distances (Geofence.s_lat location)
                                           (Geofence.s_lon location)) /\
    Geofence.v_type v = "buffer_violation"%string /\
    Geofence.v_severity v = 4%Z /\
    exists d, d == 0 /\
      Geofence.v_detail v
      = Geofence.BufferDetail (Geofence.s_name location)
                              (Geofence.buffer_m location)
                              (Py.round d 1).
Proof.
  intro Hin.
  set (d := Geofence._haversine_distance
              (Geofence.s_lat location) (Geofence.s_lon location)
              (Geofence.s_lat location) (Geofence.s_lon location)).
  assert (Ed : d == 0)
    by (apply geofence_haversine_same_point; reflexivity).
  assert (Hb : 0 < inject_Z (Geofence.buffer_m location)).
  { cbn [Geofence.sensitive_locations In] in Hin.
    destruct Hin as [<- | [<- | [<- | []]]]; reflexivity. }
  eexists. split; [|split; [|split]].
  - unfold Geofence._check_buffer_distances. apply in_flat_map.
    exists location. split; [exact Hin|].
    fold d.
    assert (L : Py.lt d (inject_Z (Geofence.buffer_m location)) = true)
      by (apply lt_iff; lra).
    rewrite L. left. reflexivity.
  - reflexivity.
  - reflexivity.
  - exists d. split; [exact Ed | reflexivity].
Qed.

(** A license checked at its registered coordinates: the location
    matches. *)
Lemma check_permitted_database_at_registered_location
  (record : Geofence.RegistryRecord) :
  In record Geofence.permitted_billboards ->
  let r := Geofence.check_permitted_database
             (Geofence.r_license_id record)
             (Geofence.r_lat record) (Geofence.r_lon record) in
  Geofence.database_status r = "found"%string /\
  Geofence.location_match r = true /\
  Geofence.license_valid r
  = (Geofence.r_status record =? "active")%string /\
  Geofence.registered_location r
  = Some (Geofence.r_lat record, Geofence.r_lon record).
Proof.
  intro Hin.
  assert (M : Geofence.matching_record (Geofence.r_license_id record)
              = Some record).
  { cbn [Geofence.permitted_billboards In] in Hin.
    destruct Hin as [<- | [<- | [<- | [<- | []]]]]; reflexivity. }
  cbv zeta. unfold Geofence.check_permitted_database. rewrite M.
  cbn [Geofence.database_status Geofence.location_match
       Geofence.license_valid Geofence.registered_location].
  split; [reflexivity|]. split; [|split; reflexivity].
  apply le_iff.
  rewrite (geofence_haversine_same_point
             (Geofence.r_lat record) (Geofence.r_lon record)
             (Geofence.r_lat record) (Geofence.r_lon record))
    by reflexivity.
  lra.
Qed.

(** X15.  The geofence at the coordinates it lists, when the [math]
    functions map zero to zero.  A billboard at the coordinates of a
    sensitive site gets the buffer violation of that site, with the
    severity 4; and every license of the registry, checked at its
    registered coordinates, is found with a matching location, and is
    valid exactly when its record is active. *)
Theorem geofence_at_listed_coordinates :
  (forall location,
     In location Geofence.sensitive_locations ->
     exists v,
       In v (Geofence._check_buffer_distances (Geofence.s_lat location)
                                              (Geofence.s_lon location)) /\
       Geofence.v_type v = "buffer_violation"%string /\
       Geofence.v_severity v = 4%Z /\
       exists d, d == 0 /\
         Geofence.v_detail v
         = Geofence.BufferDetail (Geofence.s_name location)
                                 (Geofence.buffer_m location)
                                 (Py.round d 1)) /\
  (forall record,
     In record Geofence.permitted_billboards ->
     let r := Geofence.check_permitted_database
                (Geofence.r_license_id record)
                (Geofence.r_lat record) (Geofence.r_lon record) in
     Geofence.database_status r = "found"%string /\
     Geofence.location_match r = true /\
     Geofence.license_valid r
     = (Geofence.r_status record =? "active")%string /\
     Geofence.registered_location r
     = Some (Geofence.r_lat record, Geofence.r_lon record)).
Proof.
  split.
  - exact buffer_violation_at_sensitive_site.
  - exact check_permitted_database_at_registered_location.
Qed.

End SamePoint.

(** The approximate [math] functions map zero to zero. *)
Lemma approx_cut_zero (x : Q) : x == 0 -> ApproxMath.cut x == 0.
Proof.
  intro H. unfold ApproxMath.cut. rewrite Qred_correct.
  rewrite H. reflexivity.
Qed.

Lemma approx_zero_preserving :
  zero_preserving_math (B := ApproxMath.builtins).
Proof.
  unfold zero_preserving_math, zero_preserving.
  cbn [math_radians math_sin math_sqrt math_asin ApproxMath.builtins].
  repeat split; intros x H.
  - unfold ApproxMath.radians. apply approx_cut_zero. rewrite H. reflexivity.
  - unfold ApproxMath.sin. apply approx_cut_zero. rewrite H. reflexivity.
  - unfold ApproxMath.sqrt. apply approx_cut_zero.
    assert (N : Qnum x = 0%Z).
    { unfold Qeq in H. cbn in H. lia. }
    rewrite N. reflexivity.
  - unfold ApproxMath.asin. apply approx_cut_zero. rewrite H. reflexivity.
Qed.


(** A billboard on the Children's Park. *)
Lemma geofence_at_listed_coordinates_witness :
  exists v,
    In v (Geofence._check_buffer_distances (B := ApproxMath.builtins)
            (303535 # 10000) (763605 # 10000)) /\
    Geofence.v_type v = "buffer_violation"%string /\
    Geofence.v_severity v = 4%Z /\
    exists d, d == 0 /\
      Geofence.v_detail v
      = Geofence.BufferDetail "Children's Park" 50 (Py.round d 1).
Proof.
  apply (proj1 (@geofence_at_listed_coordinates ApproxMath.builtins
                  approx_zero_preserving)
           {| Geofence.s_name := "Children's Park";
              Geofence.s_lat := 303535 # 10000;
              Geofence.s_lon := 763605 # 10000;
              Geofence.buffer_m := 50 |}).
  right. right. left. reflexivity.
Defined.

(** ** Geofence: more on the point-in-polygon test *)

Section PolygonExtras.

Import Geofence.

Lemma nth_seq_suffix (l ps : list (Q * Q)) :
  map (fun i => nth i (l ++ ps) (0, 0))
      (seq (List.length l) (List.length ps)) = ps.
Proof.
  revert l. induction ps as [|a ps IH]; intro l; [reflexivity|].
  cbn [List.length seq map]. rewrite nth_middle. f_equal.
  specialize (IH (l ++ [a])).
  rewrite <- app_assoc, length_app, Nat.add_1_r in IH. exact IH.
Qed.

(** The loop visits the vertices after the first, then the first. *)
Lemma visited_cons (p0 : Q * Q) (ps : list (Q * Q)) :
  visited (p0 :: ps) = ps ++ [p0].
Proof.
  unfold visited. cbn [List.length]. rewrite seq_S, map_app. f_equal.
  - rewrite <- (nth_seq_suffix [p0] ps) at 2. cbn [List.length app].
    apply map_ext_in. intros i Hi. apply in_seq in Hi.
    rewrite Nat.mod_small by lia. reflexivity.
  - cbn [map]. rewrite Nat.add_1_l, Nat.Div0.mod_same. reflexivity.
Qed.

Lemma _point_in_polygon_path (lat lon : Q) (p0 : Q * Q)
  (ps : list (Q * Q)) :
  _point_in_polygon lat lon (p0 :: ps)
  = Ok (path_parity lon lat (p0 :: ps ++ [p0])).
Proof.
  rewrite _point_in_polygon_spec, visited_cons. reflexivity.
Qed.

Lemma crossings_app (x y : Q) (p1 : Q * Q) (l : list (Q * Q)) (q : Q * Q)
  (l' : list (Q * Q)) :
  crossings x y p1 (l ++ q :: l')
  = xorb (crossings x y p1 (l ++ [q])) (crossings x y q l').
Proof.
  revert p1. induction l as [|a l IH]; intro p1; cbn [app crossings].
  - rewrite xorb_false_r. reflexivity.
  - rewrite IH, xorb_assoc. reflexivity.
Qed.

Lemma _point_in_polygon_rotate1 (lat lon : Q) (p0 : Q * Q)
  (ps : list (Q * Q)) :
  _point_in_polygon lat lon (ps ++ [p0])
  = _point_in_polygon lat lon (p0 :: ps).
Proof.
  destruct ps as [|q qs]; [reflexivity|].
  cbn [app]. rewrite !_point_in_polygon_path. f_equal.
  cbn [path_parity app crossings].
  rewrite <- app_assoc. cbn [app].
  rewrite crossings_app. cbn [crossings].
  rewrite xorb_false_r. apply xorb_comm.
Qed.

(** X16.  The point-in-polygon test does not depend on the vertex the list
    starts with: any rotation of the vertex list gives the same answer,
    the error on the empty list included. *)
Theorem _point_in_polygon_rotation (lat lon : Q) (l1 l2 : list (Q * Q)) :
  _point_in_polygon lat lon (l1 ++ l2)
  = _point_in_polygon lat lon (l2 ++ l1).
Proof.
  revert l2. induction l1 as [|a l1 IH]; intro l2.
  - rewrite app_nil_r. reflexivity.
  - cbn [app]. rewrite <- _point_in_polygon_rotate1.
    rewrite <- app_assoc. rewrite IH.
    rewrite <- app_assoc. reflexivity.
Qed.

Lemma crossings_none (x y : Q) (p1 : Q * Q) (l : list (Q * Q)) :
  (forall p q, In p (p1 :: l) -> In q (p1 :: l) ->
               crossing x y p q = false) ->
  crossings x y p1 l = false.
Proof.
  revert p1. induction l as [|a l IH]; intros p1 H; [reflexivity|].
  cbn [crossings].
  rewrite (H p1 a) by (cbn; tauto).
  rewrite IH; [reflexivity|].
  intros p q Hp Hq. apply H; right; assumption.
Qed.

(** X17.  The test answers [False] for every point that has none of the
    polygon beside it: a point whose latitude is at most every second
    coordinate of the vertices, or above all of them, or whose longitude
    is above every first coordinate. *)
Theorem _point_in_polygon_outside (lat lon : Q) (p0 : Q * Q)
  (ps : list (Q * Q)) :
  (forall p, In p (p0 :: ps) -> lat <= snd p) \/
  (forall p, In p (p0 :: ps) -> snd p < lat) \/
  (forall p, In p (p0 :: ps) -> fst p < lon) ->
  _point_in_polygon lat lon (p0 :: ps) = Ok false.
Proof.
  intro H. rewrite _point_in_polygon_spec, visited_cons. f_equal.
  apply crossings_none. intros p q Hp Hq.
  assert (Hin : forall r, In r (p0 :: ps ++ [p0]) -> In r (p0 :: ps)).
  { intros r [<- | Hr]; [left; reflexivity|].
    apply in_app_or in Hr. destruct Hr as [Hr | [<- | []]];
      [right; exact Hr | left; reflexivity]. }
  apply Hin in Hp. apply Hin in Hq.
  destruct (crossing lon lat p q) eqn:E; [|reflexivity].
  apply crossing_iff in E. destruct E as [Hband [Hx _]].
  destruct H as [H | [H | H]];
    pose proof (H p Hp); pose proof (H q Hq); lra.
Qed.

Lemma crossing_horizontal (x y : Q) (p1 p2 : Q * Q) :
  snd p1 == snd p2 -> crossing x y p1 p2 = false.
Proof.
  intro H. destruct (crossing x y p1 p2) eqn:E; [|reflexivity].
  apply crossing_iff in E. destruct E as [Hband _]. lra.
Qed.

Lemma crossing_vertical (x y : Q) (p1 p2 : Q * Q) :
  fst p1 == fst p2 -> snd p1 <= snd p2 ->
  crossing x y p1 p2 = true <-> snd p1 < y <= snd p2 /\ x <= fst p1.
Proof.
  intros Hx Hy. rewrite crossing_iff. split.
  - intros [Hband [Hle _]]. lra.
  - intros [Hband Hle]. split; [left; exact Hband|].
    split; [left; exact Hle | left; exact Hx].
Qed.

Lemma crossing_vertical_down (x y : Q) (p1 p2 : Q * Q) :
  fst p1 == fst p2 -> snd p2 <= snd p1 ->
  crossing x y p1 p2 = true <-> snd p2 < y <= snd p1 /\ x <= fst p1.
Proof.
  intros Hx Hy. rewrite crossing_iff. split.
  - intros [Hband [Hle _]]. lra.
  - intros [Hband Hle]. split; [right; exact Hband|].
    split; [left; exact Hle | left; exact Hx].
Qed.

(** X18.  On a rectangle given as in the zone data, the test accepts
    exactly the points whose longitude lies in the range of the first
    coordinates and whose latitude lies in the range of the second
    coordinates, both ranges open below and closed above. *)
Theorem _point_in_polygon_rectangle (lat lon a b c d : Q) :
  a <= b -> c <= d ->
  _point_in_polygon lat lon (rectangle a b c d) = Ok true <->
  a < lon <= b /\ c < lat <= d.
Proof.
  intros Hab Hcd. unfold rectangle.
  rewrite _point_in_polygon_spec, visited_cons.
  cbn [app crossings].
  rewrite (crossing_horizontal lon lat (a, c) (b, c)) by reflexivity.
  rewrite (crossing_horizontal lon lat (b, d) (a, d)) by reflexivity.
  pose proof (crossing_vertical lon lat (b, c) (b, d)
                (Qeq_refl b) Hcd) as V1.
  pose proof (crossing_vertical_down lon lat (a, d) (a, c)
                (Qeq_refl a) Hcd) as V2.
  cbn [fst snd] in V1, V2.
  destruct (crossing lon lat (b, c) (b, d));
    destruct (crossing lon lat (a, d) (a, c)); cbn [xorb].
  - split; [discriminate|].
    intros [H1 H2]. destruct (proj1 V2 eq_refl). lra.
  - split; [intros _ | reflexivity].
    destruct (proj1 V1 eq_refl) as [H1 H2].
    split; [|exact H1]. split; [|exact H2].
    apply Qnot_le_lt. intro L.
    assert (F : false = true) by (apply V2; split; assumption).
    discriminate F.
  - split; [intros _ | reflexivity].
    destruct (proj1 V2 eq_refl) as [H1 H2].
    assert (F : false = true) by (apply V1; split; [exact H1 | lra]).
    discriminate F.
  - split; [discriminate|].
    intros [H1 H2].
    assert (F : false = true) by (apply V1; split; [exact H2 | lra]).
    discriminate F.
Qed.

End PolygonExtras.

(** The centre of the school zone: its latitude is below every second
    coordinate of the zone's vertices, which are longitudes. *)
Lemma _point_in_polygon_outside_witness :
  Geofence._point_in_polygon (303550 # 10000) (763630 # 10000)
    (rectangle (303545 # 10000) (303555 # 10000)
               (763625 # 10000) (763635 # 10000))
  = Ok false.
Proof.
  apply (_point_in_polygon_outside (303550 # 10000) (763630 # 10000)
           (303545 # 10000, 763625 # 10000)
           [ (303555 # 10000, 763625 # 10000);
             (303555 # 10000, 763635 # 10000);
             (303545 # 10000, 763635 # 10000) ]).
  left. intros p Hp. cbn [In] in Hp.
  destruct Hp as [<- | [<- | [<- | [<- | []]]]]; cbn [snd]; lra.
Defined.

(** The school zone accepts the centre of the zone with its coordinates
    exchanged. *)
Lemma _point_in_polygon_rectangle_witness :
  Geofence._point_in_polygon (763630 # 10000) (303550 # 10000)
    (rectangle (303545 # 10000) (303555 # 10000)
               (763625 # 10000) (763635 # 10000))
  = Ok true.
Proof.
  refine (proj2 (_point_in_polygon_rectangle
                   (763630 # 10000) (303550 # 10000)
                   (303545 # 10000) (303555 # 10000)
                   (763625 # 10000) (763635 # 10000) _ _) _);
    [lra | lra | split; split; lra].
Defined.

(** ** Geofence: the location check on any list of zones *)

Section ComplianceExtras.

Context {B : Builtins}.

Import Geofence.

Lemma _check_buffer_distances_map (lat lon : Q) :
  _check_buffer_distances lat lon
  = map (buffer_violation lat lon) (sites_too_close lat lon).
Proof.
  unfold _check_buffer_distances, sites_too_close.
  induction sensitive_locations as [|location rest IH]; [reflexivity|].
  cbn [flat_map filter]. unfold site_distance at 1.
  destruct (Py.lt _ _); cbn [app map]; rewrite IH; reflexivity.
Qed.

Lemma _check_buffer_distances_length (lat lon : Q) :
  (List.length (_check_buffer_distances lat lon) <= 3)%nat.
Proof.
  rewrite _check_buffer_distances_map, length_map. unfold sites_too_close.
  etransitivity; [apply filter_length_le | apply le_n].
Qed.

(** X19.  The buffer check reports exactly the sensitive sites that are
    closer than their buffer distance (strictly), one violation of
    severity 4 each, in the order of the list of sites; so it reports at
    most three, and none exactly when every site is at its buffer distance
    or farther. *)
Theorem _check_buffer_distances_spec (lat lon : Q) :
  _check_buffer_distances lat lon
  = map (buffer_violation lat lon) (sites_too_close lat lon) /\
  (forall location,
     In location (sites_too_close lat lon) <->
     In location sensitive_locations /\
     site_distance lat lon location < inject_Z (buffer_m location)) /\
  (List.length (_check_buffer_distances lat lon) <= 3)%nat /\
  (_check_buffer_distances lat lon = [] <->
   forall location,
     In location sensitive_locations ->
     inject_Z (buffer_m location) <= site_distance lat lon location).
Proof.
  assert (Hin : forall location,
            In location (sites_too_close lat lon) <->
            In location sensitive_locations /\
            site_distance lat lon location < inject_Z (buffer_m location)).
  { intro location. unfold sites_too_close.
    rewrite filter_In, lt_iff. reflexivity. }
  split; [apply _check_buffer_distances_map|].
  split; [exact Hin|].
  rewrite _check_buffer_distances_map. split.
  - rewrite length_map. unfold sites_too_close.
    etransitivity; [apply filter_length_le | apply le_n].
  - split.
    + intros E location Hl.
      destruct (Qlt_le_dec (site_distance lat lon location)
                           (inject_Z (buffer_m location))) as [L|L];
        [|exact L].
      exfalso. apply map_eq_nil in E.
      assert (Hs : In location (sites_too_close lat lon))
        by (apply Hin; split; assumption).
      rewrite E in Hs. destruct Hs.
    + intro H. destruct (sites_too_close lat lon) as [|l ls] eqn:E;
        [reflexivity|].
      exfalso.
      assert (Hs : In l (l :: ls)) by (left; reflexivity).
      apply Hin in Hs. destruct Hs as [Hl Hd].
      pose proof (H l Hl). lra.
Qed.

Lemma zone_loop_known (lat lon area : Q) (zones : list GeofenceZone)
  (z : option GeofenceZone) (vs : list LocationViolation)
  (status : string) :
  zone_loop lat lon area zones = Ok (z, vs, status) ->
  (status = "compliant"%string <-> vs = []) /\
  (status = "compliant"%string \/ status = "non_compliant"%string \/
   status = "prohibited"%string) /\
  (List.length vs <= 1)%nat /\
  Forall known_type vs.
Proof.
  intro H. pose proof (zone_loop_spec _ _ _ _ H) as S.
  destruct z as [zone|].
  - destruct S as [_ [_ O]]. unfold zone_outcome in O.
    destruct (prohibited zone).
    + destruct O as [-> [rules [_ ->]]].
      split; [split; discriminate|].
      split; [tauto|]. split; [apply le_n|].
      constructor; [left; reflexivity | constructor].
    + destruct (Py.gt area (size_limit_m2 zone)).
      * destruct O as [-> ->].
        split; [split; discriminate|].
        split; [tauto|]. split; [apply le_n|].
        constructor; [right; left; reflexivity | constructor].
      * destruct O as [-> ->].
        split; [split; reflexivity|].
        split; [tauto|]. split; [apply le_0_n | constructor].
  - destruct S as [-> ->].
    split; [split; reflexivity|].
    split; [tauto|]. split; [apply le_0_n | constructor].
Qed.

Lemma has_type_known (vs : list LocationViolation) :
  Forall known_type vs -> vs <> [] ->
  has_type "prohibited_zone" vs = true \/
  has_type "size_exceeds_zone_limit" vs = true \/
  has_type "buffer_violation" vs = true.
Proof.
  intros H Hne. destruct H as [|v vs K _]; [congruence|].
  unfold has_type. cbn [existsb].
  destruct K as [K | [K | K]]; rewrite K; cbn; tauto.
Qed.

Lemma complies_only_when_clean (vs : list LocationViolation)
  (z : option GeofenceZone) :
  vs <> [] ->
  ~ In "Location complies with current regulations"%string
       (_generate_recommendations vs z).
Proof.
  intros Hne Hin. unfold _generate_recommendations in Hin.
  destruct vs as [|v l]; [congruence|].
  destruct (has_type "prohibited_zone" (v :: l));
    destruct (has_type "size_exceeds_zone_limit" (v :: l));
    destruct (has_type "buffer_violation" (v :: l));
    destruct z; cbn in Hin;
    repeat (destruct Hin as [Hin | Hin]; [discriminate Hin|]);
    exact Hin.
Qed.

(** X20.  What every location result satisfies, on any list of zones: the
    status is one of the three; it is [compliant] exactly when no
    violation is recorded; at most four violations are recorded, each of
    a known type; the recommendations are never empty, and they say that
    the location complies exactly when no violation is recorded. *)
Theorem check_location_compliance_result (self : BillboardGeofence)
  (lat lon area : Q) (res : LocationResult) :
  check_location_compliance self lat lon area = Ok res ->
  (compliance_status res = "compliant"%string \/
   compliance_status res = "non_compliant"%string \/
   compliance_status res = "prohibited"%string) /\
  (compliance_status res = "compliant"%string <-> violations res = []) /\
  (List.length (violations res) <= 4)%nat /\
  Forall known_type (violations res) /\
  recommendations res <> [] /\
  (In "Location complies with current regulations"%string
      (recommendations res) <-> violations res = []).
Proof.
  intro H. unfold check_location_compliance in H.
  destruct (zone_loop lat lon area (restricted_zones self))
    as [[[z vs] status]|e] eqn:Z; cbn [bind] in H; [|discriminate H].
  injection H as <-.
  cbn [compliance_status violations recommendations].
  destruct (zone_loop_known _ _ _ _ _ _ _ Z) as [Hc [Hs [Hl Hk]]].
  pose proof (_check_buffer_distances_length lat lon) as Hb.
  pose proof (_check_buffer_distances_severity lat lon) as Hbs.
  assert (Hkb : Forall known_type (_check_buffer_distances lat lon)).
  { eapply Forall_impl; [|exact Hbs].
    intros v [_ T]. right. right. exact T. }
  assert (Hall : Forall known_type (vs ++ _check_buffer_distances lat lon))
    by (apply Forall_app; split; assumption).
  split; [|split; [|split; [|split; [exact Hall|]]]].
  - destruct (_check_buffer_distances lat lon); tauto.
  - destruct (_check_buffer_distances lat lon) as [|b bs].
    + rewrite app_nil_r. exact Hc.
    + split; [discriminate|].
      intro E. apply app_eq_nil in E. destruct E as [_ E]. discriminate E.
  - rewrite length_app. lia.
  - generalize dependent (vs ++ _check_buffer_distances lat lon).
    intros l Hall. unfold _generate_recommendations.
    destruct l as [|v l].
    + cbn. split; [discriminate|]. split; [intros _; reflexivity|].
      intros _. left. reflexivity.
    + assert (Hne : v :: l <> []) by discriminate.
      split.
      * destruct (has_type_known (v :: l) Hall Hne) as [T | [T | T]];
          rewrite T.
        -- discriminate.
        -- destruct (has_type "prohibited_zone" (v :: l)); discriminate.
        -- destruct (has_type "prohibited_zone" (v :: l));
             [discriminate|].
           destruct (has_type "size_exceeds_zone_limit" (v :: l));
             [discriminate|].
           discriminate.
      * split; [|discriminate].
        intro Hin. exfalso.
        exact (complies_only_when_clean (v :: l) z Hne Hin).
Qed.

End ComplianceExtras.

(** ** Geofence: errors and the first accepted zone *)

Section ZoneLoopExtras.

Context {B : Builtins}.

Import Geofence.

Lemma zone_loop_skip (lat lon area : Q) (pre rest : list GeofenceZone) :
  Forall (zone_missed lat lon) pre ->
  zone_loop lat lon area (pre ++ rest) = zone_loop lat lon area rest.
Proof.
  intro H. induction H as [|zone pre Hz _ IH]; [reflexivity|].
  cbn [app]. rewrite (@zone_loop_miss B lat lon area zone (pre ++ rest) Hz).
  exact IH.
Qed.

Lemma _point_in_polygon_total (lat lon : Q) (polygon : list (Q * Q)) :
  polygon <> [] -> exists b, _point_in_polygon lat lon polygon = Ok b.
Proof.
  destruct polygon as [|p0 ps]; [congruence|]. intros _.
  rewrite _point_in_polygon_spec. eexists. reflexivity.
Qed.



(** X22.  The zone loop stops at the first zone the test accepts; the
    zones after it play no part.  When that zone is not prohibited, the
    result names it, and holds a size violation exactly when the area is
    strictly above the zone's limit, followed by the buffer violations. *)
Theorem check_location_compliance_first_zone (self : BillboardGeofence)
  (lat lon area : Q) (pre : list GeofenceZone) (zone : GeofenceZone)
  (post : list GeofenceZone) :
  restricted_zones self = pre ++ zone :: post ->
  Forall (zone_missed lat lon) pre ->
  _point_in_polygon lat lon (coordinates zone) = Ok true ->
  prohibited zone = false ->
  exists res,
    check_location_compliance self lat lon area = Ok res /\
    zone_info res = zone_info_of (Some zone) /\
    violations res
    = (if Py.gt area (size_limit_m2 zone)
       then [zone_size_violation zone area] else [])
      ++ _check_buffer_distances lat lon /\
    (area <= size_limit_m2 zone ->
     _check_buffer_distances lat lon = [] ->
     compliance_status res = "compliant"%string).
Proof.
  intros Hz Hpre P Pr.
  assert (Z : zone_loop lat lon area (restricted_zones self)
              = Ok (Some zone,
                    if Py.gt area (size_limit_m2 zone)
                    then [zone_size_violation zone area] else [],
                    if Py.gt area (size_limit_m2 zone)
                    then "non_compliant"%string else "compliant"%string)).
  { rewrite Hz, (zone_loop_skip lat lon area pre (zone :: post) Hpre).
    cbn [zone_loop]. rewrite P. cbn [bind]. rewrite Pr.
    destruct (Py.gt area (size_limit_m2 zone)); reflexivity. }
  destruct (@check_location_compliance_spec B self lat lon area _ _ _ Z)
    as [res [E [Hs [Hv Hi]]]].
  exists res. split; [exact E|]. split; [exact Hi|]. split; [exact Hv|].
  intros Hle Hb. rewrite Hs, Hb.
  apply gt_false_iff in Hle. rewrite Hle. reflexivity.
Qed.

End ZoneLoopExtras.

(** ** Geofence: the reason of a registry answer *)

Section DatabaseReason.

Import Geofence.

(** X23.  The reason of a registry answer tells the two flags apart: two
    answers with the same reason have the same [license_valid] and the
    same [location_match], whatever the distances. *)
Theorem _get_database_reason_flags (v m v' m' : bool) (d d' : Q) :
  _get_database_reason v m d = _get_database_reason v' m' d' ->
  v = v' /\ m = m'.
Proof.
  unfold _get_database_reason.
  destruct v, m, v', m'; cbn; intro H;
    first [split; reflexivity | discriminate H].
Qed.

End DatabaseReason.

(** The centre of the school zone with the default geofence. *)
Lemma check_location_compliance_result_witness :
  exists res,
    Geofence.check_location_compliance (B := ApproxMath.builtins)
      Geofence.init (303550 # 10000) (763630 # 10000) 0 = Ok res /\
    (Geofence.compliance_status res = "compliant"%string \/
     Geofence.compliance_status res = "non_compliant"%string \/
     Geofence.compliance_status res = "prohibited"%string) /\
    (Geofence.compliance_status res = "compliant"%string <->
     Geofence.violations res = []) /\
    (List.length (Geofence.violations res) <= 4)%nat /\
    Forall known_type (Geofence.violations res) /\
    Geofence.recommendations res <> [] /\
    (In "Location complies with current regulations"%string
        (Geofence.recommendations res) <-> Geofence.violations res = []).
Proof.
  eexists. split; [vm_compute; reflexivity|].
  apply (@check_location_compliance_result ApproxMath.builtins
           Geofence.init (303550 # 10000) (763630 # 10000) 0).
  vm_compute. reflexivity.
Defined.


(** The commercial zone listed first hides the prohibited zone over the
    same square; an area equal to the limit is no violation. *)
Lemma check_location_compliance_first_zone_witness :
  exists res,
    Geofence.check_location_compliance (B := ApproxMath.builtins)
      two_zone_geofence (1 # 2) (1 # 2) 48 = Ok res /\
    Geofence.zone_info res = Geofence.zone_info_of (Some unit_zone) /\
    Geofence.violations res
    = (if Py.gt 48 (Geofence.size_limit_m2 unit_zone)
       then [zone_size_violation (B := ApproxMath.builtins) unit_zone 48]
       else [])
      ++ Geofence._check_buffer_distances (B := ApproxMath.builtins)
           (1 # 2) (1 # 2) /\
    (48 <= Geofence.size_limit_m2 unit_zone ->
     Geofence._check_buffer_distances (B := ApproxMath.builtins)
       (1 # 2) (1 # 2) = [] ->
     Geofence.compliance_status res = "compliant"%string).
Proof.
  apply (@check_location_compliance_first_zone ApproxMath.builtins
           two_zone_geofence (1 # 2) (1 # 2) 48
           [] unit_zone [zone_without_rules]).
  - reflexivity.
  - constructor.
  - reflexivity.
  - reflexivity.
Defined.

(** Two distances that print alike give the same reason. *)
Lemma _get_database_reason_flags_witness :
  Geofence._get_database_reason true false (1050 # 100)
  = Geofence._get_database_reason true false (1052 # 100) /\
  true = true /\ false = false.
Proof.
  split; [reflexivity|].
  apply (_get_database_reason_flags true false true false
           (1050 # 100) (1052 # 100)).
  reflexivity.
Defined.

(** ** detection.py: the generated box *)

Section DetectionExtras.


End DetectionExtras.


(** ** ocr.py: the confidence of a text *)

Section OcrExtras.

Lemma length_factor_bounds (text : string) :
  0 <= Py.min 1 (inject_Z (Z.of_nat (Py.len text)) / 50) <= 1.
Proof.
  assert (H : 0 <= inject_Z (Z.of_nat (Py.len text)) / 50).
  { apply Qle_shift_div_l; [reflexivity|].
    rewrite Qmult_0_l. change 0 with (inject_Z 0).
    rewrite <- Zle_Qle. lia. }
  generalize dependent (inject_Z (Z.of_nat (Py.len text)) / 50).
  intros q H.
  destruct (min_spec 1 q) as [[H1 ->] | [H1 ->]]; lra.
Qed.

Lemma prod_le_zero (a b : Q) : 0 <= a -> b <= 0 -> a * b <= 0.
Proof.
  intros Ha Hb.
  assert (M : b * a <= 0 * a) by (apply Qmult_le_compat_r; assumption).
  lra.
Qed.

Lemma prod_le_one (a b : Q) : 0 <= a -> a <= 1 -> b <= 1 -> a * b <= 1.
Proof.
  intros Ha Ha1 Hb. destruct (Qlt_le_dec b 0) as [N|N].
  - pose proof (prod_le_zero a b Ha (Qlt_le_weak _ _ N)). lra.
  - assert (M : a * b <= 1 * b) by (apply Qmult_le_compat_r; assumption).
    lra.
Qed.

(** X25.  The OCR confidence lies in [0.3, 0.95]; without a license
    pattern in the text it is at most 0.85; for the empty text, and for an
    image with no pixel, it is 0.3. *)
Theorem _calculate_ocr_confidence_range (text : string) (width height : Z) :
  3 # 10 <= Ocr._calculate_ocr_confidence text width height <= 95 # 100 /\
  (has_license_pattern text = false ->
   Ocr._calculate_ocr_confidence text width height <= 85 # 100) /\
  (text = ""%string \/ (width * height <= 0)%Z ->
   Ocr._calculate_ocr_confidence text width height = 3 # 10).
Proof.
  unfold Ocr._calculate_ocr_confidence.
  fold (has_license_pattern text).
  pose proof (length_factor_bounds text) as Hl.
  set (lf := Py.min 1 (inject_Z (Z.of_nat (Py.len text)) / 50))
    in *.
  set (q := inject_Z (width * height) / inject_Z (1920 * 1080)).
  set (bonus := if has_license_pattern text then 1 # 10 else 0).
  assert (Hb : 0 <= bonus <= 1 # 10)
    by (unfold bonus; destruct (has_license_pattern text); lra).
  assert (Hs : Py.min 1 q <= 1)
    by (destruct (min_spec 1 q) as [[H1 ->] | [H1 ->]]; lra).
  assert (Hp : (85 # 100) * lf * Py.min 1 q <= 85 # 100).
  { pose proof (prod_le_one lf (Py.min 1 q) (proj1 Hl) (proj2 Hl) Hs).
    lra. }
  split; [|split].
  - generalize dependent ((85 # 100) * lf * Py.min 1 q). intros p Hp.
    destruct (max_spec (3 # 10) (p + bonus)) as [[H1 ->] | [H1 ->]];
    [destruct (min_spec (95 # 100) (p + bonus)) as [[H2 ->] | [H2 ->]]
    |destruct (min_spec (95 # 100) (3 # 10)) as [[H2 ->] | [H2 ->]]];
    lra.
  - intro Hn. unfold bonus. rewrite Hn.
    generalize dependent ((85 # 100) * lf * Py.min 1 q). intros p Hp.
    destruct (max_spec (3 # 10) (p + 0)) as [[H1 ->] | [H1 ->]];
    [destruct (min_spec (95 # 100) (p + 0)) as [[H2 ->] | [H2 ->]]
    |destruct (min_spec (95 # 100) (3 # 10)) as [[H2 ->] | [H2 ->]]];
    lra.
  - intro H.
    assert (Hz : (85 # 100) * lf * Py.min 1 q + bonus <= 3 # 10).
    { destruct H as [-> | H].
      - assert (E0 : lf == 0) by reflexivity.
        assert (Eb : bonus = 0) by reflexivity.
        rewrite E0, Eb. lra.
      - assert (Hq : q <= 0).
        { unfold q. apply Qle_shift_div_r; [reflexivity|].
          rewrite Qmult_0_l. change 0 with (inject_Z 0).
          rewrite <- Zle_Qle. exact H. }
        assert (Hm : Py.min 1 q <= 0)
          by (destruct (min_spec 1 q) as [[H1 ->] | [H1 ->]]; lra).
        pose proof (prod_le_zero lf (Py.min 1 q) (proj1 Hl) Hm).
        lra. }
    generalize dependent ((85 # 100) * lf * Py.min 1 q + bonus).
    intros c Hz.
    destruct (max_spec (3 # 10) c) as [[H1 _] | [_ ->]]; [lra|].
    reflexivity.
Qed.

End OcrExtras.

(** ** size_estimation.py: distance, geometry and failures *)

Section SizeEstimationExtras.

Context {B : Builtins}.

Import SizeEstimation.

Lemma truediv_inv (a b q : Q) :
  Py.truediv a b = Ok q -> ~ b == 0 /\ q = a / b.
Proof.
  unfold Py.truediv. destruct (Qeq_bool b 0) eqn:E; [discriminate|].
  intro H. injection H as <-. split; [|reflexivity].
  intro Z. apply Qeq_bool_iff in Z. congruence.
Qed.

Lemma truediv_raise (a b : Q) (e : exn) :
  Py.truediv a b = Raise e -> e = ZeroDivisionError.
Proof.
  unfold Py.truediv. destruct (Qeq_bool b 0); [|discriminate].
  intro H. injection H as <-. reflexivity.
Qed.

Lemma _estimate_distance_from_height_raises (self : BillboardSizeEstimator)
  (bbox_height_px : Q) (image_height : Z) (assumed_height_m : Q) (e : exn) :
  _estimate_distance_from_height self bbox_height_px image_height
                                 assumed_height_m = Raise e ->
  e = ZeroDivisionError.
Proof.
  unfold _estimate_distance_from_height. intro H.
  repeat match type of H with
         | bind ?c _ = Raise _ =>
             let E := fresh "E" in
             destruct c eqn:E; cbn [bind] in H;
             [|injection H as <-; eapply truediv_raise; exact E]
         end.
  discriminate H.
Qed.

Lemma _estimate_distance_from_height_clamped (self : BillboardSizeEstimator)
  (bbox_height_px : Q) (image_height : Z) (assumed_height_m d : Q) :
  _estimate_distance_from_height self bbox_height_px image_height
                                 assumed_height_m = Ok d ->
  5 <= d <= 200.
Proof.
  unfold _estimate_distance_from_height. intro H. bind_inv H.
  injection H as <-. apply clamp_bounds. lra.
Qed.

(** X26.  The distance estimated from the height of the box is clamped to
    [5, 200] whenever it is returned; the function fails with
    [ZeroDivisionError] and nothing else: always for an image of height
    zero, and, when [math.tan] maps zero to zero, for a box of height
    zero. *)
Theorem _estimate_distance_from_height_spec (self : BillboardSizeEstimator)
  (bbox_height_px : Q) (image_height : Z) (assumed_height_m : Q) :
  match _estimate_distance_from_height self bbox_height_px image_height
                                       assumed_height_m with
  | Ok d => 5 <= d <= 200
  | Raise e => e = ZeroDivisionError
  end /\
  (image_height = 0%Z ->
   _estimate_distance_from_height self bbox_height_px image_height
                                  assumed_height_m
   = Raise ZeroDivisionError) /\
  (zero_preserving math_tan -> bbox_height_px == 0 ->
   _estimate_distance_from_height self bbox_height_px image_height
                                  assumed_height_m
   = Raise ZeroDivisionError).
Proof.
  split; [|split].
  - destruct (_estimate_distance_from_height self bbox_height_px
                image_height assumed_height_m) as [d|e] eqn:E.
    + eapply _estimate_distance_from_height_clamped. exact E.
    + eapply _estimate_distance_from_height_raises. exact E.
  - intros ->.
    destruct (_estimate_distance_from_height self bbox_height_px 0
                assumed_height_m) as [d|e] eqn:E.
    + exfalso. unfold _estimate_distance_from_height in E. bind_inv E.
      discriminate E.
    + f_equal. eapply _estimate_distance_from_height_raises. exact E.
  - intros Ht H0.
    destruct (_estimate_distance_from_height self bbox_height_px
                image_height assumed_height_m) as [d|e] eqn:E.
    + exfalso. unfold _estimate_distance_from_height in E. bind_inv E.
      match goal with
      | F : Py.truediv bbox_height_px _ = Ok ?f,
        T : Py.truediv assumed_height_m _ = Ok _ |- _ =>
          apply truediv_inv in F; destruct F as [_ F]; subst f;
          apply truediv_inv in T; destruct T as [N _]; apply N
      end.
      rewrite (Ht _); [reflexivity|].
      rewrite H0. unfold Qdiv. ring.
    + f_equal. eapply _estimate_distance_from_height_raises. exact E.
Qed.

Lemma unpack4_length {A : Type} (l : list A) :
  List.length l <> 4%nat -> unpack4 l = Raise ValueError.
Proof.
  destruct l as [|a [|b [|c [|d [|e l]]]]]; cbn; intro H;
    first [reflexivity | congruence].
Qed.

Lemma unpack4_ok {A : Type} (l : list A) (r : A * A * A * A) :
  unpack4 l = Ok r -> List.length l = 4%nat.
Proof.
  destruct l as [|a [|b [|c [|d [|e l]]]]]; cbn; intro H;
    first [reflexivity | discriminate H].
Qed.

Lemma unpack4_raise {A : Type} (l : list A) (e : exn) :
  unpack4 l = Raise e -> e = ValueError /\ List.length l <> 4%nat.
Proof.
  destruct l as [|a [|b [|c [|d [|e' l]]]]]; cbn; intro H;
    first [discriminate H
          | injection H as <-; split; [reflexivity | discriminate]].
Qed.

Lemma estimate_size_from_bbox_raises (self : BillboardSizeEstimator)
  (bbox : list Q) (image_width image_height : Z)
  (assumed_distance_m : option Q) (e : exn) :
  estimate_size_from_bbox self bbox image_width image_height
                          assumed_distance_m = Raise e ->
  (e = ValueError /\ List.length bbox <> 4%nat) \/
  (e = ZeroDivisionError /\ List.length bbox = 4%nat).
Proof.
  unfold estimate_size_from_bbox. intro H.
  destruct (unpack4 bbox) as [[[[x1 y1] x2] y2]|e0] eqn:U; cbn [bind] in H.
  - right. split; [|eapply unpack4_ok; exact U].
    destruct (Py.truediv _ _) as [ratio|e1] eqn:E1 in H; cbn [bind] in H;
      [|injection H as <-; eapply truediv_raise; exact E1].
    destruct assumed_distance_m as [d|].
    + cbn [bind] in H.
      repeat match type of H with
             | bind ?c _ = Raise _ =>
                 let E := fresh "E" in
                 destruct c eqn:E; cbn [bind] in H;
                 [|injection H as <-; eapply truediv_raise; exact E]
             end.
      destruct (_calculate_confidence _ _ _ _). discriminate H.
    + destruct (_estimate_distance_from_height _ _ _ _) as [d|e1] eqn:E2;
        cbn [bind] in H;
        [|injection H as <-;
          eapply _estimate_distance_from_height_raises; exact E2].
      repeat match type of H with
             | bind ?c _ = Raise _ =>
                 let E := fresh "E" in
                 destruct c eqn:E; cbn [bind] in H;
                 [|injection H as <-; eapply truediv_raise; exact E]
             end.
      destruct (_calculate_confidence _ _ _ _). discriminate H.
  - left. injection H as <-. eapply unpack4_raise. exact U.
Qed.

(** X27.  How the size estimation fails.  A box that does not hold exactly
    four numbers makes both methods fail with [ValueError]; the
    bounding-box method fails with nothing but [ValueError] and
    [ZeroDivisionError]; and for a box of four numbers and an image of
    width zero it always fails with [ZeroDivisionError]. *)
Theorem estimate_size_failures (self : BillboardSizeEstimator)
  (bbox : list Q) (image_width image_height : Z)
  (assumed_distance_m : option Q) (depth_map : list (list Q)) :
  (List.length bbox <> 4%nat ->
   estimate_size_from_bbox self bbox image_width image_height
                           assumed_distance_m = Raise ValueError /\
   estimate_size_with_depth self bbox depth_map = Raise ValueError) /\
  (forall e,
     estimate_size_from_bbox self bbox image_width image_height
                             assumed_distance_m = Raise e ->
     e = ValueError \/ e = ZeroDivisionError) /\
  (List.length bbox = 4%nat -> image_width = 0%Z ->
   estimate_size_from_bbox self bbox image_width image_height
                           assumed_distance_m = Raise ZeroDivisionError).
Proof.
  split; [|split].
  - intro H. split.
    + unfold estimate_size_from_bbox. rewrite unpack4_length by exact H.
      reflexivity.
    + unfold estimate_size_with_depth.
      rewrite unpack4_length by (rewrite length_map; exact H).
      reflexivity.
  - intros e H.
    destruct (estimate_size_from_bbox_raises _ _ _ _ _ _ H)
      as [[-> _] | [-> _]]; [left | right]; reflexivity.
  - intros H4 ->.
    destruct (estimate_size_from_bbox self bbox 0 image_height
                assumed_distance_m) as [est|e] eqn:E.
    + exfalso. unfold estimate_size_from_bbox in E.
      destruct (unpack4 bbox) as [[[[x1 y1] x2] y2]|] eqn:U;
        cbn [bind] in E; [|discriminate E].
      bind_inv E.
      match goal with
      | P : Py.truediv (inject_Z 0) _ = Ok ?p,
        W : Py.truediv (x2 - x1) _ = Ok _ |- _ =>
          apply truediv_inv in P; destruct P as [_ P]; subst p;
          apply truediv_inv in W; destruct W as [N _]; apply N
      end.
      unfold Qdiv. ring.
    + destruct (estimate_size_from_bbox_raises _ _ _ _ _ _ E)
        as [[_ N] | [-> _]]; [contradiction | reflexivity].
Qed.

End SizeEstimationExtras.

(** ** size_estimation.py: what an estimate holds *)

Section SizeEstimateExtras.

Context {B : Builtins}.

Import SizeEstimation.

(** X28.  An estimate of the bounding-box method.  The distance is the
    hint when one is given and lies in [5, 200] otherwise; the box keeps
    its proportions, [width_m * (y2 - y1) = height_m * (x2 - x1)]; the
    width is linear in the distance,
    [width_m * image_width = (x2 - x1) * 2 * distance * tan(fov / 2)];
    the image height plays no part once a hint is given. *)
Theorem estimate_size_from_bbox_geometry (self : BillboardSizeEstimator)
  (x1 y1 x2 y2 : Q) (image_width image_height : Z)
  (assumed_distance_m : option Q) (est : SizeEstimate) :
  estimate_size_from_bbox self [x1; y1; x2; y2] image_width image_height
                          assumed_distance_m = Ok est ->
  match assumed_distance_m with
  | Some d =>
      distance_m est = d /\
      forall image_height',
        estimate_size_from_bbox self [x1; y1; x2; y2] image_width
                                image_height' (Some d) = Ok est
  | None => 5 <= distance_m est <= 200
  end /\
  width_m est * (y2 - y1) == height_m est * (x2 - x1) /\
  width_m est * inject_Z image_width
  == (x2 - x1) *
     (2 * distance_m est *
      math_tan (2 * math_atan (sensor_width_mm (camera_params self)
                               / (2 * focal_length_mm (camera_params self)))
                / 2)) /\
  area_m2 est = width_m est * height_m est /\
  method est = "camera_assumptions"%string.
Proof.
  intro H. pose proof H as H'.
  unfold estimate_size_from_bbox in H. cbn [unpack4 bind] in H.
  destruct (Py.truediv (sensor_width_mm (camera_params self)) _)
    as [ratio|] eqn:Er; cbn [bind] in H; [|discriminate H].
  apply truediv_inv in Er. destruct Er as [_ ->].
  set (t := math_tan _) in *.
  destruct (match assumed_distance_m with
            | Some d => Ok d
            | None => _ end) as [d|] eqn:Ed; cbn [bind] in H;
    [|discriminate H].
  destruct (Py.truediv (inject_Z image_width) _) as [ppm|] eqn:Ep;
    cbn [bind] in H; [|discriminate H].
  apply truediv_inv in Ep. destruct Ep as [Hden Eppm].
  destruct (Py.truediv (x2 - x1) ppm) as [w|] eqn:Ew; cbn [bind] in H;
    [|discriminate H].
  apply truediv_inv in Ew. destruct Ew as [Hppm ->].
  rewrite truediv_ok in H by exact Hppm. cbn [bind] in H.
  destruct (_calculate_confidence self d (x2 - x1) (y2 - y1)) as [c m].
  injection H as <-.
  cbn [distance_m width_m height_m area_m2 method].
  assert (Hw : ~ inject_Z image_width == 0).
  { intro Z. apply Hppm. rewrite Eppm, Z. unfold Qdiv. ring. }
  split; [|split; [|split; [|split; reflexivity]]].
  - destruct assumed_distance_m as [d0|].
    + injection Ed as ->. split; [reflexivity|].
      intro image_height'. rewrite <- H'. reflexivity.
    + eapply _estimate_distance_from_height_clamped. exact Ed.
  - field. exact Hppm.
  - rewrite Eppm. field.
    split; [|split; [|exact Hw]]; intro Z; apply Hden; rewrite Z; ring.
Qed.

Lemma prod_abs_le_one (a b : Q) :
  -1 <= a <= 1 -> -1 <= b <= 1 -> a * b <= 1.
Proof.
  intros [Ha1 Ha2] [Hb1 Hb2]. destruct (Qlt_le_dec a 0) as [N|N].
  - assert (M : (- a) * (- b) <= 1) by (apply prod_le_one; lra).
    lra.
  - apply prod_le_one; lra.
Qed.

Lemma sample_factor_bounds (d : Q) :
  let data :=
    match find (fun entry : Z * Z * AccuracyData =>
                  let '((min_dist, max_dist), _) := entry in
                  Py.le (inject_Z min_dist) d && Py.lt d (inject_Z max_dist))
               (size_accuracy_table (init None)) with
    | Some (_, data) => data
    | None => {| mean_error := 3; std_dev := 2; samples := 10 |}
    end in
  0 <= Py.min 1 (inject_Z (samples data) / 100) <= 1.
Proof.
  cbn [init size_accuracy_table find].
  destruct (_ && _); [cbn; split; discriminate|].
  destruct (_ && _); [cbn; split; discriminate|].
  destruct (_ && _); cbn; split; discriminate.
Qed.

(** A box in normalized coordinates is smaller than a pixel, so the size
    factor of the confidence is at most 0.0001 and the confidence falls
    to its floor. *)
Lemma _calculate_confidence_small (d w h : Q) :
  5 <= d -> -1 <= w <= 1 -> -1 <= h <= 1 ->
  fst (_calculate_confidence (init None) d w h) = 1 # 10.
Proof.
  intros Hd Hw Hh. unfold _calculate_confidence. cbn [fst].
  pose proof (sample_factor_bounds d) as Hs. cbv zeta in Hs.
  set (smf := Py.min 1 (inject_Z (samples _) / 100)) in *.
  assert (Hdf : 0 <= Py.max (3 # 10) (1 - (d - 10) / 100) <= 105 # 100).
  { assert (E : (d - 10) / 100 == (d - 10) * (1 # 100)) by field.
    generalize dependent ((d - 10) / 100). intros q E.
    destruct (max_spec (3 # 10) (1 - q)) as [[H1 ->] | [H1 ->]]; lra. }
  set (df := Py.max (3 # 10) _) in *.
  assert (Hsf : Py.min 1 (w * h / 10000) <= 1 # 10000).
  { pose proof (prod_abs_le_one w h Hw Hh) as P.
    assert (E : w * h / 10000 == w * h * (1 # 10000)) by field.
    generalize dependent (w * h / 10000). intros q E.
    destruct (min_spec 1 q) as [[H1 ->] | [H1 ->]]; lra. }
  set (sf := Py.min 1 (w * h / 10000)) in *.
  assert (Hp : df * sf * smf <= 1 # 10).
  { assert (P1 : df * sf <= 105 # 1000000).
    { destruct (Qlt_le_dec sf 0) as [N|N].
      - pose proof (prod_le_zero df sf (proj1 Hdf) (Qlt_le_weak _ _ N)).
        lra.
      - assert (M : df * sf <= (105 # 100) * sf)
          by (apply Qmult_le_compat_r; lra).
        lra. }
    destruct (Qlt_le_dec (df * sf) 0) as [N|N].
    - pose proof (prod_le_zero smf (df * sf) (proj1 Hs)
                    (Qlt_le_weak _ _ N)).
      lra.
    - assert (M : smf * (df * sf) <= 1 * (df * sf))
        by (apply Qmult_le_compat_r; lra).
      lra. }
  generalize dependent (df * sf * smf). intros p Hp.
  destruct (min_spec (95 # 100) p) as [[H1 E] | [H1 E]]; rewrite E.
  - destruct (max_spec (1 # 10) p) as [[H2 _] | [_ ->]];
      [lra | reflexivity].
  - exfalso. lra.
Qed.

(** X29.  The size estimate of a box in normalized coordinates, which is
    what the detector passes on.  Without a distance hint, the convenience
    function reports the confidence 0.1, the floor of the clamp, for every
    such box and every image size, with the method
    [camera_assumptions]. *)
Theorem normalized_bbox_confidence (bbox : list Q)
  (image_width image_height : Z) (s : SizeSummary) :
  normalized bbox ->
  estimate_billboard_size bbox image_width image_height None = Ok s ->
  r_confidence s == 1 # 10 /\
  r_method s = "camera_assumptions"%string.
Proof.
  intros Hn H. unfold estimate_billboard_size in H.
  destruct (estimate_size_from_bbox (init None) bbox image_width
              image_height None) as [est|] eqn:E; cbn [bind] in H;
    [|discriminate H].
  injection H as <-. cbn [r_confidence r_method].
  assert (L : List.length bbox = 4%nat).
  { destruct (Nat.eq_dec (List.length bbox) 4) as [L|L]; [exact L|].
    unfold estimate_size_from_bbox in E.
    rewrite (unpack4_length bbox L) in E. discriminate E. }
  destruct bbox as [|x1 [|y1 [|x2 [|y2 [|c l]]]]]; try discriminate L.
  unfold estimate_size_from_bbox in E. cbn [unpack4 bind] in E.
  repeat match type of E with
         | bind ?c _ = Ok _ =>
             let F := fresh "F" in
             destruct c eqn:F; cbn [bind] in E; [|discriminate E]
         end.
  destruct (_calculate_confidence _ _ _ _) as [c m] eqn:C.
  injection E as <-. cbn [confidence method].
  split; [|reflexivity].
  assert (Hc : c = 1 # 10).
  { change c with (fst (c, m)). rewrite <- C.
    match goal with
    | D : _estimate_distance_from_height _ _ _ _ = Ok _ |- _ =>
        apply _estimate_distance_from_height_clamped in D
    end.
    unfold normalized in Hn.
    repeat match goal with
           | F : Forall _ (_ :: _) |- _ => inversion_clear F
           end.
    apply _calculate_confidence_small; lra. }
  rewrite Hc. reflexivity.
Qed.

End SizeEstimateExtras.

(** A box of two hundred by one hundred pixels seen from twenty metres. *)
Lemma estimate_size_from_bbox_geometry_witness :
  exists est,
    SizeEstimation.estimate_size_from_bbox (B := ApproxMath.builtins)
      (SizeEstimation.init None) [100; 100; 300; 200] 1920 1080 (Some 20)
    = Ok est /\
    (SizeEstimation.distance_m est = 20 /\
     forall image_height',
       SizeEstimation.estimate_size_from_bbox (B := ApproxMath.builtins)
         (SizeEstimation.init None) [100; 100; 300; 200] 1920 image_height'
         (Some 20) = Ok est) /\
    SizeEstimation.width_m est * (200 - 100)
    == SizeEstimation.height_m est * (300 - 100).
Proof.
  eexists. split; [vm_compute; reflexivity|].
  refine ((fun H => conj (proj1 H) (proj1 (proj2 H)))
            (@estimate_size_from_bbox_geometry ApproxMath.builtins
               (SizeEstimation.init None) 100 100 300 200 1920 1080
               (Some 20) _ _)).
  vm_compute. reflexivity.
Defined.

(** A box the detector generates, passed on with the size of a full-HD
    image. *)
Lemma normalized_bbox_confidence_witness :
  exists bbox s,
    Detection._generate_realistic_bbox (5 # 10) (3 # 10) 4 (4 # 10)
    = Ok bbox /\
    SizeEstimation.estimate_billboard_size (B := ApproxMath.builtins)
      bbox 1920 1080 None = Ok s /\
    SizeEstimation.r_confidence s == 1 # 10 /\
    SizeEstimation.r_method s = "camera_assumptions"%string.
Proof.
  eexists. eexists. split; [vm_compute; reflexivity|].
  split; [vm_compute; reflexivity|].
  apply (@normalized_bbox_confidence ApproxMath.builtins
           [3 # 10; 1 # 4; 7 # 10; 7 # 20] 1920 1080).
  - repeat constructor; discriminate.
  - vm_compute. reflexivity.
Defined.
